(** * bla-back: presence tracking, event fan-out and call sessions

    A shallow embedding of the realtime core of the chat backend
    (internal/realtime, internal/calls, internal/handlers/calls.go) and the
    properties of it that the specification states. *)

From Stdlib Require Import ZArith Lia Ascii String.
From stdpp Require Import gmap strings list sorting.

Open Scope Z_scope.

(** ** Go base types *)

Module GoInt.

(** Go's [int] on the 64-bit targets the server is built for: a
    two's-complement number, arithmetic wraps around. *)
Definition min_int : Z := - 2 ^ 63.
Definition max_int : Z := 2 ^ 63 - 1.

Definition wrap (z : Z) : Z := (z + 2 ^ 63) mod 2 ^ 64 - 2 ^ 63.

Definition incr (z : Z) : Z := wrap (z + 1).
Definition decr (z : Z) : Z := wrap (z - 1).

End GoInt.

(** [uuid.UUID] is a [[16]byte]; it is kept as the 128-bit number those bytes
    spell in big-endian order. *)
Record UUID := mkUUID { uuid_val : N }.

#[global] Instance UUID_eq_dec : EqDecision UUID.
Proof. solve_decision. Defined.

#[global] Instance UUID_countable : Countable UUID.
Proof. apply (inj_countable' uuid_val mkUUID). by intros []. Defined.

(** ** Presence tracker (internal/realtime/centrifuge.go) *)

Module Presence.

(** [Node.onlineUsers]: userID -> connection count.  Reading a key that is
    not in a Go map yields the zero value. *)
Definition get (m : gmap UUID Z) (u : UUID) : Z := default 0 (m !! u).

(** [addOnlineUser]:
      wasOffline := n.onlineUsers[userID] == 0
      n.onlineUsers[userID]++
      return wasOffline *)
Definition addOnlineUser (m : gmap UUID Z) (u : UUID) : gmap UUID Z * bool :=
  let wasOffline := bool_decide (get m u = 0) in
  (<[u := GoInt.incr (get m u)]> m, wasOffline).

(** [removeOnlineUser]:
      n.onlineUsers[userID]--
      if n.onlineUsers[userID] <= 0 { delete(n.onlineUsers, userID); return true }
      return false *)
Definition removeOnlineUser (m : gmap UUID Z) (u : UUID) : gmap UUID Z * bool :=
  let m1 := <[u := GoInt.decr (get m u)]> m in
  if decide (get m1 u <= 0) then (delete u m1, true) else (m1, false).

(** [IsOnline]: return n.onlineUsers[userID] > 0 *)
Definition IsOnline (m : gmap UUID Z) (u : UUID) : bool :=
  bool_decide (get m u > 0).

(** The connection events the substrate delivers ([OnConnect] and
    [OnDisconnect] callbacks), each for one user. *)
Inductive conn_event := Connect (u : UUID) | Disconnect (u : UUID).

Definition step (m : gmap UUID Z) (e : conn_event) : gmap UUID Z * bool :=
  match e with
  | Connect u => addOnlineUser m u
  | Disconnect u => removeOnlineUser m u
  end.

Fixpoint run (m : gmap UUID Z) (evs : list conn_event) : gmap UUID Z :=
  match evs with
  | [] => m
  | e :: rest => run (step m e).1 rest
  end.

(** Connects minus disconnects of user [u] in a sequence of events. *)
Definition delta (u : UUID) (e : conn_event) : Z :=
  match e with
  | Connect v => if decide (v = u) then 1 else 0
  | Disconnect v => if decide (v = u) then -1 else 0
  end.

Fixpoint balance (u : UUID) (evs : list conn_event) : Z :=
  match evs with
  | [] => 0
  | e :: rest => delta u e + balance u rest
  end.

(** The entry of a user with [b] live connections: none at zero. *)
Definition entry (b : Z) : option Z := if decide (0 < b) then Some b else None.

Definition event_user (e : conn_event) : UUID :=
  match e with Connect u => u | Disconnect u => u end.

(** Causality: no prefix has more disconnects than connects, for any user. *)
Definition causal (evs : list conn_event) : Prop :=
  forall (n : nat) (u : UUID), 0 <= balance u (take n evs).

End Presence.

(** ** Errors, time, slices, objects *)

(** Instants ([time.Time], [TIMESTAMP WITH TIME ZONE]) in microseconds, the
    resolution the database keeps. *)
Definition Time := Z.

Inductive error :=
  | ErrNoRows                       (* pgx.ErrNoRows *)
  | ErrUserNotFound                 (* auth.ErrUserNotFound *)
  | ErrConstraint (name : string)   (* a constraint of the schema rejected the statement *)
  | ErrDriver (msg : string)        (* the driver failed: connection lost, context cancelled, ... *)
  | ErrMarshal (msg : string)       (* encoding/json refused the value *)
  | ErrSubstrate (msg : string).    (* centrifuge's Publish failed *)

#[global] Instance error_eq_dec : EqDecision error.
Proof. solve_decision. Defined.

(** A Go slice value: [None] is the nil slice, [Some []] an empty non-nil one. *)
Definition slice (A : Type) := option (list A).

Definition elems {A} (s : slice A) : list A := default [] s.
Definition len {A} (s : slice A) : Z := Z.of_nat (length (elems s)).
Definition append {A} (s : slice A) (x : A) : slice A := Some (elems s ++ [x]).

(** [if s == nil { s = []T{} }] *)
Definition or_empty {A} (s : slice A) : slice A :=
  match s with None => Some [] | Some l => Some l end.

(** ** Models (package models) *)

Module models.

(** Modelled from the spec: the declaration of [models.User] is not among
    the sources; the fields are the ones the repositories scan into and the
    realtime node writes ([Status], "each embedded user's status field"). *)
Record User := mkUser {
  ID : UUID;
  Email : string;
  Username : option string;
  AvatarURL : option string;
  Status : string;
  CreatedAt : Time;
  UpdatedAt : Time
}.

Definition zeroUser : User := mkUser (mkUUID 0) "" None None "" 0 0.

Definition withStatus (u : User) (s : string) : User :=
  mkUser (ID u) (Email u) (Username u) (AvatarURL u) s (CreatedAt u) (UpdatedAt u).

(** [*User]: users are shared, mutable objects; the object store maps the
    addresses in use to their contents.  An address that is not in the store
    is a nil (or dangling) pointer.  The structures that hold these pointers
    ([*FriendWithUser], [*ConversationWithDetails], ...) are only read once
    built and are kept by value. *)
Definition loc := positive.

Record FriendWithUser := mkFriend {
  FriendshipID : UUID;
  FriendUser : loc;                (* User *User *)
  Since : Time
}.

Record FriendRequestWithUser := mkRequest {
  RequestID : UUID;
  RequestStatus : string;
  RequestUser : loc;               (* User *User *)
  RequestCreatedAt : Time
}.

Record Message := mkMessage {
  MessageID : UUID;
  MessageConversationID : UUID;
  SenderID : UUID;
  MessageType : string;
  Content : string;
  MessageCreatedAt : Time;
  MessageUpdatedAt : Time;
  Sender : option User             (* Sender *User: a fresh object, nil when not joined *)
}.

Record ConversationWithDetails := mkConversation {
  ConvID : UUID;
  ConvType : string;
  ConvName : option string;
  ConvAvatarURL : option string;
  OwnerID : option UUID;
  Participants : slice loc;         (* []*User *)
  LastMessage : option Message;
  ConvUpdatedAt : Time
}.

Record ActiveCallInfo := mkActiveCallInfo {
  ActiveCallID : UUID;
  ActiveConversationID : UUID;
  ActiveParticipants : slice UUID;
  ActiveStartedAt : string
}.

Record ReadyEvent := mkReady {
  ReadyUser : option loc;           (* User *User *)
  Friends : slice FriendWithUser;
  IncomingRequests : slice FriendRequestWithUser;
  OutgoingRequests : slice FriendRequestWithUser;
  Conversations : slice ConversationWithDetails;
  ActiveCalls : slice ActiveCallInfo
}.

Record PresenceUpdateEvent := mkPresenceUpdate {
  PresenceUserID : UUID;
  PresenceStatus : string
}.

(** [CallID *uuid.UUID]: nil = no active call. *)
Record CallStateEvent := mkCallState {
  StateConversationID : UUID;
  StateCallID : option UUID;
  StateParticipants : slice UUID
}.

(** Modelled from the spec: [models.CallMessageContent] is declared outside
    the sources; the fields are the ones [createCallMessage] fills. *)
Record CallMessageContent := mkCallContent {
  ContentCallID : string;
  ContentDuration : Z;
  ContentParticipants : list string;
  ContentStatus : string
}.

End models.

(** The store of [User] objects reachable from the values above. *)
Definition alloc (h : gmap models.loc models.User) (u : models.User)
  : models.loc * gmap models.loc models.User :=
  let l := fresh (dom h) in (l, <[l := u]> h).

(** [uuid.UUID.String]: the canonical lower-case form 8-4-4-4-12. *)
Definition hexdigit (n : N) : Ascii.ascii :=
  nth (N.to_nat n) (String.list_ascii_of_string "0123456789abcdef") "0"%char.

Definition hex_byte (b : N) : string :=
  String (hexdigit (b / 16)) (String (hexdigit (b mod 16)) "").

Definition uuid_byte (u : UUID) (i : nat) : N :=
  ((uuid_val u / 256 ^ N.of_nat (15 - i)) mod 256)%N.

Definition hex_bytes (u : UUID) (idx : list nat) : string :=
  foldr (fun i acc => hex_byte (uuid_byte u i) +:+ acc) "" idx.

Definition UUID_String (u : UUID) : string :=
  hex_bytes u [0; 1; 2; 3]%nat +:+ "-" +:+ hex_bytes u [4; 5]%nat +:+ "-" +:+
  hex_bytes u [6; 7]%nat +:+ "-" +:+ hex_bytes u [8; 9]%nat +:+ "-" +:+
  hex_bytes u [10; 11; 12; 13; 14; 15]%nat.

(** ** What the database driver hands back to a repository *)

(** One [rows.Next(); rows.Scan(...)] round: the columns of a row, or the
    error [Scan] reports for it. *)
Inductive scanned (A : Type) :=
  | Row (a : A)
  | ScanError (e : error).
Arguments Row {A} a.
Arguments ScanError {A} e.

(** The result set of a [db.Query] that was accepted: the rows [Next] yields
    before it returns false, and what [rows.Err()] says afterwards (an error
    when the stream broke off before its end). *)
Record cursor (A : Type) := mkCursor {
  cur_rows : list (scanned A);
  cur_err : option error
}.
Arguments mkCursor {A} _ _.
Arguments cur_rows {A} _.
Arguments cur_err {A} _.

(** [db.Query]: refused with an error, or a cursor. *)
Definition query (A : Type) := (error + cursor A)%type.

(** The loop shared by the repositories:
      for rows.Next() { x := new; if err := rows.Scan(..); err != nil { return nil, err }; acc = append(acc, x) }
    [mk] builds the Go value (allocating the objects it points to) from the
    scanned columns.  The object allocated for a row whose scan fails is
    unreachable afterwards and is left out of the store. *)
Fixpoint scan_all {R A : Type}
    (mk : gmap models.loc models.User -> R -> A * gmap models.loc models.User)
    (rows : list (scanned R)) (acc : slice A) (h : gmap models.loc models.User)
  : (error + slice A) * gmap models.loc models.User :=
  match rows with
  | [] => (inr acc, h)
  | ScanError e :: _ => (inl e, h)
  | Row r :: rest => let '(a, h1) := mk h r in scan_all mk rest (append acc a) h1
  end.

(** ** internal/friends: the fetches the ready state uses *)

Module FriendsRepo.
Import models.

Record FriendRow := mkFriendRow {
  fr_id : UUID; fr_updated_at : Time; fr_user : User }.

Record RequestRow := mkRequestRow {
  rq_id : UUID; rq_status : string; rq_created_at : Time; rq_user : User }.

(** f := &models.FriendWithUser{User: &models.User{}}; rows.Scan(&f.FriendshipID, &f.Since, &f.User.ID, ...) *)
Definition mkFriendWithUser (h : gmap loc User) (r : FriendRow) : FriendWithUser * gmap loc User :=
  let '(l, h1) := alloc h (fr_user r) in (mkFriend (fr_id r) l (fr_updated_at r), h1).

Definition mkRequestWithUser (h : gmap loc User) (r : RequestRow) : FriendRequestWithUser * gmap loc User :=
  let '(l, h1) := alloc h (rq_user r) in (mkRequest (rq_id r) (rq_status r) l (rq_created_at r), h1).

(** [GetFriends]:
      rows, err := r.db.Query(...); if err != nil { return nil, err }
      var friends []*models.FriendWithUser
      for rows.Next() { ...; if err != nil { return nil, err }; friends = append(friends, f) }
      return friends, rows.Err() *)
Definition GetFriends (q : query FriendRow) (h : gmap loc User)
  : (slice FriendWithUser * option error) * gmap loc User :=
  match q with
  | inl e => ((None, Some e), h)
  | inr c =>
      match scan_all mkFriendWithUser (cur_rows c) None h with
      | (inl e, h1) => ((None, Some e), h1)
      | (inr friends, h1) => ((friends, cur_err c), h1)
      end
  end.

(** [GetIncomingRequests] and [GetOutgoingRequests] have the same body, up
    to the text of the query. *)
Definition GetRequests (q : query RequestRow) (h : gmap loc User)
  : (slice FriendRequestWithUser * option error) * gmap loc User :=
  match q with
  | inl e => ((None, Some e), h)
  | inr c =>
      match scan_all mkRequestWithUser (cur_rows c) None h with
      | (inl e, h1) => ((None, Some e), h1)
      | (inr requests, h1) => ((requests, cur_err c), h1)
      end
  end.

Definition GetIncomingRequests := GetRequests.
Definition GetOutgoingRequests := GetRequests.

End FriendsRepo.

(** ** internal/auth: GetUserByID *)

Module AuthRepo.
Import models.

(** [GetUserByID]:
      user := &models.User{}
      err := r.db.QueryRow(...).Scan(&user.ID, ...)
      if errors.Is(err, pgx.ErrNoRows) { return nil, ErrUserNotFound }
      return user, err
    [row] is what [Scan] produced; the object returned is given by its
    contents. *)
Definition GetUserByID (row : User + error) : option User * option error :=
  match row with
  | inl u => (Some u, None)
  | inr e =>
      if decide (e = ErrNoRows) then (None, Some ErrUserNotFound)
      else (Some zeroUser, Some e)
  end.

End AuthRepo.

(** ** internal/messages: GetUserConversations *)

Module MessagesRepo.
Import models.

Record ConvRow := mkConvRow {
  cv_id : UUID; cv_type : string; cv_name : option string;
  cv_avatar_url : option string; cv_owner_id : option UUID; cv_updated_at : Time }.

(** The second loop of [GetUserConversations], over the conversations
    already scanned:
      pRows, err := r.db.Query(participants of conv.ID); if err != nil { return nil, err }
      for pRows.Next() { user := &models.User{}; if err := pRows.Scan(..); err != nil { return nil, err }
                         conv.Participants = append(conv.Participants, user) }
      err = r.db.QueryRow(last message of conv.ID).Scan(..); if err == nil { conv.LastMessage = lastMsg } *)
Fixpoint load_details (parts : UUID -> query User) (last : UUID -> Message + error)
    (convs : list ConvRow) (h : gmap loc User)
  : (error + list ConversationWithDetails) * gmap loc User :=
  match convs with
  | [] => (inr [], h)
  | c :: rest =>
      match parts (cv_id c) with
      | inl e => (inl e, h)
      | inr cur =>
          match scan_all alloc (cur_rows cur) None h with
          | (inl e, h1) => (inl e, h1)
          | (inr ps, h1) =>
              let lastMsg := match last (cv_id c) with inl m => Some m | inr _ => None end in
              match load_details parts last rest h1 with
              | (inl e, h2) => (inl e, h2)
              | (inr cs, h2) =>
                  (inr (mkConversation (cv_id c) (cv_type c) (cv_name c) (cv_avatar_url c)
                          (cv_owner_id c) ps lastMsg (cv_updated_at c) :: cs), h2)
              end
          end
      end
  end.

(** [GetUserConversations]:
      rows, err := r.db.Query(...); if err != nil { return nil, err }
      var conversations []*models.ConversationWithDetails
      for rows.Next() { ...Scan...; if err != nil { return nil, err }; append }
      for _, conv := range conversations { ... }      (load_details)
      return conversations, nil
    [rows.Err()] is not consulted. *)
Definition GetUserConversations (q : query ConvRow) (parts : UUID -> query User)
    (last : UUID -> Message + error) (h : gmap loc User)
  : (slice ConversationWithDetails * option error) * gmap loc User :=
  match q with
  | inl e => ((None, Some e), h)
  | inr c =>
      match scan_all (fun h r => (r, h)) (cur_rows c) None h with
      | (inl e, h1) => ((None, Some e), h1)
      | (inr None, h1) => ((None, None), h1)
      | (inr (Some convs), h1) =>
          match load_details parts last convs h1 with
          | (inl e, h2) => ((None, Some e), h2)
          | (inr cs, h2) => ((Some cs, None), h2)
          end
      end
  end.

End MessagesRepo.

(** ** internal/calls: the data model *)

Module calls.

Record Participant := mkParticipant {
  UserID : UUID;
  JoinedAt : Time;
  LeftAt : option Time
}.

Record Call := mkCall {
  ID : UUID;
  ConversationID : UUID;
  StartedBy : UUID;
  StartedAt : Time;
  EndedAt : option Time;
  Participants : slice Participant
}.

Definition withParticipants (c : Call) (ps : slice Participant) : Call :=
  mkCall (ID c) (ConversationID c) (StartedBy c) (StartedAt c) (EndedAt c) ps.

(** Modelled from the spec: [calls.CallEndInfo] is used by
    internal/handlers/calls.go but declared outside the sources: "call id,
    conversation id, starter, full participant list, duration in whole
    seconds". *)
Record CallEndInfo := mkCallEndInfo {
  EndCallID : UUID;
  EndConversationID : UUID;
  EndStartedBy : UUID;
  EndParticipants : slice UUID;
  Duration : Z
}.

(** The loop of [GetActiveCallsForConversations] over the calls of the
    result set; each call row triggers a query for its participants:
      if err := rows.Scan(..); err != nil { return nil, err }
      participantRows, err := r.db.Query(..call.ID); if err != nil { return nil, err }
      for participantRows.Next() { ..Scan..; if err != nil { return nil, err }; append }
      calls = append(calls, call) *)
Fixpoint scan_calls (parts : UUID -> query Participant)
    (rows : list (scanned Call)) (acc : slice Call) : error + slice Call :=
  match rows with
  | [] => inr acc
  | ScanError e :: _ => inl e
  | Row c :: rest =>
      match parts (ID c) with
      | inl e => inl e
      | inr cur =>
          match scan_all (fun h p => (p, h)) (cur_rows cur) None ∅ with
          | (inl e, _) => inl e
          | (inr ps, _) => scan_calls parts rest (append acc (withParticipants c ps))
          end
      end
  end.

(** [Repository.GetActiveCallsForConversations], on the answers of the
    driver:
      if len(conversationIDs) == 0 { return []*Call{}, nil }
      rows, err := r.db.Query(...); if err != nil { return nil, err }
      var calls []*Call; for rows.Next() { ... }; return calls, nil *)
Definition GetActiveCallsForConversations (q : list UUID -> query Call)
    (parts : UUID -> query Participant) (conversationIDs : slice UUID)
  : slice Call * option error :=
  if decide (len conversationIDs = 0) then (Some [], None)
  else match q (elems conversationIDs) with
       | inl e => (None, Some e)
       | inr c =>
           match scan_calls parts (cur_rows c) None with
           | inl e => (None, Some e)
           | inr cs => (cs, None)
           end
       end.

End calls.

(** ** internal/realtime/provider.go *)

Module Provider.
Import models.

(** What the database answers to the statements of one [GetReadyState]. *)
Record Fetched := mkFetched {
  user_row : User + error;
  friends_q : query FriendsRepo.FriendRow;
  incoming_q : query FriendsRepo.RequestRow;
  outgoing_q : query FriendsRepo.RequestRow;
  conversations_q : query MessagesRepo.ConvRow;
  participants_q : UUID -> query User;
  last_message_q : UUID -> Message + error;
  active_calls_q : list UUID -> query calls.Call;
  call_participants_q : UUID -> query calls.Participant
}.

Section GetReadyState.
(** [time.Time.Format("2006-01-02T15:04:05Z07:00")] *)
Variable Format : Time -> string.

(** participants := make([]uuid.UUID, len(call.Participants)); participants[i] = p.UserID *)
Definition toActiveCallInfo (c : calls.Call) : ActiveCallInfo :=
  mkActiveCallInfo (calls.ID c) (calls.ConversationID c)
    (Some (map calls.UserID (elems (calls.Participants c))))
    (Format (calls.StartedAt c)).

(** [Provider.GetReadyState].  The single goroutine that does the loading
    hands its result over a channel the caller blocks on, so the effect
    is that of running its body in place. *)
Definition GetReadyState (f : Fetched) (h : gmap loc User)
  : (option ReadyEvent * option error) * gmap loc User :=
  let '(user, err) := AuthRepo.GetUserByID (user_row f) in
  match err with
  | Some e => ((None, Some e), h)
  | None =>
      let '(user, h) :=
        match user with
        | Some u => let '(l, h1) := alloc h u in (Some l, h1)
        | None => (None, h)
        end in
      let '((friends, _), h) := FriendsRepo.GetFriends (friends_q f) h in
      let friends := or_empty friends in
      let '((incoming, _), h) := FriendsRepo.GetIncomingRequests (incoming_q f) h in
      let incoming := or_empty incoming in
      let '((outgoing, _), h) := FriendsRepo.GetOutgoingRequests (outgoing_q f) h in
      let outgoing := or_empty outgoing in
      let '((conversations, _), h) :=
        MessagesRepo.GetUserConversations (conversations_q f) (participants_q f)
          (last_message_q f) h in
      let conversations := or_empty conversations in
      let activeCalls : slice ActiveCallInfo :=
        if decide (len conversations > 0) then
          let conversationIDs := Some (map ConvID (elems conversations)) in
          let '(active, _) :=
            calls.GetActiveCallsForConversations (active_calls_q f)
              (call_participants_q f) conversationIDs in
          foldl (fun acc c => append acc (toActiveCallInfo c)) None (elems active)
        else None in
      let activeCalls := or_empty activeCalls in
      ((Some (mkReady user friends incoming outgoing conversations activeCalls), None), h)
  end.
End GetReadyState.

End Provider.

(** ** internal/realtime/centrifuge.go: the node *)

Module Node.
Import models.

(** The values passed as [data interface{}] by the code modelled here.  A
    ready state is a pointer structure: it is serialized as the object store
    shows it when the push runs. *)
Inductive Data :=
  | DataReady (r : ReadyEvent) (h : gmap loc User)
  | DataPresenceUpdate (e : PresenceUpdateEvent)
  | DataCallState (e : CallStateEvent)
  | DataMessageCreate (message : option Message) (conversation_id : UUID).

Inductive Disconnect := DisconnectInvalidToken.

Inductive SubscribeError := ErrorPermissionDenied | ErrorInternal.

(** How a subscribe request ends: the callback is given an error; or it is
    given nil and the READY push is started; or the handler panics on a nil
    pointer. *)
Inductive SubscribeResult :=
  | Refused (e : SubscribeError) (h : gmap loc User)
  | Subscribed (h : gmap loc User) (readyState : ReadyEvent) (pushed : list (string * string))
  | Panicked.

Definition quote : string := String (ascii_of_nat 34) "".

(** The JSON object with the two members "data" and "type", as
    encoding/json writes a map: keys in sorted order, no white space. *)
Definition envelope (encodedType encodedData : string) : string :=
  "{" +:+ quote +:+ "data" +:+ quote +:+ ":" +:+ encodedData +:+ "," +:+
  quote +:+ "type" +:+ quote +:+ ":" +:+ encodedType +:+ "}".

(** Between two object stores: the object at [l] has had its status
    overwritten from the tracker; every object is as it was or has had its
    status overwritten. *)
Definition settled (presenceOf : User -> User) (h h' : gmap loc User) (l : loc) : Prop :=
  exists u, h !! l = Some u /\ h' !! l = Some (presenceOf u).

Definition overwritten (presenceOf : User -> User) (h h' : gmap loc User) : Prop :=
  forall l, h' !! l = h !! l \/ settled presenceOf h h' l.

(** if n.IsOnline(u.ID) { u.Status = "online" } else { u.Status = "offline" } *)
Definition presenceStatus (online : gmap UUID Z) (u : User) : string :=
  if Presence.IsOnline online (ID u) then "online" else "offline".

(** The user object after the assignment to its [Status]. *)
Definition enriched (online : gmap UUID Z) (u : User) : User :=
  withStatus u (presenceStatus online u).

Definition enrichUser (online : gmap UUID Z) (h : gmap loc User) (l : loc)
  : option (gmap loc User) :=
  match h !! l with
  | None => None
  | Some u => Some (<[l := enriched online u]> h)
  end.

(** for _, participant := range conv.Participants { ... } *)
Fixpoint enrichUsers (online : gmap UUID Z) (ls : list loc) (h : gmap loc User)
  : option (gmap loc User) :=
  match ls with
  | [] => Some h
  | l :: rest =>
      match enrichUser online h l with
      | None => None
      | Some h1 => enrichUsers online rest h1
      end
  end.

(** for _, friend := range readyState.Friends { ... friend.User ... } *)
Definition enrichFriends (online : gmap UUID Z) (fs : list FriendWithUser)
    (h : gmap loc User) : option (gmap loc User) :=
  enrichUsers online (map FriendUser fs) h.

(** for _, conv := range readyState.Conversations { for _, participant := range conv.Participants { ... } } *)
Fixpoint enrichConversations (online : gmap UUID Z) (cs : list ConversationWithDetails)
    (h : gmap loc User) : option (gmap loc User) :=
  match cs with
  | [] => Some h
  | c :: rest =>
      match enrichUsers online (elems (Participants c)) h with
      | None => None
      | Some h1 => enrichConversations online rest h1
      end
  end.

Section WithSubstrate.
(** encoding/json, as far as the envelope needs it: the encoding of a
    string, and the encoding of a payload (or the error Marshal reports
    for it). *)
Variable encodeString : string -> string.
Variable encodeData : Data -> string + error.
(** [centrifuge.Node.Publish(channel, payload)]: the error it returns, if any. *)
Variable nodePublish : string -> string -> option error.
(** [auth.TokenService.ValidateAccessToken]: the user id of the claims. *)
Variable ValidateAccessToken : string -> UUID + error.
(** [DataProvider.GetReadyState] *)
Variable dataProvider :
  UUID -> gmap loc User -> (option ReadyEvent * option error) * gmap loc User.

(** json.Marshal(map[string]interface{}{"type": eventType, "data": data}) *)
Definition marshalEnvelope (eventType : string) (data : Data) : string + error :=
  match encodeData data with
  | inr e => inr e
  | inl d => inl (envelope (encodeString eventType) d)
  end.

(** [Node.PublishToUser]: the calls made to the substrate's [Publish]
    (channel, payload) and the error returned. *)
Definition PublishToUser (userID : UUID) (eventType : string) (data : Data)
  : list (string * string) * option error :=
  let channel := "user:" +:+ UUID_String userID in
  match marshalEnvelope eventType data with
  | inr err => ([], Some err)
  | inl payload => ([(channel, payload)], nodePublish channel payload)
  end.

(** [Node.PublishToUsers]: a failed publish is logged and the loop goes on. *)
Definition PublishToUsers (userIDs : list UUID) (eventType : string) (data : Data)
  : list (string * string) :=
  flat_map (fun userID => (PublishToUser userID eventType data).1) userIDs.

(** The [OnConnecting] handler: the credentials of the connection
    ([Credentials.UserID]) or the disconnect sent back. *)
Definition OnConnecting (token : string) : string + Disconnect :=
  if decide (token = "") then inr DisconnectInvalidToken
  else match ValidateAccessToken token with
       | inr _ => inr DisconnectInvalidToken
       | inl claimsUserID => inl (UUID_String claimsUserID)
       end.

(** The [client.OnSubscribe] handler of a connection whose
    [client.UserID()] is [clientUserID] and parses to [userID]. *)
Definition OnSubscribe (clientUserID : string) (userID : UUID)
    (online : gmap UUID Z) (channel : string) (h : gmap loc User) : SubscribeResult :=
  let expectedChannel := "user:" +:+ clientUserID in
  if decide (channel <> expectedChannel) then Refused ErrorPermissionDenied h
  else
    match dataProvider userID h with
    | ((_, Some err), h1) => Refused ErrorInternal h1
    | ((None, None), _) => Panicked
    | ((Some readyState, None), h1) =>
        match enrichFriends online (elems (Friends readyState)) h1 with
        | None => Panicked
        | Some h2 =>
            match enrichConversations online (elems (Conversations readyState)) h2 with
            | None => Panicked
            | Some h3 =>
                Subscribed h3 readyState
                  (PublishToUser userID "READY" (DataReady readyState h3)).1
            end
        end
    end.
End WithSubstrate.

End Node.

(** ** The persistent store and the effects of a request *)

(** A row of [call_participants]; primary key (call_id, user_id, joined_at). *)
Record ParticipantRow := mkParticipantRow {
  cp_call_id : UUID;
  cp_user_id : UUID;
  cp_joined_at : Time;
  cp_left_at : option Time
}.

(** The tables the call handlers touch.  Of [conversations] the handlers
    use the ids only (the foreign key of [calls]).  A row of [calls] is a
    [calls.Call] whose [Participants] is nil.  The inserts into [calls] and
    [call_participants] take ids from the request and check their foreign
    keys; the insert into [messages] takes its ids from a call row, which
    holds them under foreign keys of its own. *)
Record Store := mkStore {
  tbl_conversations : list UUID;                        (* id *)
  tbl_calls : list calls.Call;
  tbl_call_participants : list ParticipantRow;
  tbl_conversation_participants : list (UUID * UUID);   (* conversation_id, user_id *)
  tbl_users : list models.User;
  tbl_messages : list models.Message
}.

(** A call to [Notifier.NotifyUsers]. *)
Record Notification := mkNotification {
  recipients : slice UUID;
  eventType : string;
  data : Node.Data
}.

(** What a request handler runs against: the store, the failures the driver
    reports for the coming round trips to the database (none left: no
    failure), the coming readings of the clock, the coming fresh ids, and the
    notifications handed to the notifier so far. *)
Record World := mkWorld {
  db : Store;
  driver : list (option error);
  clock : list Time;
  ids : list UUID;
  outbox : list Notification
}.

Definition M (A : Type) : Type := World -> A * World.

Definition ret {A} (a : A) : M A := fun w => (a, w).

Definition bind {A B} (c : M A) (k : A -> M B) : M B :=
  fun w => let '(a, w1) := c w in k a w1.

Notation "x <- c ;; k" := (bind c (fun x => k))
  (at level 100, c at next level, right associativity).
Notation "c ;;; k" := (bind c (fun _ => k))
  (at level 100, right associativity).

(** One round trip to the database: the failure the driver reports, if any. *)
Definition roundtrip : M (option error) := fun w =>
  match driver w with
  | [] => (None, w)
  | f :: rest => (f, mkWorld (db w) rest (clock w) (ids w) (outbox w))
  end.

(** The failure the driver reports for the round trip that comes [n] round
    trips from now, if any. *)
Definition failure (w : World) (n : nat) : option error := default None (driver w !! n).

(** [time.Now()] (and [NOW()] in a statement). *)
Definition Now : M Time := fun w =>
  match clock w with
  | [] => (0, w)
  | t :: rest => (t, mkWorld (db w) (driver w) rest (ids w) (outbox w))
  end.

(** [uuid.New()] (and [uuid_generate_v4()] in a statement). *)
Definition NewUUID : M UUID := fun w =>
  match ids w with
  | [] => (mkUUID 0, w)
  | i :: rest => (i, mkWorld (db w) (driver w) (clock w) rest (outbox w))
  end.

Definition getDB : M Store := fun w => (db w, w).

Definition putDB (s : Store) : M unit := fun w =>
  (tt, mkWorld s (driver w) (clock w) (ids w) (outbox w)).

(** [Notifier.NotifyUsers(userIDs, eventType, data)] *)
Definition NotifyUsers (userIDs : slice UUID) (ty : string) (d : Node.Data) : M unit := fun w =>
  (tt, mkWorld (db w) (driver w) (clock w) (ids w) (outbox w ++ [mkNotification userIDs ty d])).

Definition withCalls (s : Store) (cs : list calls.Call) : Store :=
  mkStore (tbl_conversations s) cs (tbl_call_participants s) (tbl_conversation_participants s)
    (tbl_users s) (tbl_messages s).

Definition withCallParticipants (s : Store) (ps : list ParticipantRow) : Store :=
  mkStore (tbl_conversations s) (tbl_calls s) ps (tbl_conversation_participants s)
    (tbl_users s) (tbl_messages s).

Definition withMessages (s : Store) (ms : list models.Message) : Store :=
  mkStore (tbl_conversations s) (tbl_calls s) (tbl_call_participants s)
    (tbl_conversation_participants s) (tbl_users s) ms.

(** A slice built by [append] from nil: nil when nothing was appended. *)
Definition collected {A} (l : list A) : slice A :=
  match l with [] => None | _ => Some l end.

(** ** internal/calls: Repository, on the store *)

Module CallsRepository.
Import calls.

Definition isActiveCall (conversationID : UUID) (c : Call) : bool :=
  bool_decide (ConversationID c = conversationID) && bool_decide (EndedAt c = None).

(** ORDER BY started_at DESC LIMIT 1: the first row with the greatest
    [started_at]. *)
Fixpoint latest (cs : list Call) : option Call :=
  match cs with
  | [] => None
  | c :: rest =>
      match latest rest with
      | Some c' => if decide (StartedAt c < StartedAt c') then Some c' else Some c
      | None => Some c
      end
  end.

(** [GetActiveCallForConversation]: [QueryRow(...).Scan(...)]; any error,
    [pgx.ErrNoRows] among them, comes back as [nil, err]. *)
Definition GetActiveCallForConversation (conversationID : UUID)
  : M (option Call * option error) :=
  f <- roundtrip ;;
  match f with
  | Some e => ret (None, Some e)
  | None =>
      s <- getDB ;;
      match latest (List.filter (fun c => isActiveCall conversationID c) (tbl_calls s)) with
      | None => ret (None, Some ErrNoRows)
      | Some c => ret (Some c, None)
      end
  end.

Definition isActiveParticipant (callID : UUID) (p : ParticipantRow) : bool :=
  bool_decide (cp_call_id p = callID) && bool_decide (cp_left_at p = None).

Definition activeRows (s : Store) (callID : UUID) : list ParticipantRow :=
  List.filter (fun p => isActiveParticipant callID p) (tbl_call_participants s).

Definition joinedBefore (p q : ParticipantRow) : Prop := cp_joined_at p <= cp_joined_at q.

#[global] Instance joinedBefore_dec p q : Decision (joinedBefore p q).
Proof. unfold joinedBefore, Time. apply _. Defined.

Definition toParticipant (p : ParticipantRow) : Participant :=
  mkParticipant (cp_user_id p) (cp_joined_at p) (cp_left_at p).

(** [GetCallWithParticipants]: the call by id, then its active
    participants ORDER BY joined_at. *)
Definition GetCallWithParticipants (callID : UUID) : M (option Call * option error) :=
  f <- roundtrip ;;
  match f with
  | Some e => ret (None, Some e)
  | None =>
      s <- getDB ;;
      match find (fun c => bool_decide (ID c = callID)) (tbl_calls s) with
      | None => ret (None, Some ErrNoRows)
      | Some c =>
          f2 <- roundtrip ;;
          match f2 with
          | Some e => ret (None, Some e)
          | None =>
              let rows :=
                merge_sort joinedBefore (activeRows s callID) in
              ret (Some (withParticipants c (collected (map toParticipant rows))), None)
          end
      end
  end.

Definition samePK (callID userID : UUID) (joinedAt : Time) (p : ParticipantRow) : bool :=
  bool_decide (cp_call_id p = callID) && bool_decide (cp_user_id p = userID)
  && bool_decide (cp_joined_at p = joinedAt).

(** call_id REFERENCES calls(id), started_by and user_id REFERENCES users(id),
    conversation_id REFERENCES conversations(id) *)
Definition hasCall (s : Store) (callID : UUID) : bool :=
  existsb (fun c => bool_decide (ID c = callID)) (tbl_calls s).

Definition hasUser (s : Store) (userID : UUID) : bool :=
  existsb (fun u => bool_decide (models.ID u = userID)) (tbl_users s).

Definition hasConversation (s : Store) (conversationID : UUID) : bool :=
  existsb (fun c => bool_decide (c = conversationID)) (tbl_conversations s).

(** INSERT INTO call_participants (call_id, user_id, joined_at): refused
    when the primary key is taken or a foreign key names no row, else a
    row with left_at NULL is added. *)
Definition insertParticipant (s : Store) (callID userID : UUID) (joinedAt : Time)
  : error + Store :=
  if existsb (samePK callID userID joinedAt) (tbl_call_participants s)
  then inl (ErrConstraint "call_participants_pkey")
  else if negb (hasCall s callID)
  then inl (ErrConstraint "call_participants_call_id_fkey")
  else if negb (hasUser s userID)
  then inl (ErrConstraint "call_participants_user_id_fkey")
  else inr (withCallParticipants s
              (tbl_call_participants s ++ [mkParticipantRow callID userID joinedAt None])).

(** [StartCall]: one transaction inserting the call and its starter; a
    failure at any statement (the driver's, or a key of the schema) rolls
    everything back. *)
Definition StartCall (conversationID userID : UUID) : M (option Call * option error) :=
  f <- roundtrip ;;                                  (* Begin *)
  match f with
  | Some e => ret (None, Some e)
  | None =>
      id <- NewUUID ;;
      now <- Now ;;
      let call := mkCall id conversationID userID now None None in
      s <- getDB ;;
      f1 <- roundtrip ;;                             (* INSERT INTO calls *)
      match f1 with
      | Some e => ret (None, Some e)
      | None =>
          if hasCall s id
          then ret (None, Some (ErrConstraint "calls_pkey"))
          else if negb (hasConversation s conversationID)
          then ret (None, Some (ErrConstraint "calls_conversation_id_fkey"))
          else if negb (hasUser s userID)
          then ret (None, Some (ErrConstraint "calls_started_by_fkey"))
          else
            let s1 := withCalls s (tbl_calls s ++ [call]) in
            f2 <- roundtrip ;;                       (* INSERT INTO call_participants *)
            match f2 with
            | Some e => ret (None, Some e)
            | None =>
                match insertParticipant s1 id userID now with
                | inl e => ret (None, Some e)
                | inr s2 =>
                    f3 <- roundtrip ;;               (* Commit *)
                    match f3 with
                    | Some e => ret (None, Some e)
                    | None =>
                        putDB s2 ;;;
                        ret (Some (withParticipants call
                                     (Some [mkParticipant userID now None])), None)
                    end
                end
            end
      end
  end.

(** [JoinCall]: INSERT INTO call_participants VALUES (callID, userID, time.Now()) *)
Definition JoinCall (callID userID : UUID) : M (option error) :=
  now <- Now ;;
  f <- roundtrip ;;
  match f with
  | Some e => ret (Some e)
  | None =>
      s <- getDB ;;
      match insertParticipant s callID userID now with
      | inl e => ret (Some e)
      | inr s1 => putDB s1 ;;; ret None
      end
  end.

(** UPDATE call_participants SET left_at = now WHERE [sel] AND left_at IS NULL *)
Definition markLeft (now : Time) (sel : ParticipantRow -> bool) (p : ParticipantRow)
  : ParticipantRow :=
  if sel p && bool_decide (cp_left_at p = None)
  then mkParticipantRow (cp_call_id p) (cp_user_id p) (cp_joined_at p) (Some now)
  else p.

(** [LeaveCall]: UPDATE ... WHERE call_id = $2 AND user_id = $3 AND left_at IS NULL *)
Definition LeaveCall (callID userID : UUID) : M (option error) :=
  now <- Now ;;
  f <- roundtrip ;;
  match f with
  | Some e => ret (Some e)
  | None =>
      s <- getDB ;;
      putDB (withCallParticipants s
               (map (markLeft now (fun p => bool_decide (cp_call_id p = callID)
                                            && bool_decide (cp_user_id p = userID)))
                  (tbl_call_participants s))) ;;;
      ret None
  end.

(** UPDATE calls SET ended_at = now WHERE id = callID *)
Definition setEnded (now : Time) (callID : UUID) (c : Call) : Call :=
  if bool_decide (ID c = callID)
  then mkCall (ID c) (ConversationID c) (StartedBy c) (StartedAt c) (Some now) (Participants c)
  else c.

(** UNIQUE(conversation_id, ended_at): no two rows agree on both (rows
    whose ended_at is NULL never clash). *)
Definition clashes (cs : list Call) (c : Call) : bool :=
  existsb (fun c' => bool_decide (ID c' <> ID c)
                     && bool_decide (ConversationID c' = ConversationID c)
                     && bool_decide (EndedAt c' = EndedAt c)
                     && bool_decide (EndedAt c <> None)) cs.

(** [EndCall]: one transaction that marks every participant still in the
    call as left and sets the call's ended_at. *)
Definition EndCall (callID : UUID) : M (option error) :=
  now <- Now ;;
  f <- roundtrip ;;                                  (* Begin *)
  match f with
  | Some e => ret (Some e)
  | None =>
      s <- getDB ;;
      f1 <- roundtrip ;;                             (* UPDATE call_participants *)
      match f1 with
      | Some e => ret (Some e)
      | None =>
          let s1 := withCallParticipants s
                      (map (markLeft now (fun p => bool_decide (cp_call_id p = callID)))
                         (tbl_call_participants s)) in
          f2 <- roundtrip ;;                         (* UPDATE calls *)
          match f2 with
          | Some e => ret (Some e)
          | None =>
              let cs := map (setEnded now callID) (tbl_calls s1) in
              if existsb (fun c => bool_decide (ID c = callID) && clashes cs c) cs
              then ret (Some (ErrConstraint "calls_conversation_id_ended_at_key"))
              else
                f3 <- roundtrip ;;                   (* Commit *)
                match f3 with
                | Some e => ret (Some e)
                | None => putDB (withCalls s1 cs) ;;; ret None
                end
          end
      end
  end.

(** Modelled from the spec: the compare-and-swap of the [EndCall] below,
    UPDATE calls SET ended_at = now WHERE id = callID AND ended_at IS NULL. *)
Definition setEndedIfOpen (now : Time) (callID : UUID) (c : Call) : Call :=
  if bool_decide (ID c = callID) && bool_decide (EndedAt c = None)
  then mkCall (ID c) (ConversationID c) (StartedBy c) (StartedAt c) (Some now) (Participants c)
  else c.

(** Instants are in microseconds; the spec has durations in whole seconds. *)
Definition microsecondsPerSecond : Z := 1000000.

(** Modelled from the spec: the [EndCall] that src/internal/handlers/calls.go
    is written against, [callInfo, err := h.callsRepo.EndCall(ctx, callID)],
    is not among the sources, whose [EndCall] returns the error alone.  The
    spec has the end of a call as "a compare-and-swap on the session's end
    timestamp (only the writer that successfully transitions null to
    non-null produces the CallEndInfo)"; "a concurrent second Leave/End
    observing the session already ended must return no-op, no CallEndInfo
    rather than erroring or double-firing"; the CallEndInfo is "call id,
    conversation id, starter, full participant list, duration in whole
    seconds", with "duration = end timestamp - start timestamp" and the
    participants those of "the session's full history".  The transaction,
    the closing of the rows still open and the unique constraint are those
    of the [EndCall] of the sources. *)
Definition EndCallWithInfo (callID : UUID) : M (option CallEndInfo * option error) :=
  now <- Now ;;
  f <- roundtrip ;;                                  (* Begin *)
  match f with
  | Some e => ret (None, Some e)
  | None =>
      s <- getDB ;;
      f1 <- roundtrip ;;                             (* UPDATE calls ... AND ended_at IS NULL *)
      match f1 with
      | Some e => ret (None, Some e)
      | None =>
          match find (fun c => bool_decide (ID c = callID) && bool_decide (EndedAt c = None))
                  (tbl_calls s) with
          | None => ret (None, None)                 (* already ended: no-op *)
          | Some c =>
              let cs := map (setEndedIfOpen now callID) (tbl_calls s) in
              if existsb (fun c => bool_decide (ID c = callID) && bool_decide (EndedAt c = None)
                                   && clashes cs (setEndedIfOpen now callID c)) (tbl_calls s)
              then ret (None, Some (ErrConstraint "calls_conversation_id_ended_at_key"))
              else
                f2 <- roundtrip ;;                   (* UPDATE call_participants *)
                match f2 with
                | Some e => ret (None, Some e)
                | None =>
                    let rows := map (markLeft now (fun p => bool_decide (cp_call_id p = callID)))
                                  (tbl_call_participants s) in
                    f3 <- roundtrip ;;               (* SELECT DISTINCT user_id *)
                    match f3 with
                    | Some e => ret (None, Some e)
                    | None =>
                        let users :=
                          remove_dups
                            (map cp_user_id
                               (List.filter (fun p => bool_decide (cp_call_id p = callID)) rows)) in
                        f4 <- roundtrip ;;           (* Commit *)
                        match f4 with
                        | Some e => ret (None, Some e)
                        | None =>
                            putDB (withCallParticipants (withCalls s cs) rows) ;;;
                            ret (Some (mkCallEndInfo callID (ConversationID c) (StartedBy c)
                                         (collected users)
                                         (Z.quot (now - StartedAt c) microsecondsPerSecond)),
                                 None)
                        end
                    end
                end
          end
      end
  end.

(** [GetActiveParticipantCount]: [var count int; err := ...Scan(&count); return count, err] *)
Definition GetActiveParticipantCount (callID : UUID) : M (Z * option error) :=
  f <- roundtrip ;;
  match f with
  | Some e => ret (0, Some e)
  | None => s <- getDB ;; ret (Z.of_nat (length (activeRows s callID)), None)
  end.

(** [IsUserInCall]: a call that has not ended in which the user has a row
    with left_at NULL (LIMIT 1: the first in table order); no such row is
    not an error. *)
Definition IsUserInCall (userID : UUID) : M (option Call * option error) :=
  f <- roundtrip ;;
  match f with
  | Some e => if decide (e = ErrNoRows) then ret (None, None) else ret (None, Some e)
  | None =>
      s <- getDB ;;
      ret (find (fun c => bool_decide (EndedAt c = None)
                          && existsb (fun p => isActiveParticipant (ID c) p
                                               && bool_decide (cp_user_id p = userID))
                               (tbl_call_participants s))
             (tbl_calls s), None)
  end.

(** [GetActiveParticipants]: the user ids of the rows with left_at NULL. *)
Definition GetActiveParticipants (callID : UUID) : M (slice UUID * option error) :=
  f <- roundtrip ;;
  match f with
  | Some e => ret (None, Some e)
  | None => s <- getDB ;; ret (collected (map cp_user_id (activeRows s callID)), None)
  end.

End CallsRepository.

(** ** The repositories behind the handler's interfaces, on the store *)

Module StoreRepos.
Import models.

(** [auth.Repository.GetUserByID] ([UsersRepository]) *)
Definition GetUserByID (id : UUID) : M (option User * option error) :=
  f <- roundtrip ;;
  s <- getDB ;;
  let row : User + error :=
    match f with
    | Some e => inr e
    | None =>
        match find (fun u => bool_decide (ID u = id)) (tbl_users s) with
        | Some u => inl u
        | None => inr ErrNoRows
        end
    end in
  ret (AuthRepo.GetUserByID row).

(** [messages.Repository.GetParticipantIDs] ([ConversationRepository]):
      rows, err := r.db.Query(...); if err != nil { return nil, err }
      var ids []uuid.UUID; for rows.Next() { ...; ids = append(ids, id) }; return ids, nil *)
Definition GetParticipantIDs (conversationID : UUID) : M (slice UUID * option error) :=
  f <- roundtrip ;;
  match f with
  | Some e => ret (None, Some e)
  | None =>
      s <- getDB ;;
      ret (collected (map snd (List.filter (fun r => bool_decide (r.1 = conversationID))
                                  (tbl_conversation_participants s))), None)
  end.

(** [messages.Repository.CreateCallMessage] ([MessagesRepository]): the
    INSERT ... RETURNING; then the conversation's updated_at and the sender
    are looked after, whatever errors those two statements report. *)
Definition CreateCallMessage (convID senderID : UUID) (content : string)
  : M (option Message * option error) :=
  f <- roundtrip ;;
  match f with
  | Some e => ret (None, Some e)
  | None =>
      id <- NewUUID ;;
      now <- Now ;;
      s <- getDB ;;
      let msg := mkMessage id convID senderID "call" content now now None in
      putDB (withMessages s (tbl_messages s ++ [msg])) ;;;
      roundtrip ;;;                                  (* UPDATE conversations *)
      f2 <- roundtrip ;;                             (* SELECT ... FROM users *)
      let sender :=
        match f2, find (fun u => bool_decide (ID u = senderID)) (tbl_users s) with
        | None, Some u => u
        | _, _ => zeroUser
        end in
      ret (Some (mkMessage id convID senderID "call" content now now (Some sender)), None)
  end.

End StoreRepos.

(** ** internal/calls/livekit.go *)

Module Voice.

Record VoiceClaims := mkVoiceClaims {
  RoomID : string;
  ClaimUserID : string;
  ClaimUsername : string;
  ExpiresAt : Time;
  IssuedAt : Time
}.

Definition day : Z := 24 * 3600 * 1000000.

Section GenerateToken.
(** jwt: [NewWithClaims(SigningMethodHS256, claims).SignedString(secret)] *)
Variable SignedString : VoiceClaims -> string * option error.

Definition GenerateToken (roomName userID username : string) : M (string * option error) :=
  t1 <- Now ;;
  t2 <- Now ;;
  ret (SignedString (mkVoiceClaims roomName userID username (t1 + day) t2)).
End GenerateToken.

End Voice.

(** ** internal/handlers/calls.go *)

Module Handlers.
Import models.

Record CallResponse := mkCallResponse {
  RespCallID : string;
  Token : string;
  LiveKitURL : string
}.

(** What is written to the [http.ResponseWriter]. *)
Inductive Response :=
  | HttpError (message : string) (code : Z)
  | HttpJSON (r : CallResponse)
  | HttpNoContent
  | HttpPanic.                 (* the handler dereferences a nil pointer *)

(** [broadcastCallState] *)
Definition broadcastCallState (conversationID : UUID) : M unit :=
  r <- StoreRepos.GetParticipantIDs conversationID ;;
  let '(participantIDs, err) := r in
  match err with
  | Some _ => ret tt
  | None =>
      r <- CallsRepository.GetActiveCallForConversation conversationID ;;
      let '(call, err) := r in
      match err, call with
      | None, Some call =>
          r <- CallsRepository.GetActiveParticipants (calls.ID call) ;;
          let '(participants, _) := r in
          NotifyUsers participantIDs "CALL_STATE"
            (Node.DataCallState (mkCallState conversationID (Some (calls.ID call)) participants))
      | _, _ =>
          NotifyUsers participantIDs "CALL_STATE"
            (Node.DataCallState (mkCallState conversationID None (Some [])))
      end
  end.

(** "missed" for a short call with a single participant, else "completed":
      status := "completed"
      if info.Duration < 5 && len(info.Participants) == 1 { status = "missed" } *)
Definition callStatus (info : calls.CallEndInfo) : string :=
  if bool_decide (calls.Duration info < 5) && bool_decide (len (calls.EndParticipants info) = 1)
  then "missed" else "completed".

Definition callContent (info : calls.CallEndInfo) : CallMessageContent :=
  mkCallContent (UUID_String (calls.EndCallID info)) (calls.Duration info)
    (map UUID_String (elems (calls.EndParticipants info))) (callStatus info).

Section WithLibraries.
Variable SignedString : Voice.VoiceClaims -> string * option error.
(** [VoiceService.GetWebSocketURL] *)
Variable Host : string.
(** [json.Marshal(content)] *)
Variable marshalContent : CallMessageContent -> string + error.

(** The tail shared by [StartCall] and [JoinCall]: the user name, the
    voice token, the broadcast (for the conversation of the request in
    [StartCall], for [call.ConversationID] in [JoinCall]) and the response. *)
Definition respondWithToken (userID conversationID : UUID) (call : calls.Call) : M Response :=
  r <- StoreRepos.GetUserByID userID ;;
  match r with
  | (_, Some _) => ret (HttpError "Failed to get user" 500)
  | (None, None) => ret HttpPanic
  | (Some user, None) =>
      let username := default "" (Username user) in
      let roomName := "call-" +:+ UUID_String (calls.ID call) in
      r <- Voice.GenerateToken SignedString roomName (UUID_String userID) username ;;
      match r with
      | (_, Some _) => ret (HttpError "Failed to generate token" 500)
      | (token, None) =>
          broadcastCallState conversationID ;;;
          ret (HttpJSON (mkCallResponse (UUID_String (calls.ID call)) token Host))
      end
  end.

(** [StartCall], from the point where the user id of the request context
    and the conversation id of the body are known. *)
Definition StartCall (userID conversationID : UUID) : M Response :=
  r <- CallsRepository.IsUserInCall userID ;;
  let '(existingCall, err) := r in
  match err with
  | Some _ => ret (HttpError "Failed to check call status" 500)
  | None =>
      if match existingCall with
         | Some c => bool_decide (calls.ConversationID c <> conversationID)
         | None => false
         end
      then ret (HttpError "Already in another call" 409)
      else
        r <- CallsRepository.GetActiveCallForConversation conversationID ;;
        let '(call, err) := r in
        if match err with Some e => bool_decide (e <> ErrNoRows) | None => false end
        then ret (HttpError "Failed to check existing call" 500)
        else
          match call with
          | None =>
              (* Start new call *)
              r <- CallsRepository.StartCall conversationID userID ;;
              match r with
              | (_, Some _) => ret (HttpError "Failed to start call" 500)
              | (None, None) => ret HttpPanic
              | (Some call, None) => respondWithToken userID conversationID call
              end
          | Some call =>
              (* Join existing call (if not already in it) *)
              e <- CallsRepository.JoinCall (calls.ID call) userID ;;
              match e with
              | Some _ => ret (HttpError "Failed to join call" 500)
              | None => respondWithToken userID conversationID call
              end
          end
  end.

(** [JoinCall], from the point where the ids are known. *)
Definition JoinCall (userID callID : UUID) : M Response :=
  r <- CallsRepository.GetCallWithParticipants callID ;;
  match r with
  | (_, Some _) => ret (HttpError "Call not found" 404)
  | (None, None) => ret HttpPanic
  | (Some call, None) =>
      if bool_decide (calls.EndedAt call <> None)
      then ret (HttpError "Call has ended" 410)
      else
        e <- CallsRepository.JoinCall callID userID ;;
        match e with
        | Some _ => ret (HttpError "Failed to join call" 500)
        | None => respondWithToken userID (calls.ConversationID call) call
        end
  end.

(** [createCallMessage] *)
Definition createCallMessage (info : option calls.CallEndInfo) : M unit :=
  match info with
  | None => ret tt
  | Some info =>
      match marshalContent (callContent info) with
      | inr _ => ret tt
      | inl contentJSON =>
          r <- StoreRepos.CreateCallMessage (calls.EndConversationID info)
                 (calls.EndStartedBy info) contentJSON ;;
          match r with
          | (_, Some _) => ret tt
          | (msg, None) =>
              r <- StoreRepos.GetParticipantIDs (calls.EndConversationID info) ;;
              match r with
              | (_, Some _) => ret tt
              | (participantIDs, None) =>
                  NotifyUsers participantIDs "MESSAGE_CREATE"
                    (Node.DataMessageCreate msg (calls.EndConversationID info))
              end
          end
      end
  end.

(** [LeaveCall] as src/internal/handlers/calls.go has it.  It takes two
    results from [EndCall], a [*calls.CallEndInfo] next to the error; the
    repository of the sources returns the error alone, so the [EndCall]
    this handler is written against is a variable here. *)
Section LeaveCall.
Variable EndCallInfo : UUID -> M (option calls.CallEndInfo * option error).

Definition LeaveCall (userID callID : UUID) : M Response :=
  r <- CallsRepository.GetCallWithParticipants callID ;;
  match r with
  | (_, Some _) => ret (HttpError "Call not found" 404)
  | (None, None) => ret HttpPanic
  | (Some call, None) =>
      e <- CallsRepository.LeaveCall callID userID ;;
      match e with
      | Some _ => ret (HttpError "Failed to leave call" 500)
      | None =>
          r <- CallsRepository.GetActiveParticipantCount callID ;;
          let '(count, _) := r in
          (if decide (count = 0) then
             r <- EndCallInfo callID ;;
             match r with
             | (_, Some _) => ret tt
             | (Some callInfo, None) => createCallMessage (Some callInfo)
             | (None, None) => ret tt
             end
           else ret tt) ;;;
          broadcastCallState (calls.ConversationID call) ;;;
          ret HttpNoContent
      end
  end.
End LeaveCall.
End WithLibraries.

(** [LeaveCall] as it stands with the repository of the sources
    (src/internal/middleware/auth.go, second file, lines 286-331): the same
    steps, and the result of [EndCall] is dropped. *)
Definition LeaveCallPlain (userID callID : UUID) : M Response :=
  r <- CallsRepository.GetCallWithParticipants callID ;;
  match r with
  | (_, Some _) => ret (HttpError "Call not found" 404)
  | (None, None) => ret HttpPanic
  | (Some call, None) =>
      e <- CallsRepository.LeaveCall callID userID ;;
      match e with
      | Some _ => ret (HttpError "Failed to leave call" 500)
      | None =>
          r <- CallsRepository.GetActiveParticipantCount callID ;;
          let '(count, _) := r in
          (if decide (count = 0) then CallsRepository.EndCall callID ;;; ret tt else ret tt) ;;;
          broadcastCallState (calls.ConversationID call) ;;;
          ret HttpNoContent
      end
  end.

(** [LeaveCall] of src/internal/handlers/calls.go against the repository
    whose [EndCall] reports the end of the call. *)
Definition LeaveCallWithInfo (marshalContent : CallMessageContent -> string + error)
    (userID callID : UUID) : M Response :=
  LeaveCall marshalContent CallsRepository.EndCallWithInfo userID callID.

(** That handler cut at its calls into the repositories, each of which is
    one atomic step against the store (a statement or a transaction);
    requests served at the same time interleave at these points. *)
Inductive LeaveRequest :=
  | RqFetch (userID callID : UUID)
  | RqLeave (userID callID : UUID) (call : calls.Call)
  | RqCount (callID : UUID) (call : calls.Call)
  | RqEnd (callID : UUID) (call : calls.Call)
  | RqMessage (callInfo : calls.CallEndInfo) (call : calls.Call)
  | RqBroadcast (call : calls.Call)
  | RqDone (r : Response).

(** One step of a request: the request afterwards, and the [CallEndInfo]
    that [EndCall] handed to the handler at this step, if any. *)
Definition requestStep (marshalContent : CallMessageContent -> string + error)
    (t : LeaveRequest) : M (LeaveRequest * option calls.CallEndInfo) :=
  match t with
  | RqFetch userID callID =>
      r <- CallsRepository.GetCallWithParticipants callID ;;
      match r with
      | (_, Some _) => ret (RqDone (HttpError "Call not found" 404), None)
      | (None, None) => ret (RqDone HttpPanic, None)
      | (Some call, None) => ret (RqLeave userID callID call, None)
      end
  | RqLeave userID callID call =>
      e <- CallsRepository.LeaveCall callID userID ;;
      match e with
      | Some _ => ret (RqDone (HttpError "Failed to leave call" 500), None)
      | None => ret (RqCount callID call, None)
      end
  | RqCount callID call =>
      r <- CallsRepository.GetActiveParticipantCount callID ;;
      let '(count, _) := r in
      if decide (count = 0) then ret (RqEnd callID call, None) else ret (RqBroadcast call, None)
  | RqEnd callID call =>
      r <- CallsRepository.EndCallWithInfo callID ;;
      match r with
      | (_, Some _) => ret (RqBroadcast call, None)
      | (Some callInfo, None) => ret (RqMessage callInfo call, Some callInfo)
      | (None, None) => ret (RqBroadcast call, None)
      end
  | RqMessage callInfo call =>
      createCallMessage marshalContent (Some callInfo) ;;; ret (RqBroadcast call, None)
  | RqBroadcast call =>
      broadcastCallState (calls.ConversationID call) ;;; ret (RqDone HttpNoContent, None)
  | RqDone r => ret (RqDone r, None)
  end.

(** Requests served together: the schedule names, step by step, the request
    that takes its next step (a number that names none passes).  The
    result has the requests as they stand and every [CallEndInfo] handed
    out, in order. *)
Fixpoint serve (marshalContent : CallMessageContent -> string + error)
    (schedule : list nat) (requests : list LeaveRequest)
  : M (list LeaveRequest * list calls.CallEndInfo) :=
  match schedule with
  | [] => ret (requests, [])
  | i :: rest =>
      match requests !! i with
      | None => serve marshalContent rest requests
      | Some t =>
          r <- requestStep marshalContent t ;;
          let '(t1, produced) := r in
          r <- serve marshalContent rest (<[i := t1]> requests) ;;
          let '(requests1, infos) := r in
          ret (requests1, from_option (fun callInfo => [callInfo]) [] produced ++ infos)
      end
  end.



(** [Notifier.NotifyUsers] hands the notification to [Node.PublishToUsers]. *)
Definition deliver (encodeString : string -> string) (encodeData : Node.Data -> string + error)
    (nodePublish : string -> string -> option error) (n : Notification)
  : list (string * string) :=
  Node.PublishToUsers encodeString encodeData nodePublish
    (elems (recipients n)) (eventType n) (data n).

End Handlers.

(** ** internal/realtime/centrifuge.go: connection callbacks and presence notices *)

Module NodeEvents.
Import models.

(** [friends.Repository.GetFriendIDs], on the answer of the driver:
      rows, err := r.db.Query(...); if err != nil { return nil, err }
      var ids []uuid.UUID
      for rows.Next() { var id uuid.UUID; if err := rows.Scan(&id); err != nil { return nil, err }; ids = append(ids, id) }
      return ids, rows.Err() *)
Definition GetFriendIDs (q : query UUID) : slice UUID * option error :=
  match q with
  | inl e => (None, Some e)
  | inr c =>
      match scan_all (fun h id => (id, h)) (cur_rows c) None ∅ with
      | (inl e, _) => (None, Some e)
      | (inr ids, _) => (ids, cur_err c)
      end
  end.

Section WithSubstrate.
Variable encodeString : string -> string.
Variable encodeData : Node.Data -> string + error.
Variable nodePublish : string -> string -> option error.
(** [FriendsProvider.GetFriendIDs] *)
Variable friendsProvider : UUID -> slice UUID * option error.
(** [uuid.Parse]: the id a string spells, if it spells one. *)
Variable Parse : string -> option UUID.

(** [notifyPresenceChange]: the calls made to the substrate's [Publish].
      friendIDs, err := n.friendsProvider.GetFriendIDs(ctx, userID)
      if err != nil { log; return }
      n.PublishToUsers(friendIDs, "PRESENCE_UPDATE", &models.PresenceUpdateEvent{UserID: userID, Status: status}) *)
Definition notifyPresenceChange (userID : UUID) (status : string) : list (string * string) :=
  match friendsProvider userID with
  | (_, Some _) => []
  | (friendIDs, None) =>
      Node.PublishToUsers encodeString encodeData nodePublish (elems friendIDs)
        "PRESENCE_UPDATE" (Node.DataPresenceUpdate (mkPresenceUpdate userID status))
  end.

(** The body of [OnConnect] once the user id is parsed: the connection is
    counted and, on the first one, [go n.notifyPresenceChange(userID, "online")]
    is started; the result names the notice started, if any. *)
Definition connected (online : gmap UUID Z) (userID : UUID)
  : gmap UUID Z * option (UUID * string) :=
  let '(online', wasOffline) := Presence.addOnlineUser online userID in
  (online', if wasOffline then Some (userID, "online") else None).

(** The [OnConnect] handler: a client whose user id does not parse is not
    tracked and gets no subscribe or disconnect handler (the boolean). *)
Definition OnConnect (online : gmap UUID Z) (clientUserID : string)
  : gmap UUID Z * option (UUID * string) * bool :=
  match Parse clientUserID with
  | None => (online, None, false)
  | Some userID => (connected online userID, true)
  end.

(** The [client.OnDisconnect] handler. *)
Definition OnDisconnect (online : gmap UUID Z) (userID : UUID)
  : gmap UUID Z * option (UUID * string) :=
  let '(online', wentOffline) := Presence.removeOnlineUser online userID in
  (online', if wentOffline then Some (userID, "offline") else None).
End WithSubstrate.

(** The callbacks run over a sequence of connection events: the presence
    notices started, in the order of the events that start them. *)
Definition handle (online : gmap UUID Z) (e : Presence.conn_event)
  : gmap UUID Z * option (UUID * string) :=
  match e with
  | Presence.Connect u => connected online u
  | Presence.Disconnect u => OnDisconnect online u
  end.

Fixpoint notices (online : gmap UUID Z) (evs : list Presence.conn_event)
  : list (UUID * string) :=
  match evs with
  | [] => []
  | e :: rest =>
      let '(online', notice) := handle online e in
      match notice with
      | Some n => n :: notices online' rest
      | None => notices online' rest
      end
  end.

(** How many of the notices are for [u] with status [s]. *)
Definition countNotices (u : UUID) (s : string) (ns : list (UUID * string)) : Z :=
  Z.of_nat (length (List.filter (fun n => bool_decide (n = (u, s))) ns)).

End NodeEvents.

(** ** internal/handlers/calls.go: GetActiveCall *)

Module ActiveCall.

Inductive Response :=
  | NoContent
  | Error (message : string) (code : Z)
  | JSON (call_id started_at : string) (participants : list string).

Section GetActiveCall.
(** [time.Time.Format("2006-01-02T15:04:05Z07:00")] *)
Variable Format : Time -> string.

(** [GetActiveCall], from the point where the conversation id of the path is
    parsed:
      call, err := h.callsRepo.GetActiveCallForConversation(ctx, conversationID)
      if err == pgx.ErrNoRows || call == nil { 204 }
      if err != nil { 500 "Failed to get call" }
      participants, _ := h.callsRepo.GetActiveParticipants(ctx, call.ID)
      ... 200 with call_id, started_at, participants *)
Definition GetActiveCall (conversationID : UUID) : M Response :=
  r <- CallsRepository.GetActiveCallForConversation conversationID ;;
  let '(call, err) := r in
  match call with
  | None => ret NoContent
  | Some call =>
      if bool_decide (err = Some ErrNoRows) then ret NoContent
      else if bool_decide (err <> None) then ret (Error "Failed to get call" 500)
      else
        r <- CallsRepository.GetActiveParticipants (calls.ID call) ;;
        let '(participants, _) := r in
        ret (JSON (UUID_String (calls.ID call)) (Format (calls.StartedAt call))
               (map UUID_String (elems participants)))
  end.
End GetActiveCall.

End ActiveCall.

(** * Properties *)

(** ** Presence tracker *)

Lemma wrap_small z : GoInt.min_int <= z <= GoInt.max_int -> GoInt.wrap z = z.
Proof.
  unfold GoInt.wrap, GoInt.min_int, GoInt.max_int. intros H.
  rewrite Z.mod_small; lia.
Qed.

Lemma balance_app u p s :
  Presence.balance u (p ++ s) = Presence.balance u p + Presence.balance u s.
Proof. induction p as [|e p IH]; simpl; [lia | rewrite IH; lia]. Qed.

Lemma delta_bound u e : -1 <= Presence.delta u e <= 1.
Proof. destruct e; simpl; case_decide; lia. Qed.

Lemma balance_bound u p :
  - Z.of_nat (length p) <= Presence.balance u p <= Z.of_nat (length p).
Proof.
  induction p as [|e p IH]; simpl; [lia|].
  pose proof (delta_bound u e). lia.
Qed.

Lemma run_app m p s : Presence.run m (p ++ s) = Presence.run (Presence.run m p) s.
Proof. revert m. induction p as [|e p IH]; intros m; simpl; [done | apply IH]. Qed.

Lemma causal_snoc p e : Presence.causal (p ++ [e]) -> Presence.causal p.
Proof.
  intros H n u. specialize (H (n `min` length p)%nat u).
  rewrite take_app_le in H by lia.
  destruct (decide (n <= length p)%nat).
  - by replace (n `min` length p)%nat with n in H by lia.
  - rewrite take_ge by lia. rewrite take_ge in H by lia. done.
Qed.

Lemma causal_take evs k : Presence.causal evs -> Presence.causal (take k evs).
Proof. intros H n u. rewrite take_take. apply H. Qed.

Lemma get_entry (m : gmap UUID Z) u b : 0 <= b -> m !! u = Presence.entry b -> Presence.get m u = b.
Proof.
  unfold Presence.get, Presence.entry. intros Hb ->. case_decide; simpl; lia.
Qed.

(** One connect, from a state that agrees with the balance. *)
Lemma addOnlineUser_entry (m : gmap UUID Z) u b :
  0 <= b < GoInt.max_int -> m !! u = Presence.entry b ->
  (Presence.addOnlineUser m u).1 !! u = Presence.entry (b + 1)
  /\ (Presence.addOnlineUser m u).2 = bool_decide (b = 0).
Proof.
  intros Hb Hm. unfold Presence.addOnlineUser. simpl.
  rewrite (get_entry m u b) by (done || lia).
  rewrite lookup_insert_eq. unfold GoInt.incr.
  rewrite wrap_small by (unfold GoInt.min_int, GoInt.max_int in *; lia).
  split; [|done]. unfold Presence.entry. case_decide; [done | lia].
Qed.

(** One disconnect, from a state that agrees with a positive balance. *)
Lemma removeOnlineUser_entry (m : gmap UUID Z) u b :
  1 <= b <= GoInt.max_int -> m !! u = Presence.entry b ->
  (Presence.removeOnlineUser m u).1 !! u = Presence.entry (b - 1)
  /\ (Presence.removeOnlineUser m u).2 = bool_decide (b = 1).
Proof.
  intros Hb Hm. unfold Presence.removeOnlineUser.
  rewrite (get_entry m u b) by (done || lia).
  unfold GoInt.decr.
  rewrite wrap_small by (unfold GoInt.min_int, GoInt.max_int in *; lia).
  assert (Presence.get (<[u := b - 1]> m) u = b - 1) as ->.
  { unfold Presence.get. by rewrite lookup_insert_eq. }
  case_decide as Hle; simpl.
  - rewrite lookup_delete_eq. unfold Presence.entry.
    case_decide; [lia|]. split; [done|]. by rewrite bool_decide_eq_true_2 by lia.
  - rewrite lookup_insert_eq. unfold Presence.entry.
    case_decide; [|lia]. split; [done|]. by rewrite bool_decide_eq_false_2 by lia.
Qed.

Lemma step_other (m : gmap UUID Z) e v :
  Presence.delta v e = 0 -> (Presence.step m e).1 !! v = m !! v.
Proof.
  destruct e as [u|u]; simpl; case_decide; try lia; intros _.
  - by rewrite lookup_insert_ne.
  - unfold Presence.removeOnlineUser. case_decide; simpl.
    + rewrite lookup_delete_ne by done. by rewrite lookup_insert_ne.
    + by rewrite lookup_insert_ne.
Qed.

(** The invariant: after any causal sequence of events the map holds, for
    every user, exactly the positive balances. *)
Lemma run_entry p :
  Presence.causal p -> Z.of_nat (length p) < 2 ^ 63 ->
  forall v, Presence.run ∅ p !! v = Presence.entry (Presence.balance v p).
Proof.
  induction p as [|e p IH] using rev_ind; intros Hc Hlen v.
  - simpl. by rewrite lookup_empty.
  - rewrite length_app in Hlen. simpl in Hlen.
    pose proof (causal_snoc _ _ Hc) as Hp.
    specialize (IH Hp ltac:(lia)).
    rewrite run_app. simpl. rewrite balance_app. simpl.
    pose proof (balance_bound v p) as Hb.
    pose proof (Hc (length (p ++ [e])) v) as Hafter.
    rewrite take_ge in Hafter by done. rewrite balance_app in Hafter. simpl in Hafter.
    pose proof (Hp (length p) v) as Hbefore. rewrite take_ge in Hbefore by done.
    destruct (decide (Presence.delta v e = 0)) as [Hz|Hnz].
    { rewrite step_other by done. rewrite IH. f_equal. lia. }
    destruct e as [u|u]; simpl in *; case_decide; try lia; subst u.
    + replace (Presence.balance v p + (1 + 0)) with (Presence.balance v p + 1) by lia.
      apply addOnlineUser_entry; [unfold GoInt.max_int; lia | apply IH].
    + replace (Presence.balance v p + (-1 + 0)) with (Presence.balance v p - 1) by lia.
      apply removeOnlineUser_entry; [unfold GoInt.max_int; lia | apply IH].
Qed.

Lemma IsOnline_entry (m : gmap UUID Z) v c :
  0 <= c -> m !! v = Presence.entry c -> Presence.IsOnline m v = bool_decide (0 < c).
Proof.
  intros Hc Hm. unfold Presence.IsOnline. rewrite (get_entry m v c) by done.
  apply bool_decide_ext. lia.
Qed.

(** C4.  For a sequence of connects and disconnects in which no prefix has
    more disconnects than connects (and which is shorter than the range of
    the counter), after each event: the map is the one reached by the events
    so far; [IsOnline] of any user is true exactly when that user's connects
    so far minus disconnects so far is positive; a connect returns true
    exactly when the user's count was 0 before it and a disconnect exactly
    when it was 1; and the map has an entry for a user exactly when the count
    is positive, the entry being that count (none is kept at 0). *)
Theorem presence_tracks_connections
    (evs : list Presence.conn_event) (k : nat) (e : Presence.conn_event) :
  Presence.causal evs -> Z.of_nat (length evs) < 2 ^ 63 -> evs !! k = Some e ->
  let u := Presence.event_user e in
  let after := Presence.step (Presence.run ∅ (take k evs)) e in
  after.1 = Presence.run ∅ (take (S k) evs)
  /\ (forall v, Presence.IsOnline after.1 v
                = bool_decide (0 < Presence.balance v (take (S k) evs)))
  /\ after.2 = match e with
               | Presence.Connect _ => bool_decide (Presence.balance u (take k evs) = 0)
               | Presence.Disconnect _ => bool_decide (Presence.balance u (take k evs) = 1)
               end
  /\ (forall v, after.1 !! v = Presence.entry (Presence.balance v (take (S k) evs)))
  /\ (forall v c, after.1 !! v = Some c -> 0 < c).
Proof.
  intros Hc Hlen Hk u after.
  assert (Hrun : after.1 = Presence.run ∅ (take (S k) evs)).
  { subst after. rewrite (take_S_r _ _ _ Hk), run_app. done. }
  pose proof (length_take evs (S k)) as HlenS.
  pose proof (length_take evs k) as Hlenk.
  pose proof (lookup_lt_Some _ _ _ Hk) as Hlt.
  assert (Hentry : forall v, after.1 !! v = Presence.entry (Presence.balance v (take (S k) evs))).
  { intros v. rewrite Hrun. apply run_entry; [by apply causal_take | lia]. }
  assert (Hbefore : forall v, Presence.run ∅ (take k evs) !! v
                              = Presence.entry (Presence.balance v (take k evs))).
  { intros v. apply run_entry; [by apply causal_take | lia]. }
  pose proof (balance_bound u (take k evs)) as Hb.
  pose proof (Hc k u) as Hk0. pose proof (Hc (S k) u) as HSk0.
  rewrite (take_S_r _ _ _ Hk), balance_app in HSk0. simpl in HSk0.
  split; [done|]. split; [|split; [|split; [done|]]].
  - intros v. apply IsOnline_entry; [apply Hc | apply Hentry].
  - subst after u. destruct e as [w|w]; simpl in *; case_decide; try done.
    + apply addOnlineUser_entry; [unfold GoInt.max_int; lia | apply Hbefore].
    + apply removeOnlineUser_entry; [unfold GoInt.max_int; lia | apply Hbefore].
  - intros v c Hv. rewrite Hentry in Hv. unfold Presence.entry in Hv.
    case_decide; [congruence | discriminate].
Qed.

(** A user connects twice and disconnects twice; the third event is the
    first disconnect. *)
Lemma presence_tracks_connections_witness :
  let a := mkUUID 10 in
  let evs := [Presence.Connect a; Presence.Connect a; Presence.Disconnect a; Presence.Disconnect a] in
  let after := Presence.step (Presence.run ∅ (take 2 evs)) (Presence.Disconnect a) in
  after.1 = Presence.run ∅ (take 3 evs)
  /\ (forall v, Presence.IsOnline after.1 v = bool_decide (0 < Presence.balance v (take 3 evs)))
  /\ after.2 = bool_decide (Presence.balance a (take 2 evs) = 1)
  /\ (forall v, after.1 !! v = Presence.entry (Presence.balance v (take 3 evs)))
  /\ (forall v c, after.1 !! v = Some c -> 0 < c).
Proof.
  intros a evs.
  apply (presence_tracks_connections evs 2 (Presence.Disconnect a)).
  - intros n u. subst evs.
    destruct n as [|[|[|[|n]]]]; simpl; rewrite ?take_nil; simpl; repeat case_decide; lia.
  - subst evs. simpl. lia.
  - reflexivity.
Defined.

(** C3 as stated fails: a disconnect for a user who is not in the map
    returns true. *)
Lemma disconnect_absent_counterexample :
  Presence.removeOnlineUser ∅ (mkUUID 7) = (∅, true)
  /\ (Presence.removeOnlineUser ∅ (mkUUID 7)).2 <> false.
Proof. split; [vm_compute; reflexivity | vm_compute; congruence]. Qed.

(** C3, amended.  For a user id that is not in the presence map, a
    disconnect leaves the map as it was (no entry, so no negative count, is
    left behind), the user stays offline, and true is returned: the call
    reports a went-offline edge. *)
Theorem disconnect_absent (m : gmap UUID Z) (u : UUID) :
  m !! u = None ->
  Presence.removeOnlineUser m u = (m, true)
  /\ Presence.IsOnline (Presence.removeOnlineUser m u).1 u = false.
Proof.
  intros Hm.
  assert (Presence.removeOnlineUser m u = (m, true)) as ->.
  { unfold Presence.removeOnlineUser.
    assert (Presence.get (<[u := GoInt.decr (Presence.get m u)]> m) u = -1) as ->.
    { unfold Presence.get. rewrite lookup_insert_eq, Hm. reflexivity. }
    rewrite decide_True by lia.
    by rewrite delete_insert_eq, delete_id. }
  split; [done|]. simpl. unfold Presence.IsOnline, Presence.get. by rewrite Hm.
Qed.

Lemma disconnect_absent_witness :
  Presence.removeOnlineUser ({[mkUUID 1 := 2]} : gmap UUID Z) (mkUUID 7)
    = ({[mkUUID 1 := 2]}, true)
  /\ Presence.IsOnline
       (Presence.removeOnlineUser ({[mkUUID 1 := 2]} : gmap UUID Z) (mkUUID 7)).1 (mkUUID 7)
     = false.
Proof.
  apply (disconnect_absent {[mkUUID 1 := 2]} (mkUUID 7)).
  apply lookup_singleton_ne. intros [=].
Defined.

(** ** Channel authorizer *)

(** C6.  A subscribe request on a connection whose user id is [clientUserID]
    is refused with the permission error for every channel other than
    "user:" followed by that id, and it succeeds only for that channel; the
    check is part of every subscribe request and takes nothing from the
    handshake but the user id.  The handshake admits a connection only for a
    non-empty token that validates, with the user id of its claims. *)
Theorem subscribe_only_own_channel
    (encodeString : string -> string) (encodeData : Node.Data -> string + error)
    (nodePublish : string -> string -> option error)
    (dataProvider : UUID -> gmap models.loc models.User ->
                    (option models.ReadyEvent * option error) * gmap models.loc models.User)
    (clientUserID : string) (userID : UUID) (online : gmap UUID Z)
    (channel : string) (h : gmap models.loc models.User) :
  let result := Node.OnSubscribe encodeString encodeData nodePublish dataProvider
                  clientUserID userID online channel h in
  (channel <> "user:" +:+ clientUserID ->
     result = Node.Refused Node.ErrorPermissionDenied h)
  /\ (forall h' readyState pushed,
        result = Node.Subscribed h' readyState pushed -> channel = "user:" +:+ clientUserID)
  /\ (forall ValidateAccessToken token credentials,
        Node.OnConnecting ValidateAccessToken token = inl credentials ->
        token <> "" /\ exists uid, ValidateAccessToken token = inl uid
                                   /\ credentials = UUID_String uid).
Proof.
  intros result. subst result. unfold Node.OnSubscribe.
  split; [|split].
  - intros Hne. by rewrite decide_True.
  - intros h' rs pushed. case_decide as Hc; [discriminate|].
    intros _. destruct (decide (channel = "user:" +:+ clientUserID)); [done | by destruct Hc].
  - intros validate token creds. unfold Node.OnConnecting.
    case_decide as Ht; [discriminate|].
    destruct (validate token) as [uid|e] eqn:Hv; [|discriminate].
    intros [= <-]. split; [done|]. by exists uid.
Qed.

Lemma subscribe_only_own_channel_witness :
  Node.OnSubscribe (fun s => s) (fun _ => inl "null") (fun _ _ => None)
    (fun _ h => ((None, Some ErrUserNotFound), h))
    "6ba7b810" (mkUUID 1) ∅ "user:someone-else" ∅
  = Node.Refused Node.ErrorPermissionDenied ∅.
Proof.
  apply (subscribe_only_own_channel (fun s => s) (fun _ => inl "null") (fun _ _ => None)
           (fun _ h => ((None, Some ErrUserNotFound), h))
           "6ba7b810" (mkUUID 1) ∅ "user:someone-else" ∅).
  vm_compute. discriminate.
Defined.

(** ** Event fan-out publisher *)

(** C8.  For every event type, payload and user, when the payload
    serializes, [PublishToUser] calls the substrate's Publish exactly once,
    on the channel "user:" followed by the user's id, and what it publishes
    is, byte for byte, an opening brace, the member "data" whose value is
    the serialization of the payload, unchanged, a comma, the member "type"
    whose value is the event type as a JSON string, and a closing brace: the
    JSON object with exactly these two members, in the order encoding/json
    gives to the keys of a map.  It returns what the substrate returned.
    The text around the two values does not depend on the event type or on
    the payload. *)
Theorem publish_envelope
    (encodeString : string -> string) (encodeData : Node.Data -> string + error)
    (nodePublish : string -> string -> option error)
    (userID : UUID) (eventType : string) (payload : Node.Data) (encoded : string) :
  encodeData payload = inl encoded ->
  let q := String (Ascii.ascii_of_nat 34) EmptyString in
  let channel := "user:" +:+ UUID_String userID in
  let message :=
    "{" +:+ q +:+ "data" +:+ q +:+ ":" +:+ encoded +:+ "," +:+
    q +:+ "type" +:+ q +:+ ":" +:+ encodeString eventType +:+ "}" in
  Node.PublishToUser encodeString encodeData nodePublish userID eventType payload
  = ([(channel, message)], nodePublish channel message).
Proof.
  intros Henc. simpl. unfold Node.PublishToUser, Node.marshalEnvelope. by rewrite Henc.
Qed.

(** A PRESENCE_UPDATE whose payload serializes to an empty object, for the
    user with id ff: one message of 36 bytes on that user's channel. *)
Lemma publish_envelope_witness :
  let q := String (Ascii.ascii_of_nat 34) EmptyString in
  let published :=
    (Node.PublishToUser (fun s => q +:+ s +:+ q) (fun _ => inl "{}")
       (fun _ _ => None) (mkUUID 255) "PRESENCE_UPDATE"
       (Node.DataPresenceUpdate (models.mkPresenceUpdate (mkUUID 1) "online"))).1 in
  published
  = [("user:00000000-0000-0000-0000-0000000000ff",
      "{" +:+ q +:+ "data" +:+ q +:+ ":{}," +:+ q +:+ "type" +:+ q +:+ ":" +:+
      q +:+ "PRESENCE_UPDATE" +:+ q +:+ "}")]
  /\ map (fun m => String.length m.2) published = [36%nat].
Proof.
  intros q published. subst published.
  rewrite (publish_envelope (fun s => q +:+ s +:+ q) (fun _ => inl "{}")
             (fun _ _ => None) (mkUUID 255) "PRESENCE_UPDATE"
             (Node.DataPresenceUpdate (models.mkPresenceUpdate (mkUUID 1) "online")) "{}"
             eq_refl).
  split; vm_compute; reflexivity.
Defined.

(** A payload that does not serialize is not published. *)
Lemma publish_unserializable
    (encodeString : string -> string) (encodeData : Node.Data -> string + error)
    (nodePublish : string -> string -> option error)
    (userID : UUID) (eventType : string) (payload : Node.Data) (e : error) :
  encodeData payload = inr e ->
  Node.PublishToUser encodeString encodeData nodePublish userID eventType payload = ([], Some e).
Proof.
  intros Henc. unfold Node.PublishToUser, Node.marshalEnvelope. by rewrite Henc.
Qed.

(** ** Ready-state enrichment *)

Lemma enriched_idem online u :
  Node.enriched online (Node.enriched online u) = Node.enriched online u.
Proof. by destruct u. Qed.

Lemma overwritten_refl f (h : gmap models.loc models.User) : Node.overwritten f h h.
Proof. intros l. by left. Qed.

(** One assignment keeps what was settled and settles the object assigned. *)
Lemma enrichUser_inv online (h0 h h' : gmap models.loc models.User) l :
  Node.overwritten (Node.enriched online) h0 h ->
  Node.enrichUser online h l = Some h' ->
  Node.overwritten (Node.enriched online) h0 h'
  /\ Node.settled (Node.enriched online) h0 h' l
  /\ (forall l', Node.settled (Node.enriched online) h0 h l' ->
                 Node.settled (Node.enriched online) h0 h' l').
Proof.
  intros Hov. unfold Node.enrichUser.
  destruct (h !! l) as [v|] eqn:Hl; [|discriminate]. intros [= <-].
  assert (Hset : Node.settled (Node.enriched online) h0 (<[l := Node.enriched online v]> h) l).
  { destruct (Hov l) as [Heq | (u & Hu & Hu')].
    - exists v. rewrite <- Heq, Hl, lookup_insert_eq. done.
    - exists u. rewrite Hu' in Hl. injection Hl as <-.
      rewrite lookup_insert_eq, enriched_idem. done. }
  split; [|split; [done|]].
  - intros l'. destruct (decide (l' = l)) as [->|Hne]; [by right|].
    destruct (Hov l') as [Heq | (u & Hu & Hu')].
    + left. by rewrite lookup_insert_ne.
    + right. exists u. by rewrite lookup_insert_ne.
  - intros l' (u & Hu & Hu'). destruct (decide (l' = l)) as [->|Hne]; [done|].
    exists u. by rewrite lookup_insert_ne.
Qed.

Lemma enrichUsers_inv online (h0 : gmap models.loc models.User) ls :
  forall h h',
  Node.overwritten (Node.enriched online) h0 h ->
  Node.enrichUsers online ls h = Some h' ->
  Node.overwritten (Node.enriched online) h0 h'
  /\ (forall l, l ∈ ls -> Node.settled (Node.enriched online) h0 h' l)
  /\ (forall l, Node.settled (Node.enriched online) h0 h l ->
                Node.settled (Node.enriched online) h0 h' l).
Proof.
  induction ls as [|l ls IH]; intros h h' Hov; simpl.
  - intros [= <-]. split; [done|]. split; [|done]. intros l Hl. by apply elem_of_nil in Hl.
  - destruct (Node.enrichUser online h l) as [h1|] eqn:H1; [|discriminate].
    intros Hrest.
    destruct (enrichUser_inv online h0 h h1 l Hov H1) as (Hov1 & Hl & Hkeep1).
    destruct (IH h1 h' Hov1 Hrest) as (Hov' & Hin & Hkeep).
    split; [done|]. split.
    + intros l' Hl'. apply elem_of_cons in Hl' as [->|Hl']; [by apply Hkeep | by apply Hin].
    + intros l' Hs. by apply Hkeep, Hkeep1.
Qed.

Lemma enrichConversations_inv online (h0 : gmap models.loc models.User) cs :
  forall h h',
  Node.overwritten (Node.enriched online) h0 h ->
  Node.enrichConversations online cs h = Some h' ->
  Node.overwritten (Node.enriched online) h0 h'
  /\ (forall c p, c ∈ cs -> p ∈ elems (models.Participants c) ->
                  Node.settled (Node.enriched online) h0 h' p)
  /\ (forall l, Node.settled (Node.enriched online) h0 h l ->
                Node.settled (Node.enriched online) h0 h' l).
Proof.
  induction cs as [|c cs IH]; intros h h' Hov; simpl.
  - intros [= <-]. split; [done|]. split; [|done]. intros c p Hc. by apply elem_of_nil in Hc.
  - destruct (Node.enrichUsers online (elems (models.Participants c)) h) as [h1|] eqn:H1;
      [|discriminate].
    intros Hrest.
    destruct (enrichUsers_inv online h0 _ h h1 Hov H1) as (Hov1 & Hin1 & Hkeep1).
    destruct (IH h1 h' Hov1 Hrest) as (Hov' & Hin & Hkeep).
    split; [done|]. split.
    + intros c' p Hc' Hp. apply elem_of_cons in Hc' as [->|Hc'].
      * by apply Hkeep, Hin1.
      * by apply (Hin c').
    + intros l Hs. by apply Hkeep, Hkeep1.
Qed.

(** C7.  When a subscription succeeds, the ready state that is pushed is
    the one the provider returned, read in the object store the enrichment
    leaves; in it every friend's user and every participant of every
    conversation is the object the provider returned with its status set to
    "online" if the tracker reports the user online and to "offline"
    otherwise, whatever the stored status was, also when objects are
    shared. *)
Theorem ready_state_status_from_tracker
    (encodeString : string -> string) (encodeData : Node.Data -> string + error)
    (nodePublish : string -> string -> option error)
    (dataProvider : UUID -> gmap models.loc models.User ->
                    (option models.ReadyEvent * option error) * gmap models.loc models.User)
    (clientUserID : string) (userID : UUID) (online : gmap UUID Z)
    (channel : string) (h h' : gmap models.loc models.User)
    (readyState : models.ReadyEvent) (pushed : list (string * string)) :
  Node.OnSubscribe encodeString encodeData nodePublish dataProvider
    clientUserID userID online channel h = Node.Subscribed h' readyState pushed ->
  let status (u : models.User) : string :=
    if Presence.IsOnline online (models.ID u) then "online" else "offline" in
  exists h1,
    dataProvider userID h = ((Some readyState, None), h1)
    /\ pushed = (Node.PublishToUser encodeString encodeData nodePublish userID "READY"
                   (Node.DataReady readyState h')).1
    /\ (forall f, f ∈ elems (models.Friends readyState) ->
          exists u, h1 !! models.FriendUser f = Some u
                    /\ h' !! models.FriendUser f = Some (models.withStatus u (status u)))
    /\ (forall c p, c ∈ elems (models.Conversations readyState) ->
          p ∈ elems (models.Participants c) ->
          exists u, h1 !! p = Some u /\ h' !! p = Some (models.withStatus u (status u))).
Proof.
  unfold Node.OnSubscribe. case_decide; [discriminate|].
  destruct (dataProvider userID h) as [[rs err] h1] eqn:Hdp.
  destruct rs as [rs|], err as [e|]; try discriminate.
  destruct (Node.enrichFriends online (elems (models.Friends rs)) h1) as [h2|] eqn:Hf;
    [|discriminate].
  destruct (Node.enrichConversations online (elems (models.Conversations rs)) h2) as [h3|] eqn:Hc;
    [|discriminate].
  intros [= <- <- <-]. simpl. exists h1.
  unfold Node.enrichFriends in Hf.
  destruct (enrichUsers_inv online h1 _ h1 h2 (overwritten_refl _ _) Hf) as (Hov2 & Hin2 & _).
  destruct (enrichConversations_inv online h1 _ h2 h3 Hov2 Hc) as (Hov3 & Hin3 & Hkeep3).
  split; [done|]. split; [done|]. split.
  - intros f Hfin. apply Hkeep3, Hin2. apply list_elem_of_fmap. by exists f.
  - intros c p Hcin Hp. by apply (Hin3 c).
Qed.

(** A subscription on the connection's own channel goes through whenever the
    provider succeeds and the users it refers to exist: the enrichment
    dereferences only those. *)
Lemma enrichUsers_total online ls (h : gmap models.loc models.User) :
  (forall l, l ∈ ls -> is_Some (h !! l)) ->
  exists h', Node.enrichUsers online ls h = Some h'
             /\ forall l, is_Some (h' !! l) <-> is_Some (h !! l).
Proof.
  revert h. induction ls as [|l ls IH]; intros h Hall; simpl.
  - by exists h.
  - unfold Node.enrichUser.
    destruct (Hall l) as [u Hu]; [by left|]. rewrite Hu.
    assert (Hdom : forall l', is_Some (<[l := Node.enriched online u]> h !! l')
                              <-> is_Some (h !! l')).
    { intros l'. destruct (decide (l' = l)) as [->|Hne].
      - rewrite lookup_insert_eq, Hu. split; eauto.
      - by rewrite lookup_insert_ne. }
    destruct (IH (<[l := Node.enriched online u]> h)) as (h' & Hrun & Hdom').
    { intros l' Hl'. apply Hdom, Hall. by right. }
    exists h'. split; [done|]. intros l'. by rewrite Hdom', Hdom.
Qed.

Lemma enrichConversations_total online cs (h : gmap models.loc models.User) :
  (forall c p, c ∈ cs -> p ∈ elems (models.Participants c) -> is_Some (h !! p)) ->
  exists h', Node.enrichConversations online cs h = Some h'.
Proof.
  revert h. induction cs as [|c cs IH]; intros h Hall; simpl.
  - by exists h.
  - destruct (enrichUsers_total online (elems (models.Participants c)) h) as (h1 & -> & Hdom).
    { intros p Hp. apply (Hall c); [by left | done]. }
    apply IH. intros c' p Hc' Hp. apply Hdom, (Hall c'); [by right | done].
Qed.

Lemma subscribe_succeeds
    (encodeString : string -> string) (encodeData : Node.Data -> string + error)
    (nodePublish : string -> string -> option error)
    (dataProvider : UUID -> gmap models.loc models.User ->
                    (option models.ReadyEvent * option error) * gmap models.loc models.User)
    (clientUserID : string) (userID : UUID) (online : gmap UUID Z)
    (h h1 : gmap models.loc models.User) (readyState : models.ReadyEvent) :
  dataProvider userID h = ((Some readyState, None), h1) ->
  (forall f, f ∈ elems (models.Friends readyState) -> is_Some (h1 !! models.FriendUser f)) ->
  (forall c p, c ∈ elems (models.Conversations readyState) ->
               p ∈ elems (models.Participants c) -> is_Some (h1 !! p)) ->
  exists h' pushed,
    Node.OnSubscribe encodeString encodeData nodePublish dataProvider
      clientUserID userID online ("user:" +:+ clientUserID) h
    = Node.Subscribed h' readyState pushed.
Proof.
  intros Hdp Hf Hc. unfold Node.OnSubscribe.
  rewrite decide_False by (intros Hne; by apply Hne). rewrite Hdp.
  unfold Node.enrichFriends.
  destruct (enrichUsers_total online (map models.FriendUser (elems (models.Friends readyState))) h1)
    as (h2 & -> & Hdom).
  { intros l Hl. apply list_elem_of_fmap in Hl as (f & -> & Hfin). by apply Hf. }
  destruct (enrichConversations_total online (elems (models.Conversations readyState)) h2)
    as (h3 & ->).
  { intros c p Hcin Hp. apply Hdom. by apply (Hc c). }
  eauto.
Qed.

(** A friend who is also a participant of a conversation, as one shared
    object with a stale stored status, and a second participant. *)
Lemma ready_state_status_from_tracker_witness :
  let alice := models.mkUser (mkUUID 1) "a@x" (Some "alice") None "offline" 0 0 in
  let bob := models.mkUser (mkUUID 2) "b@x" (Some "bob") None "online" 0 0 in
  let heap : gmap models.loc models.User := <[2%positive := bob]> (<[1%positive := alice]> ∅) in
  let readyState :=
    models.mkReady None (Some [models.mkFriend (mkUUID 9) 1%positive 0]) (Some []) (Some [])
      (Some [models.mkConversation (mkUUID 5) "dm" None None None
               (Some [1%positive; 2%positive]) None 0]) (Some []) in
  let online : gmap UUID Z := {[mkUUID 1 := 1]} in
  let heap' : gmap models.loc models.User :=
    <[2%positive := models.withStatus bob "offline"]>
      (<[1%positive := models.withStatus alice "online"]> ∅) in
  exists h1,
    h1 = heap
    /\ (forall f, f ∈ elems (models.Friends readyState) ->
          exists u, h1 !! models.FriendUser f = Some u
                    /\ heap' !! models.FriendUser f
                       = Some (models.withStatus u
                                 (if Presence.IsOnline online (models.ID u)
                                  then "online" else "offline")))
    /\ (forall c p, c ∈ elems (models.Conversations readyState) ->
          p ∈ elems (models.Participants c) ->
          exists u, h1 !! p = Some u
                    /\ heap' !! p
                       = Some (models.withStatus u
                                 (if Presence.IsOnline online (models.ID u)
                                  then "online" else "offline"))).
Proof.
  intros alice bob heap readyState online heap'.
  destruct (ready_state_status_from_tracker (fun s => s) (fun _ => inl "null") (fun _ _ => None)
              (fun _ h => ((Some readyState, None), h))
              "00000000-0000-0000-0000-000000000003" (mkUUID 3) online
              "user:00000000-0000-0000-0000-000000000003" heap heap' readyState
              [("user:00000000-0000-0000-0000-000000000003",
                Node.envelope "READY" "null")])
    as (h1 & Hdp & _ & Hfriends & Hconvs).
  - vm_compute. reflexivity.
  - exists h1. injection Hdp as <-. done.
Defined.

(** ** Ready-state aggregation *)

Lemma scan_all_ok {R A : Type}
    (mk : gmap models.loc models.User -> R -> A * gmap models.loc models.User) rows :
  forall acc h s h',
  scan_all mk rows acc h = (inr s, h') ->
  length (elems s) = (length (elems acc) + length rows)%nat /\ (rows = [] -> s = acc).
Proof.
  induction rows as [|[r|e] rows IH]; intros acc h s h'; simpl.
  - intros [= <- <-]. split; [lia | done].
  - destruct (mk h r) as [a h1]. intros Hrest.
    destruct (IH _ _ _ _ Hrest) as [Hlen _]. split; [|done].
    rewrite Hlen. unfold append. simpl. rewrite length_app. simpl. lia.
  - discriminate.
Qed.

(** A failed [GetFriends] returns nil, unless the failure is the one
    [rows.Err()] reports after at least one row: then the rows read so far
    come back with the error. *)
Lemma GetFriends_failed q h v e h' :
  FriendsRepo.GetFriends q h = ((v, Some e), h') ->
  v = None
  \/ exists c, q = inr c /\ cur_err c = Some e /\ cur_rows c <> []
               /\ length (elems v) = length (cur_rows c).
Proof.
  unfold FriendsRepo.GetFriends. destruct q as [e0|c]; [intros [= <- _ _]; by left|].
  destruct (scan_all _ (cur_rows c) None h) as [[e1|friends] h1] eqn:Hscan;
    [intros [= <- _ _]; by left|].
  intros [= <- Herr <-].
  destruct (scan_all_ok _ _ _ _ _ _ Hscan) as [Hlen Hnil].
  destruct (cur_rows c) as [|r rows] eqn:Hrows; [left; by apply Hnil|].
  right. exists c. rewrite Hrows. by repeat split.
Qed.

Lemma GetRequests_failed q h v e h' :
  FriendsRepo.GetRequests q h = ((v, Some e), h') ->
  v = None
  \/ exists c, q = inr c /\ cur_err c = Some e /\ cur_rows c <> []
               /\ length (elems v) = length (cur_rows c).
Proof.
  unfold FriendsRepo.GetRequests. destruct q as [e0|c]; [intros [= <- _ _]; by left|].
  destruct (scan_all _ (cur_rows c) None h) as [[e1|requests] h1] eqn:Hscan;
    [intros [= <- _ _]; by left|].
  intros [= <- Herr <-].
  destruct (scan_all_ok _ _ _ _ _ _ Hscan) as [Hlen Hnil].
  destruct (cur_rows c) as [|r rows] eqn:Hrows; [left; by apply Hnil|].
  right. exists c. rewrite Hrows. by repeat split.
Qed.

(** A failed [GetUserConversations] returns nil. *)
Lemma GetUserConversations_failed q parts last h v e h' :
  MessagesRepo.GetUserConversations q parts last h = ((v, Some e), h') -> v = None.
Proof.
  unfold MessagesRepo.GetUserConversations. destruct q as [e0|c]; [by intros [= <- _ _]|].
  destruct (scan_all _ (cur_rows c) None h) as [[e1|[convs|]] h1]; try by intros [= <- _ _].
  destruct (MessagesRepo.load_details parts last convs h1) as [[e2|cs] h2]; [by intros [= <- _ _]|].
  discriminate.
Qed.

(** A failed [GetActiveCallsForConversations] returns nil. *)
Lemma GetActiveCallsForConversations_failed q parts ids v e :
  calls.GetActiveCallsForConversations q parts ids = (v, Some e) -> v = None.
Proof.
  unfold calls.GetActiveCallsForConversations. case_decide; [discriminate|].
  destruct (q (elems ids)) as [e0|c]; [by intros [= <- _]|].
  destruct (calls.scan_calls parts (cur_rows c) None) as [e1|cs]; [by intros [= <- _]|].
  discriminate.
Qed.

Lemma or_empty_is_Some {A} (s : slice A) : is_Some (or_empty s).
Proof. destruct s; by eexists. Qed.

Lemma or_empty_elems {A} (s : slice A) : elems (or_empty s) = elems s.
Proof. by destruct s. Qed.

(** The fields of a successful build, from the store [h1] the loads start
    from. *)
Ltac ready_state_fields f :=
  match goal with
  | |- context [FriendsRepo.GetFriends (Provider.friends_q f) ?h1] =>
      destruct (FriendsRepo.GetFriends (Provider.friends_q f) h1) as [[vF eF] h2] eqn:HF;
      destruct (FriendsRepo.GetIncomingRequests (Provider.incoming_q f) h2)
        as [[vI eI] h3] eqn:HI;
      destruct (FriendsRepo.GetOutgoingRequests (Provider.outgoing_q f) h3)
        as [[vO eO] h4] eqn:HO;
      destruct (MessagesRepo.GetUserConversations (Provider.conversations_q f)
                  (Provider.participants_q f) (Provider.last_message_q f) h4)
        as [[vC eC] h5] eqn:HC;
      eexists _, h5, h1, h2, h3, h4, (vF, eF), (vI, eI), (vO, eO), (vC, eC);
      split; [reflexivity|];
      cbn [fst snd models.Friends models.IncomingRequests models.OutgoingRequests
           models.Conversations models.ActiveCalls];
      repeat (split; [done|]);
      split; [|split; [|split; [|split; [|split]]]];
      [ case_decide; [|by eexists];
        destruct (calls.GetActiveCallsForConversations _ _ _) as [active ?];
        apply or_empty_is_Some
      | let HeC := fresh in
        intros HeC; destruct eC as [e|]; [|done];
        apply GetUserConversations_failed in HC as ->;
        split; [done|]; by rewrite decide_False by (unfold len; simpl; lia)
      | let Hcall := fresh in
        intros v e Hcall; case_decide; [|done];
        rewrite Hcall; apply GetActiveCallsForConversations_failed in Hcall as ->; done
      | let He := fresh in
        intros He; destruct eF as [e|]; [|done];
        destruct (GetFriends_failed _ _ _ _ _ HF) as [-> | (c & Hq & Herr & Hrows & Hlen)];
        [by left | right; exists c; by rewrite or_empty_elems]
      | let He := fresh in
        intros He; destruct eI as [e|]; [|done];
        destruct (GetRequests_failed _ _ _ _ _ HI) as [-> | (c & Hq & Herr & Hrows & Hlen)];
        [by left | right; exists c; by rewrite or_empty_elems]
      | let He := fresh in
        intros He; destruct eO as [e|]; [|done];
        destruct (GetRequests_failed _ _ _ _ _ HO) as [-> | (c & Hq & Herr & Hrows & Hlen)];
        [by left | right; exists c; by rewrite or_empty_elems] ]
  end.

(** C5, amended.  The build fails exactly when the user-profile fetch
    fails, with that error.  Otherwise it succeeds whatever the other
    fetches report: each field is the list the fetch returned, the empty
    list if it returned none.  A failed conversations or active-calls fetch
    returns none, so the field is empty; a failed friends, incoming or
    outgoing fetch returns none when the query or a row scan failed, and
    the rows read so far when the failure is the one reported after the row
    iteration. *)
Theorem ready_state_fetch_failures
    (Format : Time -> string) (f : Provider.Fetched) (h : gmap models.loc models.User) :
  match AuthRepo.GetUserByID (Provider.user_row f) with
  | (_, Some e) => Provider.GetReadyState Format f h = ((None, Some e), h)
  | (_, None) =>
      exists rs h' h1 h2 h3 h4 rF rI rO rC,
        Provider.GetReadyState Format f h = ((Some rs, None), h')
        /\ FriendsRepo.GetFriends (Provider.friends_q f) h1 = (rF, h2)
        /\ FriendsRepo.GetIncomingRequests (Provider.incoming_q f) h2 = (rI, h3)
        /\ FriendsRepo.GetOutgoingRequests (Provider.outgoing_q f) h3 = (rO, h4)
        /\ MessagesRepo.GetUserConversations (Provider.conversations_q f)
             (Provider.participants_q f) (Provider.last_message_q f) h4 = (rC, h')
        /\ models.Friends rs = or_empty rF.1
        /\ models.IncomingRequests rs = or_empty rI.1
        /\ models.OutgoingRequests rs = or_empty rO.1
        /\ models.Conversations rs = or_empty rC.1
        /\ is_Some (models.ActiveCalls rs)
        /\ (rC.2 <> None ->
              models.Conversations rs = Some [] /\ models.ActiveCalls rs = Some [])
        /\ (forall v e,
              calls.GetActiveCallsForConversations (Provider.active_calls_q f)
                (Provider.call_participants_q f)
                (Some (map models.ConvID (elems (models.Conversations rs)))) = (v, Some e) ->
              models.ActiveCalls rs = Some [])
        /\ (rF.2 <> None ->
              models.Friends rs = Some []
              \/ exists c, Provider.friends_q f = inr c /\ cur_err c = rF.2 /\ cur_rows c <> []
                           /\ length (elems (models.Friends rs)) = length (cur_rows c))
        /\ (rI.2 <> None ->
              models.IncomingRequests rs = Some []
              \/ exists c, Provider.incoming_q f = inr c /\ cur_err c = rI.2 /\ cur_rows c <> []
                           /\ length (elems (models.IncomingRequests rs)) = length (cur_rows c))
        /\ (rO.2 <> None ->
              models.OutgoingRequests rs = Some []
              \/ exists c, Provider.outgoing_q f = inr c /\ cur_err c = rO.2 /\ cur_rows c <> []
                           /\ length (elems (models.OutgoingRequests rs)) = length (cur_rows c))
  end.
Proof.
  unfold Provider.GetReadyState.
  destruct (AuthRepo.GetUserByID (Provider.user_row f)) as [user [e|]]; [done|].
  destruct user as [u|]; [destruct (alloc h u) as [l h1]|]; ready_state_fields f.
Qed.

(** C5 as stated fails: the friends fetch fails after one row has been
    read (the stream breaks off and [rows.Err()] reports it); the build
    succeeds and its friend list is that row, not the empty list. *)
Lemma failed_friends_fetch_counterexample :
  let me := models.mkUser (mkUUID 1) "me@x" (Some "me") None "" 0 0 in
  let friend := models.mkUser (mkUUID 2) "friend@x" (Some "friend") None "" 0 0 in
  let down : error := ErrDriver "unexpected EOF" in
  let f := Provider.mkFetched (inl me)
             (inr (mkCursor [Row (FriendsRepo.mkFriendRow (mkUUID 9) 0 friend)] (Some down)))
             (inl down) (inl down) (inl down)
             (fun _ => inl down) (fun _ => inr down) (fun _ => inl down) (fun _ => inl down) in
  (FriendsRepo.GetFriends (Provider.friends_q f) (alloc ∅ me).2).1.2 = Some down
  /\ exists rs h',
       Provider.GetReadyState (fun _ => "") f ∅ = ((Some rs, None), h')
       /\ models.Friends rs = Some [models.mkFriend (mkUUID 9) 2%positive 0]
       /\ models.Friends rs <> Some [].
Proof.
  intros me friend down f. split; [vm_compute; reflexivity|].
  eexists _, _. split; [vm_compute; reflexivity|]. split; [reflexivity | discriminate].
Qed.

(** A build in which every fetch but the user's is refused at its query. *)
Lemma ready_state_fetch_failures_witness :
  let me := models.mkUser (mkUUID 1) "me@x" (Some "me") None "" 0 0 in
  let down : error := ErrDriver "unexpected EOF" in
  let f := Provider.mkFetched (inl me) (inl down) (inl down) (inl down) (inl down)
             (fun _ => inl down) (fun _ => inr down) (fun _ => inl down) (fun _ => inl down) in
  exists rs h',
    Provider.GetReadyState (fun _ => "") f ∅ = ((Some rs, None), h')
    /\ models.Friends rs = Some [] /\ models.IncomingRequests rs = Some []
    /\ models.OutgoingRequests rs = Some [] /\ models.Conversations rs = Some []
    /\ models.ActiveCalls rs = Some [].
Proof.
  intros me down f.
  pose proof (ready_state_fetch_failures (fun _ => "") f ∅) as H.
  change (AuthRepo.GetUserByID (Provider.user_row f)) with (Some me, @None error) in H.
  cbv iota beta in H.
  destruct H as (rs & h' & h1 & h2 & h3 & h4 & rF & rI & rO & rC & Hrun & HF & HI & HO & HC
                 & HrF & HrI & HrO & HrC & _ & Hconv & _).
  exists rs, h'. split; [done|].
  injection HF as <- _. injection HI as <- _. injection HO as <- _. injection HC as <- _.
  destruct (Hconv ltac:(discriminate)) as [-> ->].
  rewrite HrF, HrI, HrO. done.
Defined.

(** ** Call handlers *)




(** "No active call" reaches the caller as the error [pgx.ErrNoRows]. *)
Lemma no_active_call_is_ErrNoRows conversationID w :
  driver w = [] ->
  List.filter (fun c => CallsRepository.isActiveCall conversationID c) (tbl_calls (db w)) = [] ->
  CallsRepository.GetActiveCallForConversation conversationID w = ((None, Some ErrNoRows), w).
Proof.
  intros Hdrv Hnone.
  unfold CallsRepository.GetActiveCallForConversation, bind, getDB, ret, roundtrip.
  rewrite Hdrv. simpl. by rewrite Hnone.
Qed.

(** A notification whose payload serializes reaches the substrate as one
    message per recipient, in order, each on the recipient's own channel. *)
Lemma deliver_one_per_recipient
    (encodeString : string -> string) (encodeData : Node.Data -> string + error)
    (nodePublish : string -> string -> option error) (n : Notification) (encoded : string) :
  encodeData (data n) = inl encoded ->
  Handlers.deliver encodeString encodeData nodePublish n
  = map (fun userID => ("user:" +:+ UUID_String userID,
                        Node.envelope (encodeString (eventType n)) encoded))
      (elems (recipients n)).
Proof.
  intros Henc. unfold Handlers.deliver, Node.PublishToUsers.
  induction (elems (recipients n)) as [|u us IH]; simpl; [done|].
  rewrite IH. unfold Node.PublishToUser, Node.marshalEnvelope. by rewrite Henc.
Qed.



(** C9.  The call message classifies an ended call as "missed" exactly
    when its participant list has one entry and its duration is below 5
    seconds, and as "completed" otherwise; with a store that does not fail,
    the message created carries the serialized content with that status. *)
Theorem call_message_classification (info : calls.CallEndInfo) :
  let status := models.ContentStatus (Handlers.callContent info) in
  (status = "missed"
     <-> len (calls.EndParticipants info) = 1 /\ calls.Duration info < 5)
  /\ (status = "completed"
        <-> ~ (len (calls.EndParticipants info) = 1 /\ calls.Duration info < 5))
  /\ (forall marshalContent contentJSON w,
        marshalContent (Handlers.callContent info) = inl contentJSON ->
        driver w = [] ->
        exists message,
          tbl_messages (db (Handlers.createCallMessage marshalContent (Some info) w).2)
          = tbl_messages (db w) ++ [message]
          /\ models.Content message = contentJSON
          /\ models.MessageType message = "call"
          /\ models.MessageConversationID message = calls.EndConversationID info
          /\ models.SenderID message = calls.EndStartedBy info).
Proof.
  simpl. unfold Handlers.callStatus.
  split; [|split].
  - repeat case_bool_decide; simpl; intuition congruence.
  - repeat case_bool_decide; simpl; intuition congruence.
  - intros marshalContent contentJSON w Hjson Hdrv.
    unfold Handlers.createCallMessage. rewrite Hjson.
    unfold StoreRepos.CreateCallMessage, StoreRepos.GetParticipantIDs, bind, roundtrip,
      NewUUID, Now, getDB, putDB, ret, NotifyUsers.
    rewrite Hdrv. simpl. rewrite Hdrv. simpl.
    destruct (ids w), (clock w); simpl; rewrite ?Hdrv; simpl; rewrite ?Hdrv; simpl;
      eexists; (split; [reflexivity|]); done.
Qed.

(** A call of three seconds that only its starter was in. *)
Lemma call_message_classification_witness :
  let info := calls.mkCallEndInfo (mkUUID 500) (mkUUID 100) (mkUUID 1) (Some [mkUUID 1]) 3 in
  let w := mkWorld (mkStore [mkUUID 100] [] [] [(mkUUID 100, mkUUID 1)] [] []) [] [7000] [mkUUID 900] [] in
  models.ContentStatus (Handlers.callContent info) = "missed"
  /\ exists message,
       tbl_messages (db (Handlers.createCallMessage
                           (fun c => inl (models.ContentStatus c)) (Some info) w).2)
       = tbl_messages (db w) ++ [message]
       /\ models.Content message = "missed"
       /\ models.MessageType message = "call"
       /\ models.MessageConversationID message = mkUUID 100
       /\ models.SenderID message = mkUUID 1.
Proof.
  intros info w.
  destruct (call_message_classification info) as (Hmissed & _ & Hmessage).
  split.
  - apply Hmissed. split; [reflexivity | simpl; lia].
  - apply (Hmessage (fun c => inl (models.ContentStatus c)) "missed" w); reflexivity.
Defined.

(** C2: the code at a user who calls StartCall again for the conversation
    whose active call they are already in.  The handler finds the call and
    calls [JoinCall], which inserts unconditionally: the user ends up with
    two rows with left_at NULL in that call, the request succeeds, and the
    CALL_STATE event lists the user twice. *)
Theorem start_call_twice_duplicates_participant :
  let alice := mkUUID 1 in
  let conv := mkUUID 100 in
  let call := mkUUID 500 in
  let store := mkStore [mkUUID 100] [calls.mkCall call conv alice 1000 None None]
                 [mkParticipantRow call alice 1000 None]
                 [(conv, alice); (conv, mkUUID 2)]
                 [models.mkUser alice "a@x" (Some "alice") None "" 0 0] [] in
  let w := mkWorld store [] [2000; 2001; 2002] [] [] in
  let sign (c : Voice.VoiceClaims) : string * option error := (Voice.RoomID c, None) in
  let result := Handlers.StartCall sign "wss://voice" alice conv w in
  CallsRepository.activeRows (db w) call = [mkParticipantRow call alice 1000 None]
  /\ CallsRepository.activeRows (db result.2) call
     = [mkParticipantRow call alice 1000 None; mkParticipantRow call alice 2000 None]
  /\ result.1 = Handlers.HttpJSON
                  (Handlers.mkCallResponse "00000000-0000-0000-0000-0000000001f4"
                     "call-00000000-0000-0000-0000-0000000001f4" "wss://voice")
  /\ outbox result.2
     = [mkNotification (Some [alice; mkUUID 2]) "CALL_STATE"
          (Node.DataCallState (models.mkCallState conv (Some call) (Some [alice; alice])))].
Proof. vm_compute. repeat split; reflexivity. Qed.

(** [JoinCall] looks at no existing row but through the keys: with an
    instant of its own, for a call and a user of the store, the row is added
    whether or not the user already has one with left_at NULL. *)
Lemma JoinCall_inserts callID userID w now later :
  clock w = now :: later -> driver w = [] ->
  existsb (CallsRepository.samePK callID userID now) (tbl_call_participants (db w)) = false ->
  CallsRepository.hasCall (db w) callID = true ->
  CallsRepository.hasUser (db w) userID = true ->
  CallsRepository.JoinCall callID userID w
  = (None, mkWorld (withCallParticipants (db w)
                      (tbl_call_participants (db w) ++ [mkParticipantRow callID userID now None]))
             [] later (ids w) (outbox w)).
Proof.
  intros Hclock Hdrv Hpk Hcall Huser.
  unfold CallsRepository.JoinCall, bind, Now, roundtrip, getDB, putDB, ret.
  rewrite Hclock. simpl. rewrite Hdrv. simpl.
  unfold CallsRepository.insertParticipant. by rewrite Hpk, Hcall, Huser.
Qed.

(** The [EndCall] of the sources (src/unnamed/part_002, the one that returns
    the error alone) sets ended_at whatever it was: on a call that has ended
    it replaces the end timestamp by the present instant and returns nil. *)
Lemma EndCall_overwrites callID w now later :
  clock w = now :: later -> driver w = [] ->
  (let cs := map (CallsRepository.setEnded now callID) (tbl_calls (db w)) in
   existsb (fun c => bool_decide (calls.ID c = callID) && CallsRepository.clashes cs c) cs = false) ->
  exists w',
    CallsRepository.EndCall callID w = (None, w')
    /\ tbl_calls (db w') = map (CallsRepository.setEnded now callID) (tbl_calls (db w))
    /\ (forall c, c ∈ tbl_calls (db w') -> calls.ID c = callID -> calls.EndedAt c = Some now).
Proof.
  intros Hclock Hdrv Hok.
  unfold CallsRepository.EndCall, bind, Now, roundtrip, getDB, putDB, ret.
  rewrite Hclock. simpl. rewrite Hdrv. simpl. simpl in Hok. rewrite Hok.
  eexists. split; [reflexivity|]. simpl. split; [done|].
  intros c Hc Hid. apply list_elem_of_fmap in Hc as (c0 & -> & _).
  unfold CallsRepository.setEnded in *.
  case_bool_decide; simpl in *; [done | congruence].
Qed.

(** * Further properties *)

(** ** Presence tracker and presence notices *)

(** X1.  A connect followed by a disconnect of the same user restores the
    presence map, and the disconnect reports an edge exactly when the connect
    did, from any map in which the user's count is not a stored zero, not
    negative and below the largest int. *)
Theorem connect_disconnect_restores (m : gmap UUID Z) (u : UUID) :
  m !! u <> Some 0 -> 0 <= Presence.get m u < GoInt.max_int ->
  let connectR := Presence.addOnlineUser m u in
  let disconnectR := Presence.removeOnlineUser connectR.1 u in
  disconnectR.1 = m /\ disconnectR.2 = connectR.2
  /\ Presence.IsOnline connectR.1 u = true.
Proof.
  intros Hnz Hrange. simpl.
  unfold Presence.removeOnlineUser, Presence.addOnlineUser. simpl.
  unfold GoInt.incr. rewrite wrap_small by (unfold GoInt.min_int, GoInt.max_int in *; lia).
  assert (Hg1 : Presence.get (<[u := Presence.get m u + 1]> m) u = Presence.get m u + 1).
  { unfold Presence.get at 1. by rewrite lookup_insert_eq. }
  rewrite Hg1. unfold GoInt.decr.
  rewrite wrap_small by (unfold GoInt.min_int, GoInt.max_int in *; lia).
  replace (Presence.get m u + 1 - 1) with (Presence.get m u) by lia.
  rewrite insert_insert_eq.
  assert (Hg2 : Presence.get (<[u := Presence.get m u]> m) u = Presence.get m u).
  { unfold Presence.get at 1. by rewrite lookup_insert_eq. }
  rewrite Hg2.
  split; [|split].
  - case_decide as Hle; simpl.
    + rewrite delete_insert_eq. apply delete_id.
      unfold Presence.get in *. destruct (m !! u) as [c|] eqn:Hc; [|done].
      simpl in *. assert (c = 0) as -> by lia. done.
    + apply insert_id. unfold Presence.get in *.
      destruct (m !! u) as [c|] eqn:Hc; simpl in *; [done | lia].
  - case_decide as Hle; simpl.
    + symmetry. apply bool_decide_eq_true_2. lia.
    + symmetry. apply bool_decide_eq_false_2. lia.
  - unfold Presence.IsOnline. rewrite Hg1. apply bool_decide_eq_true_2. lia.
Qed.

Lemma connect_disconnect_restores_witness :
  let m : gmap UUID Z := {[mkUUID 1 := 2]} in
  let connectR := Presence.addOnlineUser m (mkUUID 1) in
  let disconnectR := Presence.removeOnlineUser connectR.1 (mkUUID 1) in
  disconnectR.1 = m /\ disconnectR.2 = connectR.2
  /\ Presence.IsOnline connectR.1 (mkUUID 1) = true.
Proof.
  intros m. apply (connect_disconnect_restores m (mkUUID 1)).
  - subst m. rewrite lookup_singleton_eq. intros [=].
  - subst m. unfold Presence.get. rewrite lookup_singleton_eq. vm_compute. split; congruence.
Defined.

Lemma handle_step online e :
  (NodeEvents.handle online e).1 = (Presence.step online e).1
  /\ (NodeEvents.handle online e).2
     = if (Presence.step online e).2
       then Some (Presence.event_user e,
                  match e with Presence.Connect _ => "online" | Presence.Disconnect _ => "offline" end)
       else None.
Proof.
  destruct e as [u|u]; simpl.
  - unfold NodeEvents.connected. by destruct (Presence.addOnlineUser online u) as [m []].
  - unfold NodeEvents.OnDisconnect. by destruct (Presence.removeOnlineUser online u) as [m []].
Qed.

Lemma notices_app online p s :
  NodeEvents.notices online (p ++ s)
  = NodeEvents.notices online p ++ NodeEvents.notices (Presence.run online p) s.
Proof.
  revert online. induction p as [|e p IH]; intros online; simpl; [done|].
  destruct (handle_step online e) as [H1 H2].
  destruct (NodeEvents.handle online e) as [online' notice]. simpl in *. subst online'.
  destruct notice; simpl; by rewrite IH.
Qed.

Lemma countNotices_app u s ns ms :
  NodeEvents.countNotices u s (ns ++ ms)
  = NodeEvents.countNotices u s ns + NodeEvents.countNotices u s ms.
Proof.
  unfold NodeEvents.countNotices. rewrite List.filter_app, length_app. lia.
Qed.

Lemma step_returns p e :
  Presence.causal (p ++ [e]) -> Z.of_nat (length (p ++ [e])) < 2 ^ 63 ->
  (Presence.step (Presence.run ∅ p) e).2
  = match e with
    | Presence.Connect w => bool_decide (Presence.balance w p = 0)
    | Presence.Disconnect w => bool_decide (Presence.balance w p = 1)
    end.
Proof.
  intros Hc Hlen. rewrite length_app in Hlen. simpl in Hlen.
  pose proof (causal_snoc _ _ Hc) as Hp.
  pose proof (run_entry p Hp ltac:(lia)) as Hbefore.
  pose proof (Hc (length (p ++ [e])) (Presence.event_user e)) as Hce.
  rewrite take_ge in Hce by done. rewrite balance_app in Hce.
  pose proof (Hp (length p) (Presence.event_user e)) as Hpe.
  rewrite take_ge in Hpe by done.
  pose proof (balance_bound (Presence.event_user e) p) as Hb.
  destruct e as [w|w]; simpl in *; rewrite decide_True in Hce by done.
  - apply addOnlineUser_entry; [unfold GoInt.max_int; lia | apply Hbefore].
  - apply removeOnlineUser_entry; [unfold GoInt.max_int; lia | apply Hbefore].
Qed.

(** X2.  Over a sequence of connection events in which no prefix has more
    disconnects than connects, the "online" notices started for a user
    exceed the "offline" notices started for that user by one if the user is
    online at the end and by none otherwise: notices are started on the 0-1
    and 1-0 edges only, and they alternate. *)
Theorem presence_notices_follow_edges (evs : list Presence.conn_event) (u : UUID) :
  Presence.causal evs -> Z.of_nat (length evs) < 2 ^ 63 ->
  NodeEvents.countNotices u "online" (NodeEvents.notices ∅ evs)
  - NodeEvents.countNotices u "offline" (NodeEvents.notices ∅ evs)
  = if Presence.IsOnline (Presence.run ∅ evs) u then 1 else 0.
Proof.
  induction evs as [|e p IH] using rev_ind; intros Hc Hlen.
  - reflexivity.
  - pose proof (step_returns p e Hc Hlen) as Hret.
    pose proof (causal_snoc _ _ Hc) as Hp.
    assert (Hlenp : Z.of_nat (length p) < 2 ^ 63) by (rewrite length_app in Hlen; simpl in Hlen; lia).
    specialize (IH Hp Hlenp).
    pose proof (Hp (length p) u) as Hp0. rewrite take_ge in Hp0 by done.
    pose proof (Hc (length (p ++ [e])) u) as Hc0. rewrite take_ge in Hc0 by done.
    pose proof (IsOnline_entry _ u _ Hp0 (run_entry p Hp Hlenp u)) as E1.
    pose proof (IsOnline_entry _ u _ Hc0 (run_entry (p ++ [e]) Hc Hlen u)) as E2.
    rewrite E1 in IH. rewrite E2. clear E1 E2.
    rewrite balance_app in *. simpl in Hc0 |- *.
    rewrite notices_app, !countNotices_app. simpl.
    destruct (handle_step (Presence.run ∅ p) e) as [_ Hn].
    destruct (NodeEvents.handle (Presence.run ∅ p) e) as [online' notice]. simpl in Hn.
    subst notice. rewrite Hret. clear Hret.
    destruct e as [w|w]; simpl in *;
      unfold NodeEvents.countNotices in *;
      repeat (case_bool_decide; simpl in * ); simplify_eq; simpl in *;
      repeat (case_decide; simplify_eq); try lia; try congruence.

Qed.

Lemma presence_notices_follow_edges_witness :
  let a := mkUUID 10 in
  let b := mkUUID 11 in
  let evs := [Presence.Connect a; Presence.Connect b; Presence.Connect a;
              Presence.Disconnect a; Presence.Disconnect b] in
  NodeEvents.notices ∅ evs = [(a, "online"); (b, "online"); (b, "offline")]
  /\ NodeEvents.countNotices a "online" (NodeEvents.notices ∅ evs)
     - NodeEvents.countNotices a "offline" (NodeEvents.notices ∅ evs)
     = if Presence.IsOnline (Presence.run ∅ evs) a then 1 else 0.
Proof.
  intros a b evs. split; [vm_compute; reflexivity|].
  apply (presence_notices_follow_edges evs a).
  - intros n u. subst evs.
    destruct n as [|[|[|[|[|n]]]]]; simpl; rewrite ?take_nil; simpl; repeat case_decide; lia.
  - subst evs. simpl. lia.
Defined.

(** X3.  [notifyPresenceChange] publishes nothing when the friend lookup
    reports an error, also when the lookup returned the ids read before the
    error; when the lookup succeeds and the event serializes it publishes
    one PRESENCE_UPDATE per friend, in order, on the friend's channel. *)
Theorem presence_notice_fanout
    (encodeString : string -> string) (encodeData : Node.Data -> string + error)
    (nodePublish : string -> string -> option error)
    (q : query UUID) (userID : UUID) (status : string) :
  let notice := NodeEvents.notifyPresenceChange encodeString encodeData nodePublish
                  (fun _ => NodeEvents.GetFriendIDs q) userID status in
  ((NodeEvents.GetFriendIDs q).2 <> None -> notice = [])
  /\ (forall c, q = inr c -> cur_err c <> None -> notice = [])
  /\ (forall friendIDs encoded,
        NodeEvents.GetFriendIDs q = (friendIDs, None) ->
        encodeData (Node.DataPresenceUpdate (models.mkPresenceUpdate userID status))
        = inl encoded ->
        notice = map (fun friend => ("user:" +:+ UUID_String friend,
                                     Node.envelope (encodeString "PRESENCE_UPDATE") encoded))
                   (elems friendIDs)).
Proof.
  simpl. unfold NodeEvents.notifyPresenceChange. split; [|split].
  - destruct (NodeEvents.GetFriendIDs q) as [ids [e|]]; simpl; [done|]. intros H. by destruct H.
  - intros c -> Herr. unfold NodeEvents.GetFriendIDs.
    destruct (scan_all _ (cur_rows c) None ∅) as [[e|ids] h]; [done|].
    destruct (cur_err c); [done | by destruct Herr].
  - intros friendIDs encoded -> Henc. unfold Node.PublishToUsers.
    induction (elems friendIDs) as [|u us IH]; simpl; [done|].
    rewrite IH. unfold Node.PublishToUser, Node.marshalEnvelope. by rewrite Henc.
Qed.

(** The stream of friend ids breaks after the first of them. *)
Lemma presence_notice_fanout_witness :
  NodeEvents.notifyPresenceChange (fun s => s) (fun _ => inl "{}") (fun _ _ => None)
    (fun _ => NodeEvents.GetFriendIDs
                (inr (mkCursor [Row (mkUUID 2)] (Some (ErrDriver "unexpected EOF")))))
    (mkUUID 1) "online"
  = [].
Proof.
  apply (proj1 (proj2 (presence_notice_fanout (fun s => s) (fun _ => inl "{}") (fun _ _ => None)
                         (inr (mkCursor [Row (mkUUID 2)] (Some (ErrDriver "unexpected EOF"))))
                         (mkUUID 1) "online"))
           (mkCursor [Row (mkUUID 2)] (Some (ErrDriver "unexpected EOF")))).
  - reflexivity.
  - discriminate.
Defined.

(** ** Fan-out *)

(** X4.  [PublishToUsers] is best effort over the recipients: whatever the
    substrate answers to each [Publish], a payload that serializes is
    published once for every recipient, in order, each on that recipient's
    channel; a payload that does not serialize is published to nobody. *)
Theorem publish_to_users_best_effort
    (encodeString : string -> string) (encodeData : Node.Data -> string + error)
    (nodePublish : string -> string -> option error)
    (userIDs : list UUID) (eventType : string) (payload : Node.Data) :
  match encodeData payload with
  | inl encoded =>
      Node.PublishToUsers encodeString encodeData nodePublish userIDs eventType payload
      = map (fun userID => ("user:" +:+ UUID_String userID,
                            Node.envelope (encodeString eventType) encoded)) userIDs
  | inr _ =>
      Node.PublishToUsers encodeString encodeData nodePublish userIDs eventType payload = []
  end.
Proof.
  unfold Node.PublishToUsers, Node.PublishToUser, Node.marshalEnvelope.
  destruct (encodeData payload) as [encoded|e]; induction userIDs as [|u us IH]; simpl;
    try done; by rewrite IH.
Qed.

(** ** Ready state: what the enrichment leaves alone, and where its pointers come from *)

Lemma withStatus_same (u : models.User) : models.withStatus u (models.Status u) = u.
Proof. by destruct u. Qed.

Lemma enrichUsers_frame online ls :
  forall (h h' : gmap models.loc models.User),
  Node.enrichUsers online ls h = Some h' ->
  forall l, l ∉ ls -> h' !! l = h !! l.
Proof.
  induction ls as [|l0 ls IH]; intros h h'; simpl.
  - by intros [= <-].
  - unfold Node.enrichUser. destruct (h !! l0) as [u|] eqn:Hu; [|discriminate].
    intros Hrest l Hl. apply not_elem_of_cons in Hl as [Hne Hl].
    rewrite (IH _ _ Hrest l Hl). by rewrite lookup_insert_ne.
Qed.

Lemma enrichConversations_frame online cs :
  forall (h h' : gmap models.loc models.User),
  Node.enrichConversations online cs h = Some h' ->
  forall l, (forall c, c ∈ cs -> l ∉ elems (models.Participants c)) -> h' !! l = h !! l.
Proof.
  induction cs as [|c cs IH]; intros h h'; simpl.
  - by intros [= <-].
  - destruct (Node.enrichUsers online (elems (models.Participants c)) h) as [h1|] eqn:H1;
      [|discriminate].
    intros Hrest l Hl.
    rewrite (IH _ _ Hrest l) by (intros c' Hc'; apply Hl; by right).
    apply (enrichUsers_frame _ _ _ _ H1). apply Hl. by left.
Qed.

(** X5.  The enrichment of a subscription neither creates nor removes a
    user object and changes nothing of an object but its status; an object
    that is neither a friend's user nor a participant of a conversation of
    the ready state (the subscriber's own profile, the users of pending
    requests) is left exactly as the provider returned it. *)
Theorem enrichment_changes_status_only
    (encodeString : string -> string) (encodeData : Node.Data -> string + error)
    (nodePublish : string -> string -> option error)
    (dataProvider : UUID -> gmap models.loc models.User ->
                    (option models.ReadyEvent * option error) * gmap models.loc models.User)
    (clientUserID : string) (userID : UUID) (online : gmap UUID Z)
    (channel : string) (h h' : gmap models.loc models.User)
    (readyState : models.ReadyEvent) (pushed : list (string * string)) :
  Node.OnSubscribe encodeString encodeData nodePublish dataProvider
    clientUserID userID online channel h = Node.Subscribed h' readyState pushed ->
  exists h1,
    dataProvider userID h = ((Some readyState, None), h1)
    /\ (forall l, h' !! l = None <-> h1 !! l = None)
    /\ (forall l u', h' !! l = Some u' ->
          exists u, h1 !! l = Some u /\ u' = models.withStatus u (models.Status u'))
    /\ (forall l,
          l ∉ map models.FriendUser (elems (models.Friends readyState)) ->
          (forall c, c ∈ elems (models.Conversations readyState) ->
                     l ∉ elems (models.Participants c)) ->
          h' !! l = h1 !! l).
Proof.
  unfold Node.OnSubscribe. case_decide; [discriminate|].
  destruct (dataProvider userID h) as [[rs err] h1] eqn:Hdp.
  destruct rs as [rs|], err as [e|]; try discriminate.
  destruct (Node.enrichFriends online (elems (models.Friends rs)) h1) as [h2|] eqn:Hf;
    [|discriminate].
  destruct (Node.enrichConversations online (elems (models.Conversations rs)) h2) as [h3|] eqn:Hc;
    [|discriminate].
  intros [= <- <- <-]. exists h1. split; [done|].
  unfold Node.enrichFriends in Hf.
  destruct (enrichUsers_inv online h1 _ h1 h2 (overwritten_refl _ _) Hf) as (Hov2 & _ & _).
  destruct (enrichConversations_inv online h1 _ h2 h3 Hov2 Hc) as (Hov3 & _ & _).
  split; [|split].
  - intros l. destruct (Hov3 l) as [-> | (u & Hu & Hu')]; [done|].
    rewrite Hu, Hu'. split; discriminate.
  - intros l u' Hl. destruct (Hov3 l) as [Heq | (u & Hu & Hu')].
    + exists u'. rewrite <- Heq. split; [done|]. by rewrite withStatus_same.
    + exists u. split; [done|]. rewrite Hu' in Hl. injection Hl as <-. by destruct u.
  - intros l Hnf Hnp.
    rewrite (enrichConversations_frame _ _ _ _ Hc l Hnp).
    by apply (enrichUsers_frame _ _ _ _ Hf).
Qed.

Lemma alloc_spec (h h1 : gmap models.loc models.User) u l :
  alloc h u = (l, h1) -> h ⊆ h1 /\ h1 !! l = Some u.
Proof.
  unfold alloc. intros [= <- <-].
  assert (h !! fresh (dom h) = None) by (apply not_elem_of_dom, is_fresh).
  split; [by apply insert_subseteq | by rewrite lookup_insert_eq].
Qed.

Lemma is_Some_weaken (h h' : gmap models.loc models.User) l :
  h ⊆ h' -> is_Some (h !! l) -> is_Some (h' !! l).
Proof. intros Hsub [u Hu]. exists u. by eapply lookup_weaken. Qed.

(** The scanning loop only allocates: objects that exist stay as they are,
    and what holds of the values built keeps holding. *)
Lemma scan_all_alloc {R A : Type}
    (mk : gmap models.loc models.User -> R -> A * gmap models.loc models.User)
    (P : A -> gmap models.loc models.User -> Prop) :
  (forall h r a h1, mk h r = (a, h1) -> h ⊆ h1 /\ P a h1) ->
  (forall a h h1, P a h -> h ⊆ h1 -> P a h1) ->
  forall rows acc h res h',
  scan_all mk rows acc h = (res, h') ->
  h ⊆ h'
  /\ forall s, res = inr s -> (forall a, a ∈ elems acc -> P a h) -> forall a, a ∈ elems s -> P a h'.
Proof.
  intros Hmk Hmono. induction rows as [|[r|e] rows IH]; intros acc h res h'; simpl.
  - intros [= <- <-]. split; [done|]. intros s [= <-]. done.
  - destruct (mk h r) as [a h1] eqn:Ha. destruct (Hmk _ _ _ _ Ha) as [Hsub Pa].
    intros Hrest. destruct (IH _ _ _ _ Hrest) as [Hsub' Hall].
    split; [by etrans|]. intros s -> Hacc. apply Hall; [done|].
    intros a0 Ha0. unfold append in Ha0. simpl in Ha0.
    apply elem_of_app in Ha0 as [Ha0|Ha0].
    + eapply Hmono; [by apply Hacc | done].
    + apply list_elem_of_singleton in Ha0 as ->. done.
  - intros [= <- <-]. split; [done|]. discriminate.
Qed.

Ltac no_elems :=
  let H := fresh in
  intros ? H; simpl in H; by apply elem_of_nil in H.

Lemma GetFriends_pointers q (h h' : gmap models.loc models.User) v e :
  FriendsRepo.GetFriends q h = ((v, e), h') ->
  h ⊆ h' /\ forall f, f ∈ elems v -> is_Some (h' !! models.FriendUser f).
Proof.
  unfold FriendsRepo.GetFriends.
  destruct q as [e0|c]; [intros [= <- _ <-]; split; [done | no_elems]|].
  destruct (scan_all _ (cur_rows c) None h) as [res h1] eqn:Hscan.
  edestruct (scan_all_alloc FriendsRepo.mkFriendWithUser
              (fun f h => is_Some (h !! models.FriendUser f))) as [Hsub Hall]; [| |exact Hscan|].
  { intros h0 r a h2. unfold FriendsRepo.mkFriendWithUser.
    destruct (alloc h0 (FriendsRepo.fr_user r)) as [l h3] eqn:Hal.
    intros [= <- <-]. destruct (alloc_spec _ _ _ _ Hal) as [? Hl]. split; [done|].
    simpl. by rewrite Hl. }
  { intros a h0 h2 Ha Hsub. by eapply is_Some_weaken. }
  destruct res as [e1|friends]; intros [= <- _ <-]; (split; [done|]).
  - no_elems.
  - apply (Hall friends eq_refl). no_elems.
Qed.

Lemma GetRequests_pointers q (h h' : gmap models.loc models.User) v e :
  FriendsRepo.GetRequests q h = ((v, e), h') -> h ⊆ h'.
Proof.
  unfold FriendsRepo.GetRequests. destruct q as [e0|c]; [by intros [= _ _ <-]|].
  destruct (scan_all _ (cur_rows c) None h) as [res h1] eqn:Hscan.
  edestruct (scan_all_alloc FriendsRepo.mkRequestWithUser (fun _ _ => True)) as [Hsub _]; [| |exact Hscan|].
  { intros h0 r a h2. unfold FriendsRepo.mkRequestWithUser.
    destruct (alloc h0 (FriendsRepo.rq_user r)) as [l h3] eqn:Hal.
    intros [= <- <-]. by destruct (alloc_spec _ _ _ _ Hal). }
  { done. }
  by destruct res; intros [= _ _ <-].
Qed.

Lemma load_details_pointers parts last convs :
  forall (h h' : gmap models.loc models.User) res,
  MessagesRepo.load_details parts last convs h = (res, h') ->
  h ⊆ h'
  /\ forall cs, res = inr cs ->
       forall c p, c ∈ cs -> p ∈ elems (models.Participants c) -> is_Some (h' !! p).
Proof.
  induction convs as [|c0 convs IH]; intros h h' res; simpl.
  - intros [= <- <-]. split; [done|]. intros cs [= <-] c p Hc. by apply elem_of_nil in Hc.
  - destruct (parts (MessagesRepo.cv_id c0)) as [e|cur];
      [intros [= <- <-]; split; [done | discriminate]|].
    destruct (scan_all alloc (cur_rows cur) None h) as [r1 h1] eqn:Hscan.
    edestruct (scan_all_alloc alloc (fun (l : models.loc) h => is_Some (h !! l))) as [Hsub1 Hall1]; [| |exact Hscan|].
    { intros h0 r a h2 Hal. destruct (alloc_spec _ _ _ _ Hal) as [? Hl]. split; [done|].
      by rewrite Hl. }
    { intros a h0 h2 Ha Hsub. by eapply is_Some_weaken. }
    destruct r1 as [e|ps]; [intros [= <- <-]; split; [done | discriminate]|].
    destruct (MessagesRepo.load_details parts last convs h1) as [r2 h2] eqn:Hrest.
    destruct (IH _ _ _ Hrest) as [Hsub2 Hall2].
    destruct r2 as [e|cs]; intros [= <- <-]; (split; [by etrans|]); [discriminate|].
    intros cs' [= <-] c p Hc Hp. apply elem_of_cons in Hc as [->|Hc].
    + simpl in Hp. eapply is_Some_weaken; [done|].
      apply (Hall1 ps eq_refl); [|done]. intros a Ha. by apply elem_of_nil in Ha.
    + by apply (Hall2 cs eq_refl c).
Qed.

Lemma GetUserConversations_pointers q parts last (h h' : gmap models.loc models.User) v e :
  MessagesRepo.GetUserConversations q parts last h = ((v, e), h') ->
  h ⊆ h'
  /\ forall c p, c ∈ elems v -> p ∈ elems (models.Participants c) -> is_Some (h' !! p).
Proof.
  unfold MessagesRepo.GetUserConversations.
  assert (Hnil : forall (hx : gmap models.loc models.User) (c : models.ConversationWithDetails)
                        (p : models.loc),
            c ∈ elems (None : slice models.ConversationWithDetails) ->
            p ∈ elems (models.Participants c) -> is_Some (hx !! p)).
  { intros hx c p Hc. by apply elem_of_nil in Hc. }
  destruct q as [e0|c]; [intros [= <- _ <-]; split; [done | apply Hnil]|].
  destruct (scan_all _ (cur_rows c) None h) as [res h1] eqn:Hscan.
  edestruct (scan_all_alloc (fun (h : gmap models.loc models.User) (r : MessagesRepo.ConvRow) => (r, h))
              (fun _ _ => True)) as [Hsub _]; [| |exact Hscan|].
  { by intros h0 r a h2 [= <- <-]. }
  { done. }
  destruct res as [e1|[convs|]]; try (intros [= <- _ <-]; split; [done | apply Hnil]).
  destruct (MessagesRepo.load_details parts last convs h1) as [r2 h2] eqn:Hload.
  destruct (load_details_pointers _ _ _ _ _ _ Hload) as [Hsub2 Hall].
  destruct r2 as [e2|cs]; intros [= <- _ <-]; (split; [by etrans|]); [by apply Hnil|].
  intros c0 p Hc0 Hp. by apply (Hall cs eq_refl c0).
Qed.

(** What a build returns: an error and no state, or a state whose pointers
    are all allocated. *)
Lemma GetReadyState_pointers Format f (h h' : gmap models.loc models.User) res :
  Provider.GetReadyState Format f h = (res, h') ->
  (exists e, res = (None, Some e))
  \/ exists rs, res = (Some rs, None)
       /\ h ⊆ h'
       /\ (forall fr, fr ∈ elems (models.Friends rs) -> is_Some (h' !! models.FriendUser fr))
       /\ (forall c p, c ∈ elems (models.Conversations rs) ->
                       p ∈ elems (models.Participants c) -> is_Some (h' !! p)).
Proof.
  unfold Provider.GetReadyState.
  destruct (AuthRepo.GetUserByID (Provider.user_row f)) as [user [e|]];
    [intros [= <- <-]; left; by exists e|].
  assert (Hu : exists userptr h0,
             match user with
             | Some u => let '(l, h1) := alloc h u in (Some l, h1)
             | None => (None, h)
             end = (userptr, h0) /\ h ⊆ h0).
  { destruct user as [u|]; [|by exists None, h].
    destruct (alloc h u) as [l h1] eqn:Hal. exists (Some l), h1.
    by destruct (alloc_spec _ _ _ _ Hal). }
  destruct Hu as (userptr & h0 & -> & Hsub0).
  destruct (FriendsRepo.GetFriends (Provider.friends_q f) h0) as [[vF eF] h2] eqn:HF.
  destruct (FriendsRepo.GetIncomingRequests (Provider.incoming_q f) h2) as [[vI eI] h3] eqn:HI.
  destruct (FriendsRepo.GetOutgoingRequests (Provider.outgoing_q f) h3) as [[vO eO] h4] eqn:HO.
  destruct (MessagesRepo.GetUserConversations (Provider.conversations_q f)
              (Provider.participants_q f) (Provider.last_message_q f) h4)
    as [[vC eC] h5] eqn:HC.
  intros [= <- <-]. right. eexists. split; [reflexivity|].
  destruct (GetFriends_pointers _ _ _ _ _ HF) as [S1 HFp].
  pose proof (GetRequests_pointers _ _ _ _ _ HI) as S2.
  pose proof (GetRequests_pointers _ _ _ _ _ HO) as S3.
  destruct (GetUserConversations_pointers _ _ _ _ _ _ _ HC) as [S4 HCp].
  cbn [models.Friends models.Conversations].
  split; [by repeat (etrans; [eassumption|])|]. split.
  - intros fr Hfr. rewrite or_empty_elems in Hfr.
    eapply is_Some_weaken; [|by apply HFp]. by repeat (etrans; [eassumption|]).
  - intros c p Hc Hp. rewrite or_empty_elems in Hc. by apply (HCp c).
Qed.

(** X6.  With the repository-backed provider the subscribe handler never
    dereferences a nil pointer: every user the enrichment reaches was
    allocated by the build.  The request is refused (wrong channel, or the
    user-profile fetch failed) or it succeeds. *)
Theorem subscribe_with_provider_never_panics
    (encodeString : string -> string) (encodeData : Node.Data -> string + error)
    (nodePublish : string -> string -> option error)
    (Format : Time -> string) (fetched : UUID -> Provider.Fetched)
    (clientUserID : string) (userID : UUID) (online : gmap UUID Z)
    (channel : string) (h : gmap models.loc models.User) :
  Node.OnSubscribe encodeString encodeData nodePublish
    (fun userID h => Provider.GetReadyState Format (fetched userID) h)
    clientUserID userID online channel h
  <> Node.Panicked.
Proof.
  destruct (decide (channel = "user:" +:+ clientUserID)) as [->|Hne].
  - destruct (Provider.GetReadyState Format (fetched userID) h) as [res h1] eqn:Hrs.
    destruct (GetReadyState_pointers _ _ _ _ _ Hrs) as [[e ->] | (rs & -> & _ & Hf & Hc)].
    + unfold Node.OnSubscribe. rewrite decide_False by (intros Hx; by apply Hx).
      by rewrite Hrs.
    + destruct (subscribe_succeeds encodeString encodeData nodePublish
                  (fun userID h => Provider.GetReadyState Format (fetched userID) h)
                  clientUserID userID online h h1 rs Hrs Hf Hc) as (h' & pushed & ->).
      discriminate.
  - unfold Node.OnSubscribe. by rewrite decide_True.
Qed.

Lemma foldl_append_elems {A B} (g : A -> B) (l : list A) (s : slice B) :
  elems (foldl (fun acc c => append acc (g c)) s l) = elems s ++ map g l.
Proof.
  revert s. induction l as [|a l IH]; intros s; simpl; [by rewrite app_nil_r|].
  rewrite IH. unfold append. simpl. by rewrite <- app_assoc.
Qed.

(** X7.  In a ready state that was built, the active calls are asked for
    exactly the ids of the conversations of the state, in their order, and
    not at all when there is no conversation; whatever that fetch reports,
    the state lists one summary per call it returned, in order, each with
    the call's id, its conversation's id and the user ids of the call's
    participants, and the list is never nil. *)
Theorem ready_state_active_calls
    (Format : Time -> string) (f : Provider.Fetched)
    (h h' : gmap models.loc models.User) (rs : models.ReadyEvent) :
  Provider.GetReadyState Format f h = ((Some rs, None), h') ->
  is_Some (models.ActiveCalls rs)
  /\ (len (models.Conversations rs) = 0 -> models.ActiveCalls rs = Some [])
  /\ (len (models.Conversations rs) > 0 ->
      elems (models.ActiveCalls rs)
      = map (fun c => models.mkActiveCallInfo (calls.ID c) (calls.ConversationID c)
                        (Some (map calls.UserID (elems (calls.Participants c))))
                        (Format (calls.StartedAt c)))
          (elems (calls.GetActiveCallsForConversations (Provider.active_calls_q f)
                    (Provider.call_participants_q f)
                    (Some (map models.ConvID (elems (models.Conversations rs))))).1)).
Proof.
  unfold Provider.GetReadyState.
  destruct (AuthRepo.GetUserByID (Provider.user_row f)) as [user [e|]]; [discriminate|].
  destruct (match user with
            | Some u => let '(l, h1) := alloc h u in (Some l, h1)
            | None => (None, h)
            end) as [userptr h0].
  destruct (FriendsRepo.GetFriends (Provider.friends_q f) h0) as [[vF eF] h2].
  destruct (FriendsRepo.GetIncomingRequests (Provider.incoming_q f) h2) as [[vI eI] h3].
  destruct (FriendsRepo.GetOutgoingRequests (Provider.outgoing_q f) h3) as [[vO eO] h4].
  destruct (MessagesRepo.GetUserConversations (Provider.conversations_q f)
              (Provider.participants_q f) (Provider.last_message_q f) h4)
    as [[vC eC] h5].
  intros [= <- <-]. cbn [models.ActiveCalls models.Conversations].
  split; [apply or_empty_is_Some|]. split.
  - intros Hz. by rewrite decide_False by lia.
  - intros Hpos. rewrite decide_True by done.
    rewrite !or_empty_elems.
    destruct (calls.GetActiveCallsForConversations _ _ _) as [active err].
    simpl. by rewrite foldl_append_elems.
Qed.

(** The subscriber's own profile is not among the users enriched. *)
Lemma enrichment_changes_status_only_witness :
  let alice := models.mkUser (mkUUID 1) "a@x" (Some "alice") None "offline" 0 0 in
  let me := models.mkUser (mkUUID 3) "me@x" (Some "me") None "busy" 0 0 in
  let heap : gmap models.loc models.User := <[3%positive := me]> (<[1%positive := alice]> ∅) in
  let readyState :=
    models.mkReady (Some 3%positive) (Some [models.mkFriend (mkUUID 9) 1%positive 0])
      (Some []) (Some []) (Some []) (Some []) in
  let online : gmap UUID Z := {[mkUUID 1 := 1; mkUUID 3 := 1]} in
  let heap' : gmap models.loc models.User :=
    <[3%positive := me]> (<[1%positive := models.withStatus alice "online"]> ∅) in
  heap' !! 3%positive = heap !! 3%positive.
Proof.
  intros alice me heap readyState online heap'.
  destruct (enrichment_changes_status_only (fun s => s) (fun _ => inl "null") (fun _ _ => None)
              (fun _ h => ((Some readyState, None), h))
              "00000000-0000-0000-0000-000000000003" (mkUUID 3) online
              "user:00000000-0000-0000-0000-000000000003" heap heap' readyState
              [("user:00000000-0000-0000-0000-000000000003",
                Node.envelope "READY" "null")])
    as (h1 & Hdp & _ & _ & Hframe).
  - vm_compute. reflexivity.
  - injection Hdp as <-. apply Hframe.
    + simpl. intros H. apply list_elem_of_singleton in H. discriminate.
    + intros c Hc. simpl in Hc. by apply elem_of_nil in Hc.
Defined.

(** One conversation with one active call that alice is in. *)
Lemma ready_state_active_calls_witness :
  let me := models.mkUser (mkUUID 1) "me@x" (Some "me") None "" 0 0 in
  let down : error := ErrDriver "connection reset" in
  let call := calls.mkCall (mkUUID 500) (mkUUID 100) (mkUUID 1) 1000 None None in
  let f := Provider.mkFetched (inl me) (inl down) (inl down) (inl down)
             (inr (mkCursor [Row (MessagesRepo.mkConvRow (mkUUID 100) "dm" None None None 0)] None))
             (fun _ => inr (mkCursor [] None)) (fun _ => inr ErrNoRows)
             (fun _ => inr (mkCursor [Row call] None))
             (fun _ => inr (mkCursor [Row (calls.mkParticipant (mkUUID 1) 1000 None)] None)) in
  exists rs h',
    Provider.GetReadyState (fun _ => "t") f ∅ = ((Some rs, None), h')
    /\ elems (models.ActiveCalls rs)
       = [models.mkActiveCallInfo (mkUUID 500) (mkUUID 100) (Some [mkUUID 1]) "t"].
Proof.
  intros me down call f.
  eassert (Hrun : Provider.GetReadyState (fun _ => "t") f ∅ = ((Some _, None), _))
    by (vm_compute; reflexivity).
  eexists _, _. split; [exact Hrun|].
  destruct (ready_state_active_calls _ _ _ _ _ Hrun) as (_ & _ & Hpos).
  rewrite Hpos; [vm_compute; reflexivity | vm_compute; reflexivity].
Defined.

(** ** The calls repository *)

Lemma elem_of_filter_bool {A} (f : A -> bool) (l : list A) x :
  x ∈ List.filter f l <-> x ∈ l /\ f x = true.
Proof. rewrite !list_elem_of_In. apply filter_In. Qed.

Lemma latest_spec cs :
  match CallsRepository.latest cs with
  | None => cs = []
  | Some c => c ∈ cs /\ forall c', c' ∈ cs -> calls.StartedAt c' <= calls.StartedAt c
  end.
Proof.
  induction cs as [|c cs IH]; simpl; [done|].
  destruct (CallsRepository.latest cs) as [c'|].
  - destruct IH as [Hin Hmax]. case_decide.
    + split; [by right|]. intros c0 Hc0. apply elem_of_cons in Hc0 as [->|Hc0]; [lia | by apply Hmax].
    + split; [by left|]. intros c0 Hc0. apply elem_of_cons in Hc0 as [->|Hc0]; [lia|].
      specialize (Hmax _ Hc0). lia.
  - subst cs. split; [by left|]. intros c0 Hc0. apply list_elem_of_singleton in Hc0 as ->. lia.
Qed.

(** X8.  [GetActiveCallForConversation] hands a failure of the driver back
    with no call.  Otherwise it returns a call of the store that belongs to
    the conversation, has not ended and has the latest start among such
    calls, or [pgx.ErrNoRows] when the conversation has no call that has not
    ended; the store is not written. *)
Theorem active_call_is_latest (conversationID : UUID) (w : World) :
  let r := CallsRepository.GetActiveCallForConversation conversationID w in
  db r.2 = db w
  /\ match (roundtrip w).1 with
     | Some e => r.1 = (None, Some e)
     | None =>
         match r.1 with
         | (Some c, None) =>
             c ∈ tbl_calls (db w) /\ calls.ConversationID c = conversationID
             /\ calls.EndedAt c = None
             /\ forall c', c' ∈ tbl_calls (db w) -> calls.ConversationID c' = conversationID ->
                           calls.EndedAt c' = None -> calls.StartedAt c' <= calls.StartedAt c
         | (None, Some e) =>
             e = ErrNoRows
             /\ forall c', c' ∈ tbl_calls (db w) -> calls.ConversationID c' = conversationID ->
                           calls.EndedAt c' <> None
         | _ => False
         end
     end.
Proof.
  simpl. unfold CallsRepository.GetActiveCallForConversation, bind, getDB, ret.
  assert (Hdb : db (roundtrip w).2 = db w) by (unfold roundtrip; by destruct (driver w)).
  destruct (roundtrip w) as [[e|] w1]; simpl in *; [done|].
  pose proof (latest_spec (List.filter (fun c => CallsRepository.isActiveCall conversationID c)
                             (tbl_calls (db w1)))) as Hl.
  rewrite Hdb in *.
  destruct (CallsRepository.latest _) as [c|]; simpl.
  - split; [done|]. destruct Hl as [Hin Hmax].
    apply elem_of_filter_bool in Hin as [Hin Hact].
    unfold CallsRepository.isActiveCall in Hact.
    apply andb_true_iff in Hact as [H1 H2].
    apply bool_decide_eq_true_1 in H1. apply bool_decide_eq_true_1 in H2.
    repeat split; try done.
    intros c' Hc' Hconv Hend. apply Hmax, elem_of_filter_bool. split; [done|].
    unfold CallsRepository.isActiveCall. by rewrite !bool_decide_eq_true_2.
  - split; [done|]. split; [done|]. intros c' Hc' Hconv Hend.
    assert (c' ∈ List.filter (fun c => CallsRepository.isActiveCall conversationID c)
                   (tbl_calls (db w))) as Hin.
    { apply elem_of_filter_bool. split; [done|].
      unfold CallsRepository.isActiveCall. by rewrite !bool_decide_eq_true_2. }
    rewrite Hl in Hin. by apply elem_of_nil in Hin.
Qed.




(** X10.  [IsUserInCall] returns a call only if the call has not ended and
    the user has a row in it with left_at NULL; when the driver does not
    fail and it returns no call, the user has no such row in any call that
    has not ended.  [pgx.ErrNoRows] from the driver is not an error. *)
Theorem user_in_call_sound (userID : UUID) (w : World) :
  let r := CallsRepository.IsUserInCall userID w in
  let inCall (c : calls.Call) :=
    exists p, p ∈ tbl_call_participants (db w) /\ cp_call_id p = calls.ID c
              /\ cp_user_id p = userID /\ cp_left_at p = None in
  db r.2 = db w
  /\ (forall c e, r.1 = (Some c, e) ->
        e = None /\ c ∈ tbl_calls (db w) /\ calls.EndedAt c = None /\ inCall c)
  /\ ((roundtrip w).1 = None -> r.1 = (None, None) ->
        forall c, c ∈ tbl_calls (db w) -> calls.EndedAt c = None -> ~ inCall c)
  /\ ((roundtrip w).1 = Some ErrNoRows -> r.1 = (None, None)).
Proof.
  simpl. unfold CallsRepository.IsUserInCall, bind, getDB, ret.
  assert (Hdb : db (roundtrip w).2 = db w) by (unfold roundtrip; by destruct (driver w)).
  destruct (roundtrip w) as [[e|] w1]; simpl in *.
  - case_decide; simpl; (split; [done|]); (split; [discriminate|]); split; try done;
      intros [= ->]; done.
  - rewrite Hdb. split; [done|].
    destruct (find _ (tbl_calls (db w))) as [c0|] eqn:Hfind; simpl.
    + apply find_some in Hfind as [Hin Hp]. apply andb_true_iff in Hp as [Hend Hex].
      apply bool_decide_eq_true_1 in Hend. apply existsb_exists in Hex as (p & Hpin & Hp).
      apply andb_true_iff in Hp as [Hact Hu]. apply bool_decide_eq_true_1 in Hu.
      unfold CallsRepository.isActiveParticipant in Hact.
      apply andb_true_iff in Hact as [Hc Hl].
      apply bool_decide_eq_true_1 in Hc. apply bool_decide_eq_true_1 in Hl.
      split; [|split; [discriminate | discriminate]].
      intros c e [= <- <-]. split; [done|]. split; [by apply list_elem_of_In|]. split; [done|].
      exists p. by rewrite list_elem_of_In.
    + split; [discriminate|]. split; [|discriminate].
      intros _ _ c Hc Hend (p & Hpin & Hpc & Hpu & Hpl).
      apply list_elem_of_In in Hc. pose proof (find_none _ _ Hfind c Hc) as Hf. simpl in Hf.
      apply andb_false_iff in Hf as [Hf|Hf].
      * apply bool_decide_eq_false_1 in Hf. done.
      * assert (existsb (fun p0 => CallsRepository.isActiveParticipant (calls.ID c) p0
                                   && bool_decide (cp_user_id p0 = userID))
                  (tbl_call_participants (db w)) = true) as Hex; [|congruence].
        apply existsb_exists. exists p. split; [by apply list_elem_of_In|].
        unfold CallsRepository.isActiveParticipant. by rewrite !bool_decide_eq_true_2.
Qed.


Lemma markLeft_spec now sel p :
  let p' := CallsRepository.markLeft now sel p in
  cp_call_id p' = cp_call_id p /\ cp_user_id p' = cp_user_id p
  /\ cp_joined_at p' = cp_joined_at p
  /\ (cp_left_at p <> None \/ sel p = false -> p' = p)
  /\ (sel p = true -> cp_left_at p' <> None)
  /\ (cp_left_at p = None -> sel p = true -> cp_left_at p' = Some now).
Proof.
  simpl. unfold CallsRepository.markLeft.
  destruct (sel p) eqn:Hs; simpl; [case_bool_decide as Hl; simpl|];
    repeat split; try done; try (intros [?|?]; done); try congruence.
Qed.

(** X11.  A [LeaveCall] that succeeds closes, at the instant read from the
    clock, exactly the rows of that user in that call whose left_at is NULL:
    afterwards the user has no open row in the call, a row that was closed
    keeps its left_at, rows of other users or calls and the calls table are
    as before (the call itself is not ended).  A [LeaveCall] that fails does
    not write. *)
Theorem leave_call_closes_rows (callID userID : UUID) (w w' : World) (r : option error) :
  CallsRepository.LeaveCall callID userID w = (r, w') ->
  match r with
  | Some _ => db w' = db w
  | None =>
      tbl_calls (db w') = tbl_calls (db w)
      /\ length (tbl_call_participants (db w')) = length (tbl_call_participants (db w))
      /\ (forall p, p ∈ tbl_call_participants (db w') ->
            cp_call_id p = callID -> cp_user_id p = userID -> cp_left_at p <> None)
      /\ (forall i p, tbl_call_participants (db w) !! i = Some p ->
            exists p', tbl_call_participants (db w') !! i = Some p'
              /\ cp_call_id p' = cp_call_id p /\ cp_user_id p' = cp_user_id p
              /\ cp_joined_at p' = cp_joined_at p
              /\ (cp_left_at p <> None \/ cp_call_id p <> callID \/ cp_user_id p <> userID ->
                  p' = p))
  end.
Proof.
  unfold CallsRepository.LeaveCall, bind, Now, roundtrip, getDB, putDB, ret.
  destruct (clock w) as [|now later]; destruct (driver w) as [|[e|] rest]; simpl;
    intros [= <- <-]; simpl; try done.
  all: split; [done|]; split; [by rewrite length_map|]; split.
  all: try (intros p Hp Hc Hu; apply list_elem_of_fmap in Hp as (p0 & -> & _);
            match goal with |- cp_left_at (CallsRepository.markLeft ?n ?sel p0) <> None =>
              destruct (markLeft_spec n sel p0) as (Hc' & Hu' & _ & _ & Hset & _) end;
            apply Hset; rewrite Hc', Hu' in *; by rewrite !bool_decide_eq_true_2).
  all: intros i p Hi; eexists; (split; [by rewrite list_lookup_fmap, Hi|]);
       match goal with |- context [CallsRepository.markLeft ?n ?sel p] =>
         destruct (markLeft_spec n sel p) as (Hc' & Hu' & Hj' & Hsame & _) end;
       repeat (split; [done|]);
       intros [Hl|[Hc|Hu]]; apply Hsame; [by left | right | right];
       [by rewrite (bool_decide_eq_false_2 (cp_call_id p = callID))
       | by rewrite (bool_decide_eq_false_2 (cp_user_id p = userID)), andb_false_r].
Qed.

Lemma leave_call_closes_rows_witness :
  let call := mkUUID 500 in
  let store := mkStore [mkUUID 100] [calls.mkCall call (mkUUID 100) (mkUUID 1) 1000 None None]
                 [mkParticipantRow call (mkUUID 1) 1000 None;
                  mkParticipantRow call (mkUUID 2) 1100 None] [] [] [] in
  let w := mkWorld store [] [2000] [] [] in
  let w' := (CallsRepository.LeaveCall call (mkUUID 1) w).2 in
  tbl_call_participants (db w')
  = [mkParticipantRow call (mkUUID 1) 1000 (Some 2000); mkParticipantRow call (mkUUID 2) 1100 None]
  /\ forall p, p ∈ tbl_call_participants (db w') ->
       cp_call_id p = call -> cp_user_id p = mkUUID 1 -> cp_left_at p <> None.
Proof.
  intros call store w w'. split; [vm_compute; reflexivity|].
  pose proof (leave_call_closes_rows call (mkUUID 1) w w' None) as H.
  apply H. vm_compute. reflexivity.
Defined.

Lemma setEnded_spec now callID c :
  let c' := CallsRepository.setEnded now callID c in
  calls.ID c' = calls.ID c
  /\ (calls.ID c = callID -> calls.EndedAt c' = Some now)
  /\ (calls.ID c <> callID -> c' = c).
Proof.
  simpl. unfold CallsRepository.setEnded. case_bool_decide; simpl; repeat split; try done.
Qed.

(** X12.  [EndCall] is all or nothing.  When it returns an error (a failure
    at any of its four statements, or the unique constraint) the store is as
    before.  When it returns nil the call has no row with left_at NULL, its
    ended_at is set, rows that were closed or belong to other calls are as
    before, and other calls are as before. *)
Theorem end_call_all_or_nothing (callID : UUID) (w w' : World) (r : option error) :
  CallsRepository.EndCall callID w = (r, w') ->
  match r with
  | Some _ => db w' = db w
  | None =>
      CallsRepository.activeRows (db w') callID = []
      /\ (forall c, c ∈ tbl_calls (db w') -> calls.ID c = callID -> calls.EndedAt c <> None)
      /\ (forall i c, tbl_calls (db w) !! i = Some c ->
            exists c', tbl_calls (db w') !! i = Some c' /\ calls.ID c' = calls.ID c
                       /\ (calls.ID c <> callID -> c' = c))
      /\ (forall i p, tbl_call_participants (db w) !! i = Some p ->
            exists p', tbl_call_participants (db w') !! i = Some p'
              /\ (cp_left_at p <> None \/ cp_call_id p <> callID -> p' = p))
  end.
Proof.
  unfold CallsRepository.EndCall, bind, Now, roundtrip, getDB, putDB, ret.
  assert (Hgen : forall now,
    let s1 := withCallParticipants (db w)
                (map (CallsRepository.markLeft now (fun p => bool_decide (cp_call_id p = callID)))
                   (tbl_call_participants (db w))) in
    let s2 := withCalls s1 (map (CallsRepository.setEnded now callID) (tbl_calls s1)) in
    CallsRepository.activeRows s2 callID = []
    /\ (forall c, c ∈ tbl_calls s2 -> calls.ID c = callID -> calls.EndedAt c <> None)
    /\ (forall i c, tbl_calls (db w) !! i = Some c ->
          exists c', tbl_calls s2 !! i = Some c' /\ calls.ID c' = calls.ID c
                     /\ (calls.ID c <> callID -> c' = c))
    /\ (forall i p, tbl_call_participants (db w) !! i = Some p ->
          exists p', tbl_call_participants s2 !! i = Some p'
            /\ (cp_left_at p <> None \/ cp_call_id p <> callID -> p' = p))).
  { intros now. simpl. split; [|split; [|split]].
    - unfold CallsRepository.activeRows. simpl.
      induction (tbl_call_participants (db w)) as [|p ps IH]; simpl; [done|].
      destruct (markLeft_spec now (fun p => bool_decide (cp_call_id p = callID)) p)
        as (Hc & _ & _ & Hsame & Hset & _). simpl in *.
      unfold CallsRepository.isActiveParticipant at 1. rewrite Hc.
      case_bool_decide as Hcall; simpl; [|done].
      rewrite bool_decide_eq_false_2; [done|]. apply Hset; first [done | by apply bool_decide_eq_true_2].
    - intros c Hc Hid. apply list_elem_of_fmap in Hc as (c0 & -> & _).
      destruct (setEnded_spec now callID c0) as (Hid' & Hend & _).
      rewrite Hend; [done|]. by rewrite <- Hid'.
    - intros i c Hi. eexists. split; [by rewrite list_lookup_fmap, Hi|]. simpl.
      destruct (setEnded_spec now callID c) as (Hid' & _ & Hne). by split.
    - intros i p Hi. eexists. split; [by rewrite list_lookup_fmap, Hi|]. simpl.
      destruct (markLeft_spec now (fun p => bool_decide (cp_call_id p = callID)) p)
        as (_ & _ & _ & Hsame & _).
      intros [Hl|Hc]; apply Hsame; [by left | right; by apply bool_decide_eq_false_2]. }
  destruct (clock w) as [|now later]; simpl;
    destruct (driver w) as [|[e1|] [|[e2|] [|[e3|] [|[e4|] rest]]]] eqn:Hd; simpl;
    repeat (rewrite ?Hd; simpl);
    try (intros [= <- <-]; done);
    (destruct (existsb _ _); simpl; repeat (rewrite ?Hd; simpl);
     intros [= <- <-]; simpl; try done; apply Hgen).
Qed.

(** The commit of [EndCall] fails: the rows it has marked are not kept. *)
Lemma end_call_all_or_nothing_witness :
  let call := mkUUID 500 in
  let store := mkStore [mkUUID 100] [calls.mkCall call (mkUUID 100) (mkUUID 1) 1000 None None]
                 [mkParticipantRow call (mkUUID 1) 1000 None] [] [] [] in
  let w := mkWorld store [None; None; None; Some (ErrDriver "commit failed")] [2000] [] [] in
  db (CallsRepository.EndCall call w).2 = store.
Proof.
  intros call store w.
  apply (end_call_all_or_nothing call w (CallsRepository.EndCall call w).2
           (Some (ErrDriver "commit failed"))).
  vm_compute. reflexivity.
Defined.

(** X13.  [StartCall] is all or nothing.  When it returns an error the
    store is as before.  When it returns a call, the call has a fresh id,
    belongs to the conversation, was started by the user and has not ended;
    the store has gained that call and one participant row for the starter,
    joined at the start instant with left_at NULL, and the call returned
    lists the starter as its only participant. *)
Theorem start_call_all_or_nothing (conversationID userID : UUID) (w w' : World)
    (r : option calls.Call * option error) :
  CallsRepository.StartCall conversationID userID w = (r, w') ->
  match r with
  | (_, Some _) => db w' = db w
  | (None, None) => False
  | (Some c, None) =>
      calls.ConversationID c = conversationID /\ calls.StartedBy c = userID
      /\ calls.EndedAt c = None
      /\ calls.Participants c = Some [calls.mkParticipant userID (calls.StartedAt c) None]
      /\ (forall c0, c0 ∈ tbl_calls (db w) -> calls.ID c0 <> calls.ID c)
      /\ tbl_calls (db w') = tbl_calls (db w) ++ [calls.withParticipants c None]
      /\ tbl_call_participants (db w')
         = tbl_call_participants (db w)
           ++ [mkParticipantRow (calls.ID c) userID (calls.StartedAt c) None]
  end.
Proof.
  unfold CallsRepository.StartCall, bind, Now, NewUUID, roundtrip, getDB, putDB, ret.
  assert (Hfresh : forall id,
            CallsRepository.hasCall (db w) id = false ->
            forall c0, c0 ∈ tbl_calls (db w) -> calls.ID c0 <> id).
  { intros id Hex c0 Hc0 Hid.
    assert (CallsRepository.hasCall (db w) id = true); [|congruence].
    apply existsb_exists. exists c0. split; [by apply list_elem_of_In|].
    by apply bool_decide_eq_true_2. }
  destruct (ids w) as [|id moreIds] eqn:Hi; destruct (clock w) as [|now later] eqn:Hc;
    destruct (driver w) as [|[e1|] [|[e2|] [|[e3|] [|[e4|] rest]]]] eqn:Hd;
    cbn [fst snd db driver clock ids outbox];
    repeat (rewrite ?Hd, ?Hi, ?Hc; cbn [fst snd db driver clock ids outbox]);
    try (intros [= <- <-]; done);
    (destruct (CallsRepository.hasCall (db w) _) eqn:Hex;
       [intros [= <- <-]; done|];
     destruct (CallsRepository.hasConversation (db w) conversationID);
       cbn [negb]; [|intros [= <- <-]; done];
     destruct (CallsRepository.hasUser (db w) userID);
       cbn [negb]; [|intros [= <- <-]; done];
     repeat (rewrite ?Hd, ?Hi, ?Hc; cbn [fst snd db driver clock ids outbox]);
     try (intros [= <- <-]; done);
     destruct (CallsRepository.insertParticipant _ _ _ _) as [e|s2] eqn:Hins;
     repeat (rewrite ?Hd, ?Hi, ?Hc; cbn [fst snd db driver clock ids outbox]);
     try (intros [= <- <-]; done);
     unfold CallsRepository.insertParticipant in Hins;
     repeat (match type of Hins with
             | (if ?b then _ else _) = _ => destruct b; [discriminate|]
             | (if negb ?b then _ else _) = _ => destruct b; cbn [negb] in Hins; [|discriminate]
             end);
     injection Hins as <-;
     intros [= <- <-]; simpl;
     repeat (split; [done|]); (split; [by apply Hfresh | done])).
Qed.

(** The second insert of [StartCall] fails: the call row is not kept. *)
Lemma start_call_all_or_nothing_witness :
  let store := mkStore [mkUUID 100] [] [] [(mkUUID 100, mkUUID 1)]
                 [models.mkUser (mkUUID 1) "alice@example.org" (Some "alice") None "offline" 10 10]
                 [] in
  let w := mkWorld store [None; None; Some (ErrDriver "deadlock detected")] [2000]
             [mkUUID 500] [] in
  db (CallsRepository.StartCall (mkUUID 100) (mkUUID 1) w).2 = store.
Proof.
  intros store w.
  apply (start_call_all_or_nothing (mkUUID 100) (mkUUID 1) w
           (CallsRepository.StartCall (mkUUID 100) (mkUUID 1) w).2
           (None, Some (ErrDriver "deadlock detected"))).
  vm_compute. reflexivity.
Defined.

(** ** The call handlers *)


Lemma roundtrip_quiet w :
  db (roundtrip w).2 = db w /\ outbox (roundtrip w).2 = outbox w.
Proof. unfold roundtrip. by destruct (driver w). Qed.

Lemma roundtrip_failure w : (roundtrip w).1 = failure w 0.
Proof. unfold roundtrip, failure. by destruct (driver w). Qed.

Lemma IsUserInCall_quiet userID w :
  db (CallsRepository.IsUserInCall userID w).2 = db w
  /\ outbox (CallsRepository.IsUserInCall userID w).2 = outbox w.
Proof.
  unfold CallsRepository.IsUserInCall, bind, getDB, ret.
  pose proof (roundtrip_quiet w) as H.
  destruct (roundtrip w) as [[e|] w1]; simpl in *; [|done].
  by case_decide.
Qed.

Lemma GetActiveCallForConversation_quiet conversationID w :
  db (CallsRepository.GetActiveCallForConversation conversationID w).2 = db w
  /\ outbox (CallsRepository.GetActiveCallForConversation conversationID w).2 = outbox w.
Proof.
  unfold CallsRepository.GetActiveCallForConversation, bind, getDB, ret.
  pose proof (roundtrip_quiet w) as H.
  destruct (roundtrip w) as [[e|] w1]; simpl in *; [done|].
  by destruct (CallsRepository.latest _).
Qed.

Lemma GetCallWithParticipants_quiet callID w :
  db (CallsRepository.GetCallWithParticipants callID w).2 = db w
  /\ outbox (CallsRepository.GetCallWithParticipants callID w).2 = outbox w.
Proof.
  unfold CallsRepository.GetCallWithParticipants, bind, getDB, ret.
  pose proof (roundtrip_quiet w) as H.
  destruct (roundtrip w) as [[e|] w1]; simpl in *; [done|].
  destruct (find _ _); [|done].
  pose proof (roundtrip_quiet w1) as H1.
  destruct (roundtrip w1) as [[e|] w2]; simpl in *; intuition congruence.
Qed.

Lemma GetActiveParticipants_quiet callID w :
  db (CallsRepository.GetActiveParticipants callID w).2 = db w
  /\ outbox (CallsRepository.GetActiveParticipants callID w).2 = outbox w.
Proof.
  unfold CallsRepository.GetActiveParticipants, bind, getDB, ret.
  pose proof (roundtrip_quiet w) as H.
  destruct (roundtrip w) as [[e|] w1]; simpl in *; done.
Qed.

Lemma GetParticipantIDs_quiet conversationID w :
  db (StoreRepos.GetParticipantIDs conversationID w).2 = db w
  /\ outbox (StoreRepos.GetParticipantIDs conversationID w).2 = outbox w.
Proof.
  unfold StoreRepos.GetParticipantIDs, bind, getDB, ret.
  pose proof (roundtrip_quiet w) as H.
  destruct (roundtrip w) as [[e|] w1]; simpl in *; done.
Qed.

Lemma GetUserByID_quiet id w :
  db (StoreRepos.GetUserByID id w).2 = db w
  /\ outbox (StoreRepos.GetUserByID id w).2 = outbox w.
Proof.
  unfold StoreRepos.GetUserByID, bind, getDB, ret.
  pose proof (roundtrip_quiet w) as H.
  destruct (roundtrip w) as [f w1]; simpl in *; done.
Qed.

Lemma JoinCall_outbox callID userID w :
  outbox (CallsRepository.JoinCall callID userID w).2 = outbox w.
Proof.
  unfold CallsRepository.JoinCall, bind, Now, getDB, putDB, ret.
  destruct (clock w) as [|now later]; simpl.
  - pose proof (roundtrip_quiet w) as H.
    destruct (roundtrip w) as [[e|] w1]; simpl in *; [by destruct H|].
    destruct (CallsRepository.insertParticipant _ _ _ _); simpl; by destruct H.
  - match goal with |- context [roundtrip ?v] => pose proof (roundtrip_quiet v) as H;
      destruct (roundtrip v) as [[e|] w1] end; simpl in *; [by destruct H|].
    destruct (CallsRepository.insertParticipant _ _ _ _); simpl; by destruct H.
Qed.

(** X14.  [GetActiveCall] never answers 500: [GetActiveCallForConversation]
    returns no call with every error, so the [call == nil] test answers 204
    before the error is looked at.  A failure of the database is answered as
    "no active call". *)
Theorem get_active_call_masks_failures (Format : Time -> string) (conversationID : UUID) (w : World) :
  let r := (ActiveCall.GetActiveCall Format conversationID w).1 in
  (forall message code, r <> ActiveCall.Error message code)
  /\ (forall e, failure w 0 = Some e -> r = ActiveCall.NoContent).
Proof.
  simpl. rewrite <- roundtrip_failure. unfold ActiveCall.GetActiveCall, CallsRepository.GetActiveCallForConversation,
    CallsRepository.GetActiveParticipants, bind, getDB, ret.
  destruct (roundtrip w) as [[e|] w1]; simpl.
  - split; [done|]. done.
  - split; [|done]. intros message code.
    destruct (CallsRepository.latest _); simpl; [|done].
    destruct (roundtrip w1) as [[e|] w2]; simpl; done.
Qed.

(** The user has a row with left_at NULL in the call. *)
Lemma inCall_find (userID : UUID) (s : Store) :
  let inCall (c : calls.Call) :=
    calls.EndedAt c = None
    /\ exists p, p ∈ tbl_call_participants s /\ cp_call_id p = calls.ID c
                 /\ cp_user_id p = userID /\ cp_left_at p = None in
  match find (fun c => bool_decide (calls.EndedAt c = None)
                       && existsb (fun p => CallsRepository.isActiveParticipant (calls.ID c) p
                                            && bool_decide (cp_user_id p = userID))
                            (tbl_call_participants s))
          (tbl_calls s) with
  | Some c => c ∈ tbl_calls s /\ inCall c
  | None => forall c, c ∈ tbl_calls s -> ~ inCall c
  end.
Proof.
  simpl.
  assert (Hiff : forall c,
    bool_decide (calls.EndedAt c = None)
    && existsb (fun p => CallsRepository.isActiveParticipant (calls.ID c) p
                         && bool_decide (cp_user_id p = userID)) (tbl_call_participants s) = true
    <-> calls.EndedAt c = None
        /\ exists p, p ∈ tbl_call_participants s /\ cp_call_id p = calls.ID c
                     /\ cp_user_id p = userID /\ cp_left_at p = None).
  { intros c. rewrite andb_true_iff, bool_decide_eq_true, existsb_exists.
    unfold CallsRepository.isActiveParticipant.
    split.
    - intros [He (p & Hin & Hp)]. split; [done|]. exists p.
      rewrite !andb_true_iff, !bool_decide_eq_true in Hp.
      rewrite list_elem_of_In. tauto.
    - intros [He (p & Hin & Hp)]. split; [done|]. exists p.
      rewrite !andb_true_iff, !bool_decide_eq_true.
      rewrite <- list_elem_of_In. tauto. }
  destruct (find _ _) as [c|] eqn:Hfind.
  - apply find_some in Hfind as [Hin Hp]. split; [by apply list_elem_of_In|]. by apply Hiff.
  - intros c Hin Hc. apply list_elem_of_In in Hin.
    pose proof (find_none _ _ Hfind c Hin) as Hf. simpl in Hf.
    apply Hiff in Hc. congruence.
Qed.

(** X15.  [StartCall] refuses a user who is in a call of another
    conversation: when the user has a row with left_at NULL in some call that
    has not ended, and every such call belongs to a conversation other than
    the one of the request, the answer is 409 "Already in another call"
    (or 500 when the lookup itself fails); no table is written and nobody
    is notified.  This is so unless the driver reports [pgx.ErrNoRows] as
    the failure of the lookup, which the handler reads as "in no call". *)
Theorem start_call_refused_in_other_call
    (SignedString : Voice.VoiceClaims -> string * option error) (Host : string)
    (userID conversationID : UUID) (w : World) :
  let inCall (c : calls.Call) :=
    calls.EndedAt c = None
    /\ exists p, p ∈ tbl_call_participants (db w) /\ cp_call_id p = calls.ID c
                 /\ cp_user_id p = userID /\ cp_left_at p = None in
  failure w 0 <> Some ErrNoRows ->
  (exists c, c ∈ tbl_calls (db w) /\ inCall c) ->
  (forall c, c ∈ tbl_calls (db w) -> inCall c -> calls.ConversationID c <> conversationID) ->
  let r := Handlers.StartCall SignedString Host userID conversationID w in
  (r.1 = Handlers.HttpError "Already in another call" 409
   \/ (r.1 = Handlers.HttpError "Failed to check call status" 500
       /\ failure w 0 <> None))
  /\ db r.2 = db w /\ outbox r.2 = outbox w.
Proof.
  simpl. rewrite <- roundtrip_failure. intros Hrows (c0 & Hc0 & Hin0) Hother.
  unfold Handlers.StartCall, CallsRepository.IsUserInCall, bind, getDB, ret.
  pose proof (roundtrip_quiet w) as [Hdb Hout].
  destruct (roundtrip w) as [[e|] w1]; simpl in *.
  - case_decide; simpl.
    + by subst e.
    + split; [|done]. by right.
  - pose proof (inCall_find userID (db w1)) as Hfind. simpl in Hfind. rewrite Hdb in *.
    destruct (find _ _) as [c|].
    + destruct Hfind as [Hc Hin]. rewrite bool_decide_eq_true_2 by by apply Hother.
      simpl. split; [by left | done].
    + exfalso. by apply (Hfind c0).
Qed.

(** Bob sits in a call of conversation 100 and asks for a call in 200. *)
Lemma start_call_refused_in_other_call_witness :
  let w := mkWorld (mkStore [mkUUID 100] [calls.mkCall (mkUUID 500) (mkUUID 100) (mkUUID 1) 1000 None None]
                      [mkParticipantRow (mkUUID 500) (mkUUID 2) 1000 None] [] [] [])
             [] [2000] [mkUUID 501] [] in
  let r := Handlers.StartCall (fun _ => (EmptyString, None)) EmptyString (mkUUID 2) (mkUUID 200) w in
  (r.1 = Handlers.HttpError "Already in another call" 409
   \/ (r.1 = Handlers.HttpError "Failed to check call status" 500
       /\ failure w 0 <> None))
  /\ db r.2 = db w /\ outbox r.2 = outbox w.
Proof.
  intros w.
  apply (start_call_refused_in_other_call (fun _ => (EmptyString, None)) EmptyString
           (mkUUID 2) (mkUUID 200) w).
  - discriminate.
  - eexists. split; [apply list_elem_of_here|]. split; [reflexivity|].
    eexists. split; [apply list_elem_of_here|]. done.
  - intros c Hc _. apply list_elem_of_singleton in Hc as ->. done.
Defined.

(** X16.  [JoinCall] on a call id that names no call that is still open: the
    answer is 404 "Call not found" (no such call, or the lookup failed) or
    410 "Call has ended"; no table is written and nobody is notified. *)
Theorem join_call_refused_when_not_open
    (SignedString : Voice.VoiceClaims -> string * option error) (Host : string)
    (userID callID : UUID) (w : World) :
  (forall c, c ∈ tbl_calls (db w) -> calls.ID c = callID -> calls.EndedAt c <> None) ->
  let r := Handlers.JoinCall SignedString Host userID callID w in
  (r.1 = Handlers.HttpError "Call not found" 404
   \/ (r.1 = Handlers.HttpError "Call has ended" 410
       /\ exists c, c ∈ tbl_calls (db w) /\ calls.ID c = callID))
  /\ db r.2 = db w /\ outbox r.2 = outbox w.
Proof.
  simpl. intros Hended.
  unfold Handlers.JoinCall, bind.
  pose proof (GetCallWithParticipants_quiet callID w) as Hq.
  unfold CallsRepository.GetCallWithParticipants, bind, getDB, ret in *.
  pose proof (roundtrip_quiet w) as [Hdb Hout].
  destruct (roundtrip w) as [[e|] w1]; simpl in *; [by split; [left|]|].
  rewrite Hdb in *.
  destruct (find _ (tbl_calls (db w))) as [c|] eqn:Hfind; simpl in *; [|by split; [left|]].
  destruct (roundtrip w1) as [[e|] w2]; simpl in *; [by split; [left|]|].
  apply find_some in Hfind as [Hin Hid]. apply bool_decide_eq_true_1 in Hid.
  apply list_elem_of_In in Hin.
  rewrite bool_decide_eq_true_2 by by apply Hended.
  simpl. split; [|done]. right. split; [done|]. by exists c.
Qed.

(** Call 500 ended at 1500; carol asks to join it. *)
Lemma join_call_refused_when_not_open_witness :
  let w := mkWorld (mkStore [mkUUID 100] [calls.mkCall (mkUUID 500) (mkUUID 100) (mkUUID 1) 1000 (Some 1500) None]
                      [mkParticipantRow (mkUUID 500) (mkUUID 1) 1000 (Some 1500)] [] [] [])
             [] [2000] [] [] in
  let r := Handlers.JoinCall (fun _ => (EmptyString, None)) EmptyString (mkUUID 3) (mkUUID 500) w in
  (r.1 = Handlers.HttpError "Call not found" 404
   \/ (r.1 = Handlers.HttpError "Call has ended" 410
       /\ exists c, c ∈ tbl_calls (db w) /\ calls.ID c = mkUUID 500))
  /\ db r.2 = db w /\ outbox r.2 = outbox w.
Proof.
  intros w.
  apply (join_call_refused_when_not_open (fun _ => (EmptyString, None)) EmptyString
           (mkUUID 3) (mkUUID 500) w).
  intros c Hc _. apply list_elem_of_singleton in Hc as ->. done.
Defined.

Lemma GenerateToken_quiet SignedString roomName userID username w :
  db (Voice.GenerateToken SignedString roomName userID username w).2 = db w
  /\ outbox (Voice.GenerateToken SignedString roomName userID username w).2 = outbox w.
Proof.
  unfold Voice.GenerateToken, bind, Now, ret.
  destruct (clock w) as [|t1 [|t2 later]] eqn:Hc; simpl; rewrite ?Hc; done.
Qed.

(** [JoinCall] of the repository for a user with no row in users: the
    foreign key of call_participants refuses the insert. *)
Lemma JoinCall_unknown_user callID userID w :
  CallsRepository.hasUser (db w) userID = false ->
  let r := CallsRepository.JoinCall callID userID w in
  r.1 <> None /\ db r.2 = db w /\ outbox r.2 = outbox w.
Proof.
  intros Huser. simpl.
  unfold CallsRepository.JoinCall, bind, Now, roundtrip, getDB, putDB, ret,
    CallsRepository.insertParticipant.
  destruct (clock w) as [|now later]; simpl;
    destruct (driver w) as [|[e|] rest]; simpl; try done;
    rewrite Huser; simpl;
    repeat (match goal with |- context [if ?b then _ else _] => destruct b end; simpl);
    done.
Qed.

(** X17.  [JoinCall] writes before it can still fail: when the answer is
    500 "Failed to get user" or 500 "Failed to generate token", the caller has
    been added to the call with left_at NULL, and no CALL_STATE has been
    sent to anybody.  That needs the caller's row of users to exist: for a
    user with no row in users the insert is refused by the foreign key of
    call_participants, the answer is one of the errors before the lookup of
    the user, nothing is written and nobody is notified. *)
Theorem join_call_fails_after_write
    (SignedString : Voice.VoiceClaims -> string * option error) (Host : string)
    (userID callID : UUID) (w : World) :
  let r := Handlers.JoinCall SignedString Host userID callID w in
  (r.1 = Handlers.HttpError "Failed to get user" 500
   \/ r.1 = Handlers.HttpError "Failed to generate token" 500 ->
   (exists joinedAt,
      tbl_call_participants (db r.2)
      = tbl_call_participants (db w) ++ [mkParticipantRow callID userID joinedAt None])
   /\ tbl_calls (db r.2) = tbl_calls (db w)
   /\ outbox r.2 = outbox w)
  /\ ((forall u, u ∈ tbl_users (db w) -> models.ID u <> userID) ->
      (r.1 = Handlers.HttpError "Call not found" 404
       \/ r.1 = Handlers.HttpError "Call has ended" 410
       \/ r.1 = Handlers.HttpError "Failed to join call" 500)
      /\ db r.2 = db w /\ outbox r.2 = outbox w).
Proof.
  simpl. split.
  2:{ intros Hnouser.
      assert (Hno : CallsRepository.hasUser (db w) userID = false).
      { apply not_true_iff_false. intros H. apply existsb_exists in H as (u & Hu & Hu').
        apply bool_decide_eq_true_1 in Hu'. apply list_elem_of_In in Hu.
        by apply (Hnouser u). }
      unfold Handlers.JoinCall, bind.
      unfold CallsRepository.GetCallWithParticipants, bind, getDB, ret.
      pose proof (roundtrip_quiet w) as [Hdb1 Hout1].
      destruct (roundtrip w) as [[e|] w1]; simpl in *; [by split; [left|]|].
      destruct (find _ (tbl_calls (db w1))) as [c|]; simpl in *; [|by split; [left|]].
      pose proof (roundtrip_quiet w1) as [Hdb2 Hout2].
      destruct (roundtrip w1) as [[e|] w2]; simpl in *;
        [split; [by left | by rewrite Hdb2, Hout2]|].
      case_bool_decide; simpl.
      { split; [by right; left | by rewrite Hdb2, Hout2]. }
      rewrite <- Hdb1, <- Hdb2 in Hno.
      destruct (JoinCall_unknown_user callID userID w2 Hno) as (Herr & Hdb3 & Hout3).
      destruct (CallsRepository.JoinCall callID userID w2) as [[e|] w3]; simpl in *; [|done].
      split; [by right; right | by rewrite Hdb3, Hout3, Hdb2, Hout2]. }
  unfold Handlers.JoinCall, bind.
  pose proof (GetCallWithParticipants_quiet callID w) as [Hdb1 Hout1].
  destruct (CallsRepository.GetCallWithParticipants callID w) as [[[c|] [e|]] w1];
    simpl in *; try (intros [?|?]; discriminate).
  unfold ret. case_bool_decide; simpl; [intros [?|?]; discriminate|].
  assert (Hjoin : forall w2 e, CallsRepository.JoinCall callID userID w1 = (e, w2) ->
            e = None ->
            (exists joinedAt,
               tbl_call_participants (db w2)
               = tbl_call_participants (db w1) ++ [mkParticipantRow callID userID joinedAt None])
            /\ tbl_calls (db w2) = tbl_calls (db w1) /\ outbox w2 = outbox w1).
  { intros w2 e. unfold CallsRepository.JoinCall, bind, Now, roundtrip, getDB, putDB, ret,
      CallsRepository.insertParticipant.
    destruct (clock w1) as [|now later]; simpl;
      destruct (driver w1) as [|[e1|] rest]; simpl;
      try (intros [= <- <-]; discriminate);
      repeat (match goal with |- context [if ?b then _ else _] => destruct b end; simpl);
      intros [= <- <-]; try discriminate;
      intros _; simpl; (split; [by eexists|done]). }
  destruct (CallsRepository.JoinCall callID userID w1) as [[e|] w2] eqn:HJ; simpl;
    [intros [?|?]; discriminate|].
  destruct (Hjoin w2 None eq_refl eq_refl) as ((joinedAt & Hrows) & Hcalls & Hout2).
  unfold Handlers.respondWithToken, bind, ret.
  pose proof (GetUserByID_quiet userID w2) as [Hdb3 Hout3].
  destruct (StoreRepos.GetUserByID userID w2) as [[[u|] [e|]] w3]; simpl in *;
    try (intros _; rewrite Hdb3, Hout3, Hout2, Hout1, Hcalls, Hrows, Hdb1;
         (split; [by eexists|done]));
    try (intros [?|?]; discriminate).
  match goal with |- context [Voice.GenerateToken ?S ?r ?u ?n ?v] =>
    pose proof (GenerateToken_quiet S r u n v) as [Hdb4 Hout4];
    destruct (Voice.GenerateToken S r u n v) as [[token [e|]] w4] end; simpl in *.
  - intros _. rewrite Hdb4, Hout4, Hdb3, Hout3, Hout2, Hout1, Hcalls, Hrows, Hdb1.
    split; [by eexists|done].
  - destruct (Handlers.broadcastCallState _ _) as [[] w5]; simpl. intros [?|?]; discriminate.
Qed.

(** Carol joins call 500; the statement that reads her row of users fails:
    she gets a 500 and is in the call. *)
Lemma join_call_fails_after_write_witness :
  let w := mkWorld (mkStore [mkUUID 100]
                      [calls.mkCall (mkUUID 500) (mkUUID 100) (mkUUID 1) 1000 None None]
                      [mkParticipantRow (mkUUID 500) (mkUUID 1) 1000 None]
                      [(mkUUID 100, mkUUID 1); (mkUUID 100, mkUUID 3)]
                      [models.mkUser (mkUUID 1) "alice@example.org" (Some "alice") None "offline" 10 10;
                       models.mkUser (mkUUID 3) "carol@example.org" (Some "carol") None "offline" 30 30]
                      [])
             [None; None; None; Some (ErrDriver "conn closed")] [2000] [] [] in
  let r := Handlers.JoinCall (fun _ => (EmptyString, None)) EmptyString (mkUUID 3) (mkUUID 500) w in
  (exists joinedAt,
     tbl_call_participants (db r.2)
     = tbl_call_participants (db w) ++ [mkParticipantRow (mkUUID 500) (mkUUID 3) joinedAt None])
  /\ tbl_calls (db r.2) = tbl_calls (db w)
  /\ outbox r.2 = outbox w.
Proof.
  intros w.
  apply (join_call_fails_after_write (fun _ => (EmptyString, None)) EmptyString
           (mkUUID 3) (mkUUID 500) w).
  left. vm_compute. reflexivity.
Defined.

Lemma NotifyUsers_spec ids ty d w :
  db (NotifyUsers ids ty d w).2 = db w
  /\ outbox (NotifyUsers ids ty d w).2 = outbox w ++ [mkNotification ids ty d].
Proof. done. Qed.





Lemma broadcastCallState_db conversationID w :
  db (Handlers.broadcastCallState conversationID w).2 = db w.
Proof.
  unfold Handlers.broadcastCallState, bind, ret.
  pose proof (GetParticipantIDs_quiet conversationID w) as [H1 _].
  destruct (StoreRepos.GetParticipantIDs conversationID w) as [[ids [e|]] w1]; simpl in *; [done|].
  pose proof (GetActiveCallForConversation_quiet conversationID w1) as [H2 _].
  destruct (CallsRepository.GetActiveCallForConversation conversationID w1) as [[[c|] [e|]] w2];
    simpl in *; try congruence.
  pose proof (GetActiveParticipants_quiet (calls.ID c) w2) as [H3 _].
  destruct (CallsRepository.GetActiveParticipants (calls.ID c) w2) as [[ps e] w3]; simpl in *.
  congruence.
Qed.

(** With no call that ended at [now], setting ended_at to [now] for one call
    cannot run into UNIQUE(conversation_id, ended_at). *)
Lemma setEnded_no_clash now callID cs :
  (forall c, c ∈ cs -> calls.EndedAt c <> Some now) ->
  existsb (fun c => bool_decide (calls.ID c = callID)
                    && CallsRepository.clashes (map (CallsRepository.setEnded now callID) cs) c)
    (map (CallsRepository.setEnded now callID) cs) = false.
Proof.
  intros Hnone. apply not_true_iff_false. intros H.
  apply existsb_exists in H as (c & Hin & Hc).
  apply andb_true_iff in Hc as [Hid Hclash]. apply bool_decide_eq_true_1 in Hid.
  unfold CallsRepository.clashes in Hclash.
  apply existsb_exists in Hclash as (c' & Hin' & Hc').
  rewrite !andb_true_iff, !bool_decide_eq_true in Hc'.
  destruct Hc' as [[[Hne Hconv] Hend] Hsome].
  apply in_map_iff in Hin' as (c0 & <- & Hin0).
  apply in_map_iff in Hin as (c1 & <- & Hin1).
  unfold CallsRepository.setEnded in *.
  repeat case_bool_decide; simpl in *; try congruence.
  apply (Hnone c0); [by apply list_elem_of_In|]. congruence.
Qed.


(** X20.  [LeaveCall] reads the count of the rows still open with
    [count, _ := ...]: when that statement fails the count is 0, so the call
    is ended although other users are in it.  For a call of the store, with
    the count failing, the statements before and after it going through and
    no call of the store ended at the instant read for [EndCall] (so that
    the unique constraint is not hit), the answer is 204, the call's
    ended_at is set, and every row of the call that was open, of whatever
    user, is closed. *)
Theorem leave_count_failure_ends_call (userID callID : UUID) (w : World) (e : error)
    (t1 t2 : Time) (later : list Time) :
  driver w = [None; None; None; Some e] ->
  clock w = t1 :: t2 :: later ->
  (exists c, c ∈ tbl_calls (db w) /\ calls.ID c = callID) ->
  (forall c, c ∈ tbl_calls (db w) -> calls.EndedAt c <> Some t2) ->
  let r := Handlers.LeaveCallPlain userID callID w in
  r.1 = Handlers.HttpNoContent
  /\ (forall c, c ∈ tbl_calls (db r.2) -> calls.ID c = callID -> calls.EndedAt c = Some t2)
  /\ (forall p, p ∈ tbl_call_participants (db r.2) -> cp_call_id p = callID ->
        cp_left_at p <> None)
  /\ (forall i p, tbl_call_participants (db w) !! i = Some p ->
        cp_call_id p = callID -> cp_user_id p <> userID -> cp_left_at p = None ->
        tbl_call_participants (db r.2) !! i
        = Some (mkParticipantRow callID (cp_user_id p) (cp_joined_at p) (Some t2))).
Proof.
  intros Hd Hc (c0 & Hc0 & Hid0) Hnone. simpl.
  unfold Handlers.LeaveCallPlain, CallsRepository.GetCallWithParticipants,
    CallsRepository.LeaveCall, CallsRepository.GetActiveParticipantCount,
    CallsRepository.EndCall, bind, roundtrip, Now, getDB, putDB, ret.
  rewrite Hd. simpl.
  destruct (find _ (tbl_calls (db w))) as [c|] eqn:Hfind.
  2:{ apply list_elem_of_In in Hc0. pose proof (find_none _ _ Hfind c0 Hc0) as Hf.
      simpl in Hf. by rewrite bool_decide_eq_true_2 in Hf. }
  simpl. rewrite Hc. simpl.
  rewrite (setEnded_no_clash t2 callID (tbl_calls (db w)) Hnone). simpl.
  match goal with |- context [Handlers.broadcastCallState ?cv ?v] =>
    pose proof (broadcastCallState_db cv v) as Hb;
    destruct (Handlers.broadcastCallState cv v) as [[] w5] end.
  simpl in *. rewrite Hb. simpl. split; [done|]. split; [|split].
  - intros c' Hin Hid. apply list_elem_of_fmap in Hin as (c1 & -> & Hin1).
    unfold CallsRepository.setEnded in *. case_bool_decide; simpl in *; congruence.
  - intros p Hin Hcall. apply list_elem_of_fmap in Hin as (p1 & -> & Hin).
    apply list_elem_of_fmap in Hin as (p2 & -> & Hin).
    unfold CallsRepository.markLeft in *.
    repeat (case_bool_decide; simpl in *); try congruence.
  - intros i p Hp Hcall Huser Hleft.
    rewrite !list_lookup_fmap, Hp. simpl. f_equal.
    unfold CallsRepository.markLeft.
    repeat (case_bool_decide; simpl in *); try congruence.
Qed.

(** Alice leaves call 500 while bob is still in it, and the count fails. *)
Lemma leave_count_failure_ends_call_witness :
  let alice := mkUUID 1 in
  let bob := mkUUID 2 in
  let call := mkUUID 500 in
  let w := mkWorld (mkStore [mkUUID 100] [calls.mkCall call (mkUUID 100) alice 1000 None None]
                      [mkParticipantRow call alice 1000 None; mkParticipantRow call bob 1100 None]
                      [] [] [])
             [None; None; None; Some (ErrDriver "conn busy")] [2000; 2001] [] [] in
  let r := Handlers.LeaveCallPlain alice call w in
  tbl_call_participants (db r.2) !! 1%nat = Some (mkParticipantRow call bob 1100 (Some 2001)).
Proof.
  intros alice bob call w r.
  assert (Hcall : exists c, c ∈ tbl_calls (db w) /\ calls.ID c = call).
  { eexists. split; [apply list_elem_of_here|done]. }
  assert (Hnone : forall c, c ∈ tbl_calls (db w) -> calls.EndedAt c <> Some 2001).
  { intros c Hc. apply list_elem_of_singleton in Hc as ->. done. }
  destruct (leave_count_failure_ends_call alice call w (ErrDriver "conn busy") 2000 2001 []
              eq_refl eq_refl Hcall Hnone) as (_ & _ & _ & H).
  apply (H 1%nat (mkParticipantRow call bob 1100 None)); done.
Defined.

Lemma filter_none {A} (f : A -> bool) (l : list A) :
  (forall x, x ∈ l -> f x = false) -> List.filter f l = [].
Proof.
  induction l as [|a l IH]; intros H; simpl; [done|].
  rewrite (H a) by apply list_elem_of_here. apply IH. intros x Hx. apply H. by right.
Qed.

Lemma existsb_none {A} (f : A -> bool) (l : list A) :
  (forall x, x ∈ l -> f x = false) -> existsb f l = false.
Proof.
  induction l as [|a l IH]; intros H; simpl; [done|].
  rewrite (H a) by apply list_elem_of_here. apply IH. intros x Hx. apply H. by right.
Qed.

(** X21.  A first [StartCall] in a conversation.  With a store that does
    not fail, a user who is in no open call and has a row in users, no open
    call in the conversation, a fresh call id and a token service that
    signs.  When the conversation has a row in conversations, the answer
    carries the new call's id, the token and the voice URL; the store gains
    the call, open, and one open row for the starter, both stamped with the
    same instant; and the participants of the conversation are sent one
    CALL_STATE naming the call with the starter as its only participant.
    When the conversation has no row in conversations, the foreign key of
    calls refuses the insert: the answer is 500 "Failed to start call",
    nothing is written and nobody is notified. *)
Theorem start_call_opens_call
    (SignedString : Voice.VoiceClaims -> string * option error) (Host : string)
    (userID conversationID id : UUID) (w : World) (moreIds : list UUID)
    (now t1 t2 : Time) (later : list Time) :
  driver w = [] ->
  ids w = id :: moreIds ->
  clock w = now :: t1 :: t2 :: later ->
  (forall c p, c ∈ tbl_calls (db w) -> calls.EndedAt c = None ->
               p ∈ tbl_call_participants (db w) -> cp_call_id p = calls.ID c ->
               cp_user_id p = userID -> cp_left_at p <> None) ->
  (forall c, c ∈ tbl_calls (db w) -> calls.ConversationID c = conversationID ->
             calls.EndedAt c <> None) ->
  (forall c, c ∈ tbl_calls (db w) -> calls.ID c <> id) ->
  (forall p, p ∈ tbl_call_participants (db w) -> cp_call_id p <> id) ->
  (exists u, u ∈ tbl_users (db w) /\ models.ID u = userID) ->
  (forall claims, (SignedString claims).2 = None) ->
  let r := Handlers.StartCall SignedString Host userID conversationID w in
  (conversationID ∈ tbl_conversations (db w) ->
   (exists token, r.1 = Handlers.HttpJSON (Handlers.mkCallResponse (UUID_String id) token Host))
   /\ tbl_calls (db r.2)
      = tbl_calls (db w) ++ [calls.mkCall id conversationID userID now None None]
   /\ tbl_call_participants (db r.2)
      = tbl_call_participants (db w) ++ [mkParticipantRow id userID now None]
   /\ outbox r.2
      = outbox w ++
        [mkNotification
           (collected (map snd (List.filter (fun r => bool_decide (r.1 = conversationID))
                                  (tbl_conversation_participants (db w)))))
           "CALL_STATE"
           (Node.DataCallState
              (models.mkCallState conversationID (Some id) (Some [userID])))])
  /\ (conversationID ∉ tbl_conversations (db w) ->
      r.1 = Handlers.HttpError "Failed to start call" 500
      /\ db r.2 = db w /\ outbox r.2 = outbox w).
Proof.
  intros Hd Hi Hc Hfree Hnocall Hfresh Hfreshrows (u0 & Hu0 & Hu0id) Hsign. simpl.
  assert (Hnew : CallsRepository.hasCall (db w) id = false).
  { apply existsb_none. intros c Hin. apply bool_decide_eq_false_2. by apply Hfresh. }
  assert (Hspec : CallsRepository.hasConversation (db w) conversationID = true
                  <-> conversationID ∈ tbl_conversations (db w)).
  { unfold CallsRepository.hasConversation. rewrite existsb_exists. split.
    - intros (c & Hin & Hc'). apply bool_decide_eq_true_1 in Hc' as ->.
      by apply list_elem_of_In.
    - intros Hin. exists conversationID.
      split; [by apply list_elem_of_In | by apply bool_decide_eq_true_2]. }
  assert (Hhasuser : CallsRepository.hasUser (db w) userID = true).
  { apply existsb_exists. exists u0.
    split; [by apply list_elem_of_In | by apply bool_decide_eq_true_2]. }
  unfold Handlers.StartCall, CallsRepository.IsUserInCall, bind, roundtrip, getDB, ret.
  rewrite Hd. simpl.
  pose proof (inCall_find userID (db w)) as Hfind. simpl in Hfind.
  destruct (find _ (tbl_calls (db w))) as [c|].
  { exfalso. destruct Hfind as [Hin [Hend (p & Hp & Hcall & Huser & Hleft)]].
    by apply (Hfree c p). }
  clear Hfind. simpl.
  unfold CallsRepository.GetActiveCallForConversation, bind, roundtrip, getDB, ret.
  rewrite Hd. simpl.
  assert (Hnone : List.filter (fun c => CallsRepository.isActiveCall conversationID c)
                    (tbl_calls (db w)) = []).
  { apply filter_none. intros c Hin. unfold CallsRepository.isActiveCall.
    apply andb_false_iff. rewrite !bool_decide_eq_false.
    destruct (decide (calls.ConversationID c = conversationID)); [right|by left].
    by apply Hnocall. }
  rewrite Hnone. simpl.
  unfold CallsRepository.StartCall, bind, roundtrip, NewUUID, Now, getDB, putDB, ret.
  repeat (rewrite ?Hd, ?Hi, ?Hc, ?Hnew; simpl).
  destruct (CallsRepository.hasConversation (db w) conversationID) eqn:Hhasconv; simpl.
  2:{ split; [intros Hin; apply Hspec in Hin; congruence | done]. }
  split; [intros _ | intros Hnot; destruct Hnot; by apply Hspec].
  repeat (rewrite ?Hd, ?Hi, ?Hc, ?Hnew, ?Hhasuser; simpl).
  unfold CallsRepository.insertParticipant. simpl.
  rewrite existsb_none.
  2:{ intros p Hin. unfold CallsRepository.samePK.
      rewrite (bool_decide_eq_false_2 (cp_call_id p = id)) by by apply Hfreshrows. done. }
  match goal with |- context [CallsRepository.hasCall ?s ?i] =>
    replace (CallsRepository.hasCall s i) with true
      by (symmetry; unfold CallsRepository.hasCall; simpl; rewrite existsb_app; simpl;
          rewrite bool_decide_eq_true_2 by done; apply orb_true_r) end.
  match goal with |- context [CallsRepository.hasUser ?s ?i] =>
    change (CallsRepository.hasUser s i) with (CallsRepository.hasUser (db w) userID) end.
  rewrite Hhasuser. simpl.
  unfold Handlers.respondWithToken, StoreRepos.GetUserByID, bind, roundtrip, getDB, ret. simpl.
  destruct (find _ (tbl_users (db w))) as [u|] eqn:Hfindu.
  2:{ apply list_elem_of_In in Hu0. pose proof (find_none _ _ Hfindu u0 Hu0) as Hf.
      simpl in Hf. by rewrite bool_decide_eq_true_2 in Hf. }
  unfold AuthRepo.GetUserByID. simpl.
  unfold Voice.GenerateToken, bind, Now, ret. simpl.
  match goal with |- context [SignedString ?cl] =>
    pose proof (Hsign cl) as Hs; destruct (SignedString cl) as [token o] end.
  simpl in Hs. subst o. simpl.
  unfold Handlers.broadcastCallState, StoreRepos.GetParticipantIDs,
    CallsRepository.GetActiveCallForConversation, CallsRepository.GetActiveParticipants,
    bind, roundtrip, getDB, ret, NotifyUsers. simpl.
  rewrite List.filter_app, Hnone. simpl.
  unfold CallsRepository.isActiveCall. simpl.
  rewrite !bool_decide_eq_true_2 by done. simpl.
  unfold CallsRepository.activeRows. simpl. rewrite List.filter_app.
  rewrite (filter_none _ (tbl_call_participants (db w))).
  2:{ intros p Hin. unfold CallsRepository.isActiveParticipant.
      rewrite (bool_decide_eq_false_2 (cp_call_id p = id)) by by apply Hfreshrows. done. }
  simpl. unfold CallsRepository.isActiveParticipant. simpl.
  rewrite !bool_decide_eq_true_2 by done. simpl.
  split; [by eexists|]. done.
Qed.

(** Alice starts the first call of conversation 100, of which bob is a
    member too. *)
Lemma start_call_opens_call_witness :
  let alice := mkUUID 1 in
  let bob := mkUUID 2 in
  let conv := mkUUID 100 in
  let w := mkWorld (mkStore [conv] [] [] [(conv, alice); (conv, bob)]
                      [models.mkUser alice "alice@example.org" (Some "alice") None "offline" 10 10;
                       models.mkUser bob "bob@example.org" (Some "bob") None "offline" 20 20]
                      [])
             [] [1000; 1001; 1002] [mkUUID 500] [] in
  let r := Handlers.StartCall (fun _ => ("signed", None)) "wss://voice" alice conv w in
  outbox r.2
  = [mkNotification (Some [alice; bob]) "CALL_STATE"
       (Node.DataCallState (models.mkCallState conv (Some (mkUUID 500)) (Some [alice])))].
Proof.
  intros alice bob conv w r.
  assert (Huser : exists u, u ∈ tbl_users (db w) /\ models.ID u = alice).
  { eexists. split; [apply list_elem_of_here|done]. }
  assert (Hconv : conv ∈ tbl_conversations (db w)) by apply list_elem_of_here.
  assert (Hfree : forall c p, c ∈ tbl_calls (db w) -> calls.EndedAt c = None ->
                    p ∈ tbl_call_participants (db w) -> cp_call_id p = calls.ID c ->
                    cp_user_id p = alice -> cp_left_at p <> None).
  { intros c p Hc. by apply elem_of_nil in Hc. }
  assert (Hnocall : forall c, c ∈ tbl_calls (db w) -> calls.ConversationID c = conv ->
                      calls.EndedAt c <> None).
  { intros c Hc. by apply elem_of_nil in Hc. }
  assert (Hfresh : forall c, c ∈ tbl_calls (db w) -> calls.ID c <> mkUUID 500).
  { intros c Hc. by apply elem_of_nil in Hc. }
  assert (Hfreshrows : forall p, p ∈ tbl_call_participants (db w) -> cp_call_id p <> mkUUID 500).
  { intros p Hp. by apply elem_of_nil in Hp. }
  destruct (start_call_opens_call (fun _ => ("signed", None)) "wss://voice" alice conv
              (mkUUID 500) w [] 1000 1001 1002 [] eq_refl eq_refl eq_refl
              Hfree Hnocall Hfresh Hfreshrows Huser (fun _ => eq_refl))
    as [Hopen _].
  destruct (Hopen Hconv) as (_ & _ & _ & H).
  exact H.
Defined.

(** ** Leaving a call *)

(** The rows of a call still open once a user's rows are closed: the open
    rows of the others. *)
Lemma activeRows_after_leave now callID userID (rows : list ParticipantRow) :
  List.filter (fun p => CallsRepository.isActiveParticipant callID p)
    (map (CallsRepository.markLeft now
            (fun p => bool_decide (cp_call_id p = callID) && bool_decide (cp_user_id p = userID)))
       rows)
  = List.filter (fun p => CallsRepository.isActiveParticipant callID p
                          && negb (bool_decide (cp_user_id p = userID))) rows.
Proof.
  induction rows as [|p rows IH]; simpl; [done|].
  rewrite IH. unfold CallsRepository.markLeft, CallsRepository.isActiveParticipant.
  repeat (case_bool_decide; simpl in * ); try done; congruence.
Qed.

Lemma activeRows_withCallParticipants_leave s now callID userID :
  CallsRepository.activeRows
    (withCallParticipants s
       (map (CallsRepository.markLeft now
               (fun p => bool_decide (cp_call_id p = callID)
                         && bool_decide (cp_user_id p = userID)))
          (tbl_call_participants s))) callID
  = List.filter (fun p => CallsRepository.isActiveParticipant callID p
                          && negb (bool_decide (cp_user_id p = userID)))
      (tbl_call_participants s).
Proof. unfold CallsRepository.activeRows. simpl. apply activeRows_after_leave. Qed.

(** [EndCall] with a driver that does not fail and no call ended at the
    present instant. *)
Lemma EndCall_succeeds callID w now later :
  clock w = now :: later -> driver w = [] ->
  (forall c, c ∈ tbl_calls (db w) -> calls.EndedAt c <> Some now) ->
  CallsRepository.EndCall callID w
  = (None,
     mkWorld
       (withCalls
          (withCallParticipants (db w)
             (map (CallsRepository.markLeft now (fun p => bool_decide (cp_call_id p = callID)))
                (tbl_call_participants (db w))))
          (map (CallsRepository.setEnded now callID) (tbl_calls (db w))))
       [] later (ids w) (outbox w)).
Proof.
  intros Hc Hd Hnone.
  unfold CallsRepository.EndCall, bind, Now, roundtrip, getDB, putDB, ret.
  rewrite Hc. simpl. rewrite Hd. simpl.
  by rewrite (setEnded_no_clash now callID (tbl_calls (db w)) Hnone).
Qed.

(** With a driver that does not fail, [broadcastCallState] sends. *)
Lemma broadcastCallState_sends conversationID w :
  driver w = [] ->
  exists n, outbox (Handlers.broadcastCallState conversationID w).2 = outbox w ++ [n]
            /\ eventType n = "CALL_STATE".
Proof.
  intros Hd.
  unfold Handlers.broadcastCallState, StoreRepos.GetParticipantIDs,
    CallsRepository.GetActiveCallForConversation, CallsRepository.GetActiveParticipants,
    bind, roundtrip, getDB, ret, NotifyUsers.
  repeat (rewrite ?Hd; simpl).
  destruct (CallsRepository.latest _); repeat (rewrite ?Hd; simpl); by eexists.
Qed.

(** X22.  [LeaveCall] for a call of the store, with a store that does not
    fail and no call ended at the instant read for [EndCall], answers 204,
    closes the caller's open rows in the call and sends one CALL_STATE.
    When no other user has an open row in the call, the call is ended: its
    ended_at is set to the instant read for [EndCall].  When another user
    has one, the calls table is not touched and the others' open rows stay
    open. *)
Theorem leave_call_ends_empty_call (userID callID : UUID) (w : World)
    (t1 t2 : Time) (later : list Time) :
  driver w = [] ->
  clock w = t1 :: t2 :: later ->
  (exists c, c ∈ tbl_calls (db w) /\ calls.ID c = callID) ->
  (forall c, c ∈ tbl_calls (db w) -> calls.EndedAt c <> Some t2) ->
  let r := Handlers.LeaveCallPlain userID callID w in
  let others :=
    List.filter (fun p => CallsRepository.isActiveParticipant callID p
                          && negb (bool_decide (cp_user_id p = userID)))
      (tbl_call_participants (db w)) in
  r.1 = Handlers.HttpNoContent
  /\ (forall p, p ∈ tbl_call_participants (db r.2) -> cp_call_id p = callID ->
        cp_user_id p = userID -> cp_left_at p <> None)
  /\ match others with
     | [] => forall c, c ∈ tbl_calls (db r.2) -> calls.ID c = callID ->
                       calls.EndedAt c = Some t2
     | _ => tbl_calls (db r.2) = tbl_calls (db w)
            /\ CallsRepository.activeRows (db r.2) callID = others
     end
  /\ exists n, outbox r.2 = outbox w ++ [n] /\ eventType n = "CALL_STATE".
Proof.
  intros Hd Hc (c0 & Hc0 & Hid0) Hnone. simpl.
  unfold Handlers.LeaveCallPlain, CallsRepository.GetCallWithParticipants,
    CallsRepository.LeaveCall, CallsRepository.GetActiveParticipantCount,
    bind, roundtrip, Now, getDB, putDB, ret.
  repeat (rewrite ?Hd, ?Hc; simpl).
  destruct (find _ (tbl_calls (db w))) as [c|] eqn:Hfind.
  2:{ apply list_elem_of_In in Hc0. pose proof (find_none _ _ Hfind c0 Hc0) as Hf.
      simpl in Hf. by rewrite bool_decide_eq_true_2 in Hf. }
  repeat (rewrite ?Hd, ?Hc; simpl).
  pose proof (activeRows_withCallParticipants_leave (db w) t1 callID userID) as Hrows.
  rewrite Hrows.
  assert (Hleft : forall sel p,
            p ∈ map sel (map (CallsRepository.markLeft t1
                    (fun p => bool_decide (cp_call_id p = callID)
                              && bool_decide (cp_user_id p = userID)))
                    (tbl_call_participants (db w))) ->
            (forall q, cp_call_id (sel q) = cp_call_id q /\ cp_user_id (sel q) = cp_user_id q
                       /\ (cp_left_at q <> None -> cp_left_at (sel q) <> None)) ->
            cp_call_id p = callID -> cp_user_id p = userID -> cp_left_at p <> None).
  { intros sel p Hin Hsel Hcall Huser.
    apply list_elem_of_fmap in Hin as (p1 & -> & Hin).
    apply list_elem_of_fmap in Hin as (p2 & -> & Hin).
    destruct (Hsel (CallsRepository.markLeft t1
                (fun p => bool_decide (cp_call_id p = callID)
                          && bool_decide (cp_user_id p = userID)) p2)) as (E1 & E2 & E3).
    apply E3. rewrite E1 in Hcall. rewrite E2 in Huser.
    unfold CallsRepository.markLeft in *.
    repeat (case_bool_decide; simpl in * ); congruence. }
  destruct (List.filter _ (tbl_call_participants (db w))) as [|o others] eqn:Hothers; simpl.
  - rewrite (EndCall_succeeds callID _ t2 later) by done. simpl.
    match goal with |- context [Handlers.broadcastCallState ?cv ?v] =>
      pose proof (broadcastCallState_db cv v) as Hb;
      pose proof (broadcastCallState_sends cv v eq_refl) as Hs;
      destruct (Handlers.broadcastCallState cv v) as [[] w5] end.
    simpl in *. rewrite Hb. simpl. split; [done|]. split; [|split; [|done]].
    + intros p Hin. apply (Hleft _ p Hin). intros q.
      unfold CallsRepository.markLeft. repeat (case_bool_decide; simpl); done.
    + intros c' Hin Hid. apply list_elem_of_fmap in Hin as (c1 & -> & Hin1).
      unfold CallsRepository.setEnded in *. case_bool_decide; simpl in *; congruence.
  - match goal with |- context [Handlers.broadcastCallState ?cv ?v] =>
      pose proof (broadcastCallState_db cv v) as Hb;
      pose proof (broadcastCallState_sends cv v eq_refl) as Hs;
      destruct (Handlers.broadcastCallState cv v) as [[] w5] end.
    simpl in *. rewrite Hb. simpl. split; [done|]. split; [|split; [|done]].
    + intros p Hin. rewrite <- (map_id (map _ _)) in Hin. by apply (Hleft _ p Hin).
    + split; [done|]. by rewrite Hrows.
Qed.

(** Alice leaves call 500 while bob is in it: the call goes on with bob. *)
Lemma leave_call_ends_empty_call_witness :
  let alice := mkUUID 1 in
  let bob := mkUUID 2 in
  let call := mkUUID 500 in
  let w := mkWorld (mkStore [mkUUID 100] [calls.mkCall call (mkUUID 100) alice 1000 None None]
                      [mkParticipantRow call alice 1000 None; mkParticipantRow call bob 1100 None]
                      [(mkUUID 100, alice); (mkUUID 100, bob)] [] [])
             [] [2000; 2001] [] [] in
  let r := Handlers.LeaveCallPlain alice call w in
  tbl_calls (db r.2) = tbl_calls (db w)
  /\ CallsRepository.activeRows (db r.2) call = [mkParticipantRow call bob 1100 None].
Proof.
  intros alice bob call w r.
  assert (Hcall : exists c, c ∈ tbl_calls (db w) /\ calls.ID c = call).
  { eexists. split; [apply list_elem_of_here|done]. }
  assert (Hnone : forall c, c ∈ tbl_calls (db w) -> calls.EndedAt c <> Some 2001).
  { intros c Hc. apply list_elem_of_singleton in Hc as ->. done. }
  destruct (leave_call_ends_empty_call alice call w 2000 2001 [] eq_refl eq_refl Hcall Hnone)
    as (_ & _ & H & _).
  exact H.
Defined.

(** ** One open call per conversation *)

Lemma roundtrip_driver w : driver (roundtrip w).2 = tail (driver w).
Proof. unfold roundtrip. destruct (driver w) eqn:Hd; simpl; by rewrite ?Hd. Qed.

Lemma IsUserInCall_driver userID w :
  driver (CallsRepository.IsUserInCall userID w).2 = tail (driver w).
Proof.
  unfold CallsRepository.IsUserInCall, bind, getDB, ret.
  pose proof (roundtrip_driver w) as H.
  destruct (roundtrip w) as [[e|] w1]; simpl in *; [|done]. by case_decide.
Qed.

Lemma JoinCall_calls callID userID w :
  tbl_calls (db (CallsRepository.JoinCall callID userID w).2) = tbl_calls (db w).
Proof.
  unfold CallsRepository.JoinCall, bind, Now, roundtrip, getDB, putDB, ret,
    CallsRepository.insertParticipant.
  destruct (clock w) as [|now later]; simpl;
    destruct (driver w) as [|[e|] rest]; simpl; try done;
    repeat (match goal with |- context [if ?b then _ else _] => destruct b end; simpl);
    done.
Qed.

Lemma respondWithToken_db SignedString Host userID conversationID call w :
  db (Handlers.respondWithToken SignedString Host userID conversationID call w).2 = db w.
Proof.
  unfold Handlers.respondWithToken, bind, ret.
  pose proof (GetUserByID_quiet userID w) as [H1 _].
  destruct (StoreRepos.GetUserByID userID w) as [[[u|] [e|]] w1]; simpl in *; try done.
  match goal with |- context [Voice.GenerateToken ?S ?r ?u ?n ?v] =>
    pose proof (GenerateToken_quiet S r u n v) as [H2 _];
    destruct (Voice.GenerateToken S r u n v) as [[token [e|]] w2] end; simpl in *;
    [congruence|].
  pose proof (broadcastCallState_db conversationID w2) as H3.
  destruct (Handlers.broadcastCallState conversationID w2) as [[] w3]. simpl in *. congruence.
Qed.

(** What the repository's [StartCall] does to the calls table. *)
Lemma StartCall_calls conversationID userID w :
  let r := CallsRepository.StartCall conversationID userID w in
  match r.1 with
  | (Some _, None) =>
      exists id now,
        tbl_calls (db r.2)
        = tbl_calls (db w) ++ [calls.mkCall id conversationID userID now None None]
  | _ => db r.2 = db w
  end.
Proof.
  simpl. unfold CallsRepository.StartCall, bind, Now, NewUUID, roundtrip, getDB, putDB, ret.
  destruct (ids w) as [|id moreIds] eqn:Hi; destruct (clock w) as [|now later] eqn:Hc;
    destruct (driver w) as [|[e1|] [|[e2|] [|[e3|] [|[e4|] rest]]]] eqn:Hd;
    cbn [fst snd db driver clock ids outbox];
    repeat (rewrite ?Hd, ?Hi, ?Hc; cbn [fst snd db driver clock ids outbox]);
    try done;
    (destruct (CallsRepository.hasCall (db w) _); [done|];
     destruct (CallsRepository.hasConversation (db w) conversationID); cbn [negb]; [|done];
     destruct (CallsRepository.hasUser (db w) userID); cbn [negb]; [|done];
     repeat (rewrite ?Hd, ?Hi, ?Hc; cbn [fst snd db driver clock ids outbox]);
     try done;
     destruct (CallsRepository.insertParticipant _ _ _ _) as [e|s2] eqn:Hins;
     repeat (rewrite ?Hd, ?Hi, ?Hc; cbn [fst snd db driver clock ids outbox]);
     try done;
     unfold CallsRepository.insertParticipant in Hins;
     repeat (match type of Hins with
             | (if ?b then _ else _) = _ => destruct b; [discriminate|]
             | (if negb ?b then _ else _) = _ => destruct b; cbn [negb] in Hins; [|discriminate]
             end);
     injection Hins as <-; simpl; by do 2 eexists).
Qed.

(** X23.  Requests served one after the other keep at most one open call
    per conversation: if no two calls of the store that have not ended
    belong to the same conversation, the same holds after [StartCall],
    whatever fails on the way, as long as the driver does not report
    [pgx.ErrNoRows] as the failure of the lookup of the conversation's open
    call.  (The table's UNIQUE(conversation_id, ended_at) does not see two
    rows whose ended_at is NULL; the handler's lookup does.) *)
Theorem start_call_keeps_one_open_call
    (SignedString : Voice.VoiceClaims -> string * option error) (Host : string)
    (userID conversationID : UUID) (w : World) :
  let oneOpenCall (s : Store) :=
    forall c1 c2, c1 ∈ tbl_calls s -> c2 ∈ tbl_calls s ->
                  calls.EndedAt c1 = None -> calls.EndedAt c2 = None ->
                  calls.ConversationID c1 = calls.ConversationID c2 ->
                  calls.ID c1 = calls.ID c2 in
  oneOpenCall (db w) ->
  failure w 1 <> Some ErrNoRows ->
  oneOpenCall (db (Handlers.StartCall SignedString Host userID conversationID w).2).
Proof.
  simpl. intros Hone Hrows.
  unfold Handlers.StartCall, bind.
  pose proof (IsUserInCall_quiet userID w) as [Hdb1 _].
  pose proof (IsUserInCall_driver userID w) as Hdrv1.
  destruct (CallsRepository.IsUserInCall userID w) as [[existing [e|]] w1]; simpl in *;
    [by rewrite Hdb1|].
  destruct (match existing with Some c => _ | None => false end); simpl; [by rewrite Hdb1|].
  assert (Hf : (roundtrip w1).1 <> Some ErrNoRows).
  { rewrite roundtrip_failure. unfold failure in *. rewrite Hdrv1.
    by destruct (driver w) as [|f0 [|f1 rest]]. }
  unfold CallsRepository.GetActiveCallForConversation, bind, getDB, ret.
  pose proof (roundtrip_quiet w1) as [Hdb2 _].
  destruct (roundtrip w1) as [[e|] w2]; simpl in *.
  { rewrite bool_decide_eq_true_2 by congruence. simpl. by rewrite Hdb2, Hdb1. }
  pose proof (latest_spec (List.filter (fun c => CallsRepository.isActiveCall conversationID c)
                             (tbl_calls (db w2)))) as Hl.
  destruct (CallsRepository.latest _) as [c|]; simpl.
  - pose proof (JoinCall_calls (calls.ID c) userID w2) as Hj.
    destruct (CallsRepository.JoinCall (calls.ID c) userID w2) as [[e|] w3]; simpl in *.
    + rewrite Hj, Hdb2, Hdb1. apply Hone.
    + rewrite respondWithToken_db, Hj, Hdb2, Hdb1. apply Hone.
  - pose proof (StartCall_calls conversationID userID w2) as Hs. simpl in Hs.
    destruct (CallsRepository.StartCall conversationID userID w2) as [[[c|] [e|]] w3];
      simpl in *; try (rewrite Hs, Hdb2, Hdb1; apply Hone).
    rewrite respondWithToken_db. destruct Hs as (id & now & ->).
    rewrite Hdb2, Hdb1 in *.
    assert (Hnew : forall c0, c0 ∈ tbl_calls (db w) -> calls.EndedAt c0 = None ->
                     calls.ConversationID c0 <> conversationID).
    { intros c0 Hin Hend Hconv.
      assert (c0 ∈ List.filter (fun c => CallsRepository.isActiveCall conversationID c)
                     (tbl_calls (db w))) as Hc0.
      { apply elem_of_filter_bool. split; [done|].
        unfold CallsRepository.isActiveCall. by rewrite !bool_decide_eq_true_2. }
      rewrite Hl in Hc0. by apply elem_of_nil in Hc0. }
    intros c1 c2 H1 H2 E1 E2 Hconv.
    apply elem_of_app in H1 as [H1|H1]; apply elem_of_app in H2 as [H2|H2].
    + by apply Hone.
    + apply list_elem_of_singleton in H2 as ->. simpl in *. by destruct (Hnew c1).
    + apply list_elem_of_singleton in H1 as ->. simpl in *. by destruct (Hnew c2).
    + apply list_elem_of_singleton in H1 as ->. by apply list_elem_of_singleton in H2 as ->.
Qed.

(** Bob asks for a call in conversation 100, where alice's call 500 is open:
    no second call is opened. *)
Lemma start_call_keeps_one_open_call_witness :
  let alice := mkUUID 1 in
  let bob := mkUUID 2 in
  let w := mkWorld (mkStore [mkUUID 100] [calls.mkCall (mkUUID 500) (mkUUID 100) alice 1000 None None]
                      [mkParticipantRow (mkUUID 500) alice 1000 None]
                      [(mkUUID 100, alice); (mkUUID 100, bob)]
                      [models.mkUser alice "alice@example.org" (Some "alice") None "offline" 10 10;
                       models.mkUser bob "bob@example.org" (Some "bob") None "offline" 20 20] [])
             [] [2000; 2001; 2002] [mkUUID 501] [] in
  let s := db (Handlers.StartCall (fun _ => ("signed", None)) "wss://voice" bob (mkUUID 100) w).2 in
  Forall (fun c1 =>
            Forall (fun c2 =>
                      calls.EndedAt c1 = None -> calls.EndedAt c2 = None ->
                      calls.ConversationID c1 = calls.ConversationID c2 ->
                      calls.ID c1 = calls.ID c2)
              (tbl_calls s))
    (tbl_calls s).
Proof.
  intros alice bob w s.
  apply Forall_forall. intros c1 H1. apply Forall_forall. intros c2 H2. revert c1 c2 H1 H2.
  apply (start_call_keeps_one_open_call (fun _ => ("signed", None)) "wss://voice" bob
           (mkUUID 100) w).
  - intros c1 c2 H1 H2 _ _ _.
    apply list_elem_of_singleton in H1 as ->. by apply list_elem_of_singleton in H2 as ->.
  - discriminate.
Defined.

(** ** The end of a call *)






















(** The requests of [serve] are the handler: a request served alone goes
    through the steps of [LeaveCall]. *)
Lemma LeaveCallWithInfo_steps marshalContent userID callID w :
  let alone := Handlers.serve marshalContent [0; 0; 0; 0; 0; 0]%nat
                 [Handlers.RqFetch userID callID] w in
  let r := Handlers.LeaveCallWithInfo marshalContent userID callID w in
  alone.1.1 = [Handlers.RqDone r.1] /\ alone.2 = r.2.
Proof.
  unfold Handlers.LeaveCallWithInfo, Handlers.LeaveCall.
  repeat (unfold bind, ret; cbn -[Handlers.createCallMessage]).
  destruct (CallsRepository.GetCallWithParticipants callID w) as [[[c|] [e|]] w1];
    repeat (unfold bind, ret; cbn -[Handlers.createCallMessage]); try done.
  destruct (CallsRepository.LeaveCall callID userID w1) as [[e|] w2];
    repeat (unfold bind, ret; cbn -[Handlers.createCallMessage]); try done.
  destruct (CallsRepository.GetActiveParticipantCount callID w2) as [[count e] w3].
  case_decide; repeat (unfold bind, ret; cbn -[Handlers.createCallMessage]).
  - destruct (CallsRepository.EndCallWithInfo callID w3) as [[[callInfo|] [e1|]] w4];
      repeat (unfold bind, ret; cbn -[Handlers.createCallMessage]);
      try (by destruct (Handlers.broadcastCallState (calls.ConversationID c) w4) as [[] w5]).
    destruct (Handlers.createCallMessage marshalContent (Some callInfo) w4) as [[] w5].
    repeat (unfold bind, ret; cbn -[Handlers.createCallMessage]).
    by destruct (Handlers.broadcastCallState (calls.ConversationID c) w5) as [[] w6].
  - by destruct (Handlers.broadcastCallState (calls.ConversationID c) w3) as [[] w5].
Qed.



